(** * logtool: a rotating, per-level file logger

    A shallow embedding of the Go package [logtool] (files [filelog.go] and
    the facade with [SetLevel], [SetName], [Level.Set], [write], ...) and the
    properties of its rotation, line assembly, flushing, buffer free list and
    configuration checks.

    Conventions.
    - Go strings and byte slices are [string] (a sequence of bytes).
    - [Level] is a Go [byte] and [nbytes] a [uint64]: both are [N], the
      [uint64] addition is reduced modulo [2^64].  [slot] is a Go [int]: a [Z]
      whose addition wraps into the 64-bit two's complement range.
    - The operating system (handle table, system calls performed, console)
      is an explicit state [OS]; what the environment decides (which
      [MkdirAll], [OpenFile], [Write], [Sync] calls fail) is an oracle [Env]
      passed to every operation.
    - A Go panic is the outcome [Panic]; an [error] value is its message. *)

From Stdlib Require Import ZArith NArith List String Ascii Bool Lia DecimalString.
From Stdlib Require DecimalPos DecimalN.
Import ListNotations.

Open Scope string_scope.
Open Scope Z_scope.

Set Implicit Arguments.

(* ================================================================= *)
(** ** Bytes, strings and decimal printing *)

Definition newline : ascii := "010"%char.
Definition slash : ascii := "/"%char.

(** [strings.HasSuffix]:
    [len(s) >= len(suffix) && s[len(s)-len(suffix):] == suffix]. *)
Definition HasSuffix (s suffix : string) : bool :=
  let n := String.length s in
  let m := String.length suffix in
  (m <=? n)%nat && String.eqb (substring (n - m) m s) suffix.

(** [strings.HasPrefix]. *)
Definition HasPrefix (s pre : string) : bool := String.prefix pre s.

(** The last byte of a string, [b[len(b)-1]]; [None] stands for the index
    out of range on an empty slice. *)
Fixpoint last_byte (s : string) : option ascii :=
  match s with
  | EmptyString => None
  | String c EmptyString => Some c
  | String _ r => last_byte r
  end.

(** [len(s)]. *)
Definition len (s : string) : N := N.of_nat (String.length s).

(** Decimal digits of a natural number, as [strconv] and [fmt] print them. *)
Definition dec (n : N) : string := NilZero.string_of_uint (N.to_uint n).

(** [strconv.Itoa] and the verb [%d]. *)
Definition Itoa (z : Z) : string :=
  if z <? 0 then "-" ++ dec (Z.to_N (- z)) else dec (Z.to_N z).

Fixpoint zeros (k : nat) : string :=
  match k with
  | O => ""
  | S k' => String "0" (zeros k')
  end.

(** Left padding with ['0'] up to [w] characters. *)
Definition pad0 (w : nat) (digits : string) : string :=
  zeros (w - String.length digits) ++ digits.

(** The verb [%0wd] of [fmt]: the sign counts in the width. *)
Definition fmt_0d (w : nat) (z : Z) : string :=
  if z <? 0 then "-" ++ pad0 (w - 1) (dec (Z.to_N (- z)))
  else pad0 w (dec (Z.to_N z)).

(** [appendInt] of package [time]: the sign does not count in the width. *)
Definition appendInt (z : Z) (w : nat) : string :=
  if z <? 0 then "-" ++ pad0 w (dec (Z.to_N (- z)))
  else pad0 w (dec (Z.to_N z)).

(* ================================================================= *)
(** ** Wall-clock time *)

(** A [time.Time] as the calendar fields that [Date], [Hour] and [Format]
    read, all in the location of the value. *)
Record Time := mkTime {
  t_year : Z;
  t_month : Z;
  t_day : Z;
  t_hour : Z;
  t_minute : Z;
  t_second : Z;
  t_nsec : Z
}.

(** The zero [time.Time]: January 1, year 1, 00:00:00. *)
Definition zeroTime : Time := mkTime 1 1 1 0 0 0 0.

Definition Date (t : Time) : Z * Z * Z := (t_year t, t_month t, t_day t).
Definition Hour (t : Time) : Z := t_hour t.

(** Removal of trailing ['0'] characters. *)
Fixpoint trim_zeros (s : string) : string :=
  match s with
  | EmptyString => EmptyString
  | String c r =>
      match trim_zeros r with
      | EmptyString => if Ascii.eqb c "0" then EmptyString else String c EmptyString
      | r' => String c r'
      end
  end.

(** The layout element [.999]: up to three fractional digits, trailing
    zeros removed, nothing at all when the nanoseconds are zero or no digit
    is left. *)
Definition appendNano3 (nsec : Z) : string :=
  if nsec =? 0 then ""
  else
    match trim_zeros (substring 0 3 (appendInt nsec 9)) with
    | EmptyString => ""
    | ds => "." ++ ds
    end.

(** Layout ["2006-01-02 15:04:05"]. *)
Definition Format_datetime (t : Time) : string :=
  appendInt (t_year t) 4 ++ "-" ++ appendInt (t_month t) 2 ++ "-" ++
  appendInt (t_day t) 2 ++ " " ++ appendInt (t_hour t) 2 ++ ":" ++
  appendInt (t_minute t) 2 ++ ":" ++ appendInt (t_second t) 2.

(** Layout ["2006-01-02 15:04:05.999 "], the stamp of a file line. *)
Definition Format_stamp (t : Time) : string :=
  Format_datetime t ++ appendNano3 (t_nsec t) ++ " ".

(* ================================================================= *)
(** ** Lexical path processing: [filepath.Clean] and [filepath.Join] *)

(** The elements of a path between its separators. *)
Fixpoint split_slash (s : string) : list string :=
  match s with
  | EmptyString => [EmptyString]
  | String c r =>
      if Ascii.eqb c slash then EmptyString :: split_slash r
      else
        match split_slash r with
        | h :: t => String c h :: t
        | [] => [String c EmptyString]
        end
  end.

(** One element processed by [Clean]; [stack] holds the elements kept so
    far, the last one first.  Empty and [.] elements vanish, [..] removes the
    element before it, is dropped at the root, and is kept at the head of a
    relative path. *)
Definition clean_step (rooted : bool) (stack : list string) (c : string)
  : list string :=
  if String.eqb c "" || String.eqb c "." then stack
  else if String.eqb c ".." then
    match stack with
    | top :: rest => if String.eqb top ".." then c :: stack else rest
    | [] => if rooted then [] else [c]
    end
  else c :: stack.

Definition clean_stack (path : string) : list string :=
  fold_left (clean_step (HasPrefix path "/")) (split_slash path) [].

(** [filepath.Clean] on a system whose separator is ['/']. *)
Definition Clean (path : string) : string :=
  let body := String.concat "/" (rev (clean_stack path)) in
  if HasPrefix path "/" then "/" ++ body
  else if String.eqb body "" then "." else body.

(** [filepath.Join] of two elements: the elements from the first non-empty
    one on are joined with the separator and cleaned. *)
Definition Join (a b : string) : string :=
  if negb (String.eqb a "") then Clean (a ++ "/" ++ b)
  else if negb (String.eqb b "") then Clean b
  else "".

(* ================================================================= *)
(** ** Levels *)

(** [type Level byte]. *)
Definition Level := N.

Definition levelDefault : Level := 0%N.
Definition LevelDebug : Level := 1%N.
Definition LevelInfo : Level := 2%N.
Definition LevelWarn : Level := 3%N.
Definition LevelError : Level := 4%N.
Definition LevelAction : Level := 5%N.

Definition levelName : list string :=
  ["output"; "debug"; "info"; "warn"; "error"; "action"].

(** Indexing a slice by a level; [None] is the run-time panic
    "index out of range". *)
Definition index_level {A : Type} (l : list A) (lv : Level) : option A :=
  nth_error l (N.to_nat lv).

(* ================================================================= *)
(** ** The operating system and the outcome of an operation *)

Definition error := string.
Definition fd := nat.

(** An entry of the handle table: the path an [os.File] was opened on and
    whether it is still open. *)
Record OFile := mkOFile {
  of_path : string;
  of_open : bool
}.

(** System calls the logger performs, in the order they are performed. *)
Inductive Event :=
| EMkdirAll (dir : string)
| EOpenFile (path : string)
| EWrite (f : fd) (data : string)
| EClose (f : fd)
| ESync (f : fd).

Record OS := mkOS {
  os_files : list OFile;      (* handle table; a handle is its index *)
  os_trace : list Event;      (* system calls so far, oldest first *)
  os_console : list string    (* lines printed by fmt.Println, oldest first *)
}.

(** What the environment decides: the error, if any, of each system call. *)
Record Env := mkEnv {
  mkdir_err : string -> option error;
  open_err : string -> option error;
  write_err : fd -> option error;
  sync_err : fd -> option error
}.

Inductive Outcome (A : Type) :=
| Ret (a : A)
| Panic (msg : string).
Arguments Ret {A} a.
Arguments Panic {A} msg.

(** Operations thread the operating system and may panic. *)
Definition M (A : Type) : Type := OS -> Outcome A * OS.

Definition ret {A} (a : A) : M A := fun os => (Ret a, os).

Definition bind {A B} (m : M A) (k : A -> M B) : M B :=
  fun os =>
    match m os with
    | (Ret a, os') => k a os'
    | (Panic msg, os') => (Panic msg, os')
    end.

Definition panic {A} (msg : string) : M A := fun os => (Panic msg, os).

Notation "x <- m ;; k" := (bind m (fun x => k))
  (at level 61, m at next level, right associativity).
Notation "m ;;; k" := (bind m (fun _ => k))
  (at level 61, right associativity).

Definition emit (ev : Event) : M unit :=
  fun os => (Ret tt, mkOS (os_files os) (os_trace os ++ [ev]) (os_console os)).

(** [fmt.Println] of one string. *)
Definition Println (s : string) : M unit :=
  fun os => (Ret tt, mkOS (os_files os) (os_trace os) (os_console os ++ [s])).

Definition is_open (os : OS) (f : fd) : bool :=
  match nth_error (os_files os) f with
  | Some o => of_open o
  | None => false
  end.

(** [os.MkdirAll(dir, os.ModePerm)]. *)
Definition MkdirAll (e : Env) (dir : string) : M (option error) :=
  emit (EMkdirAll dir) ;;; ret (mkdir_err e dir).

(** [os.OpenFile(name, O_RDWR|O_CREATE|O_APPEND, 0666)]: a fresh handle on
    success. *)
Definition OpenFile (e : Env) (name : string) : M (fd + error) :=
  emit (EOpenFile name) ;;;
  match open_err e name with
  | Some err => ret (inr err)
  | None =>
      fun os =>
        (Ret (inl (List.length (os_files os))),
         mkOS (os_files os ++ [mkOFile name true]) (os_trace os) (os_console os))
  end.

(** [Write] of [os.File]: fails on a closed handle or when the environment
    says so; otherwise the whole slice is written. *)
Definition File_Write (e : Env) (f : fd) (p : string) : M (N * option error) :=
  emit (EWrite f p) ;;;
  fun os =>
    if is_open os f then
      match write_err e f with
      | Some err => (Ret (0%N, Some err), os)
      | None => (Ret (len p, None), os)
      end
    else (Ret (0%N, Some "file already closed"), os).

Fixpoint close_at (l : list OFile) (f : nat) : list OFile :=
  match l, f with
  | [], _ => []
  | o :: r, O => mkOFile (of_path o) false :: r
  | o :: r, S f' => o :: close_at r f'
  end.

(** [Close] of [os.File]: an error on a handle that is already closed. *)
Definition File_Close (f : fd) : M (option error) :=
  emit (EClose f) ;;;
  fun os =>
    if is_open os f then
      (Ret None, mkOS (close_at (os_files os) f) (os_trace os) (os_console os))
    else (Ret (Some "file already closed"), os).

(** [Sync] of [os.File]. *)
Definition File_Sync (e : Env) (f : fd) : M (option error) :=
  emit (ESync f) ;;;
  fun os =>
    if is_open os f then (Ret (sync_err e f), os)
    else (Ret (Some "file already closed"), os).

(* ================================================================= *)
(** ** [bufio.Writer] *)

Record bufioWriter := mkBufio {
  bw_wr : fd;               (* the file underneath *)
  bw_size : N;              (* len(b.buf), the capacity *)
  bw_buf : string;          (* the b.n bytes buffered so far *)
  bw_err : option error     (* the sticky error *)
}.

(** [bufio.NewWriterSize(file, size)] for a positive [size]. *)
Definition NewWriterSize (f : fd) (size : N) : bufioWriter :=
  mkBufio f size "" None.

Definition Available (b : bufioWriter) : N := (bw_size b - len (bw_buf b))%N.

(** [Flush] of [bufio.Writer]. *)
Definition Flush (e : Env) (b : bufioWriter) : M (option error * bufioWriter) :=
  match bw_err b with
  | Some err => ret (Some err, b)
  | None =>
      if String.eqb (bw_buf b) "" then ret (None, b)
      else
        r <- File_Write e (bw_wr b) (bw_buf b) ;;
        match snd r with
        | Some err =>
            ret (Some err, mkBufio (bw_wr b) (bw_size b) (bw_buf b) (Some err))
        | None => ret (None, mkBufio (bw_wr b) (bw_size b) "" None)
        end
  end.

(** [Write] of [bufio.Writer]: the slice goes to the buffer when it fits;
    otherwise the buffer is filled and flushed, and what is left is written
    through, or buffered when it fits the empty buffer.  The count returned
    is the number of bytes accepted. *)
Definition bufio_Write (e : Env) (b : bufioWriter) (p : string)
  : M (N * option error * bufioWriter) :=
  match bw_err b with
  | Some err => ret (0%N, Some err, b)
  | None =>
      if (len p <=? Available b)%N then
        ret (len p, None, mkBufio (bw_wr b) (bw_size b) (bw_buf b ++ p) None)
      else if String.eqb (bw_buf b) "" then
        r <- File_Write e (bw_wr b) p ;;
        ret (fst r, snd r, mkBufio (bw_wr b) (bw_size b) "" (snd r))
      else
        let n := N.to_nat (Available b) in
        let filled :=
          mkBufio (bw_wr b) (bw_size b) (bw_buf b ++ substring 0 n p) None in
        let rest := substring n (String.length p - n) p in
        r <- Flush e filled ;;
        match fst r with
        | Some err => ret (N.of_nat n, Some err, snd r)
        | None =>
            if (len rest <=? bw_size b)%N then
              ret ((N.of_nat n + len rest)%N, None,
                   mkBufio (bw_wr b) (bw_size b) rest None)
            else
              r2 <- File_Write e (bw_wr b) rest ;;
              ret ((N.of_nat n + fst r2)%N, snd r2,
                   mkBufio (bw_wr b) (bw_size b) "" (snd r2))
        end
  end.

(* ================================================================= *)
(** ** filelog.go: the per-level stream [bufferWriter] *)

Definition MaxSize : N := 1024 * 1024 * 1800.
Definition bufferSize : N := 256 * 1024.

(** Go [int] addition: the sum wrapped into the 64-bit signed range. *)
Definition int_add (a b : Z) : Z :=
  (a + b + 2 ^ 63) mod 2 ^ 64 - 2 ^ 63.

(** Go [uint64] addition. *)
Definition uint64_add (a b : N) : N := ((a + b) mod 2 ^ 64)%N.

Record bufferWriter := mkBufferWriter {
  Writer : option bufioWriter;   (* the embedded *bufio.Writer, nil at first *)
  sb_basePath : string;
  sb_logName : string;
  file : option fd;
  sb_level : Level;
  stime : Time;
  slot : Z;
  nbytes : N
}.

Definition set_Writer (sb : bufferWriter) (b : option bufioWriter) : bufferWriter :=
  mkBufferWriter b (sb_basePath sb) (sb_logName sb) (file sb) (sb_level sb)
    (stime sb) (slot sb) (nbytes sb).

Definition set_nbytes (sb : bufferWriter) (n : N) : bufferWriter :=
  mkBufferWriter (Writer sb) (sb_basePath sb) (sb_logName sb) (file sb)
    (sb_level sb) (stime sb) (slot sb) n.

Definition nil_deref : string :=
  "invalid memory address or nil pointer dereference".
Definition out_of_range : string := "index out of range".

(** [func (sb *bufferWriter) Sync() error]; [Sync] on a nil file returns
    an error. *)
Definition bufferWriter_Sync (e : Env) (sb : bufferWriter) : M (option error) :=
  match file sb with
  | Some f => File_Sync e f
  | None => ret (Some "invalid argument")
  end.

(** [func (sb *bufferWriter) Write(p []byte) (int, error)]. *)
Definition bufferWriter_Write (e : Env) (sb : bufferWriter) (p : string)
  : M (N * option error * bufferWriter) :=
  match Writer sb with
  | None => panic nil_deref
  | Some b =>
      r <- bufio_Write e b p ;;
      let '(n, err, b') := r in
      ret (n, err, set_nbytes (set_Writer sb (Some b')) (uint64_add (nbytes sb) n))
  end.

(** The directory of [createFile]: [basePath] gets a ['/'] unless it ends in
    one, then ["logs"], and is joined with
    [Sprintf("%s/%04d%02d/%02d/", logName, year, month, day)]. *)
Definition logDir (basePath logName : string) (t : Time) : string :=
  let '(year, month, day) := Date t in
  let basePath :=
    if negb (HasSuffix basePath "/") then basePath ++ "/" else basePath in
  let basePath := basePath ++ "logs" in
  Join basePath
    (logName ++ "/" ++ fmt_0d 4 year ++ fmt_0d 2 month ++ "/" ++
     fmt_0d 2 day ++ "/").

(** The file name of [createFile] for a level name. *)
Definition logFile (name : string) (slot : Z) (t : Time) : string :=
  if slot <=? 0 then name ++ "-" ++ fmt_0d 2 (Hour t) ++ ".log"
  else name ++ "-" ++ fmt_0d 2 (Hour t) ++ "-" ++ Itoa slot ++ ".log".

(** [func createFile(basePath, logName string, level Level, slot int,
    t time.Time)], returning the file or the error. *)
Definition createFile (e : Env) (basePath logName : string) (level : Level)
    (slot : Z) (t : Time) : M (fd + error) :=
  let dir := logDir basePath logName t in
  err <- MkdirAll e dir ;;
  match err with
  | Some err => ret (inr ("logtool: cannot create log: " ++ err))
  | None =>
      match index_level levelName level with
      | None => panic out_of_range
      | Some name =>
          let fname := Join dir (logFile name slot t) in
          r <- OpenFile e fname ;;
          match r with
          | inr err => ret (inr ("logtool: cannot open log file: " ++ err))
          | inl f => ret (inl f)
          end
      end
  end.

(** [func (sb *bufferWriter) rotateFile(now time.Time, slot int) error].
    The results of [Flush] and [Close] are discarded.  The second test of
    [err] in the source comes after [err] was found nil and never fires. *)
Definition rotateFile (e : Env) (now : Time) (slot' : Z) (sb : bufferWriter)
  : M (option error * bufferWriter) :=
  sb1 <- match file sb with
         | Some f =>
             match Writer sb with
             | None => panic nil_deref
             | Some b =>
                 r <- Flush e b ;;
                 File_Close f ;;;
                 ret (set_Writer sb (Some (snd r)))
             end
         | None => ret sb
         end ;;
  r <- createFile e (sb_basePath sb1) (sb_logName sb1) (sb_level sb1) slot' now ;;
  match r with
  | inr err => ret (Some err, sb1)
  | inl f =>
      ret (None,
           mkBufferWriter (Some (NewWriterSize f bufferSize))
             (sb_basePath sb1) (sb_logName sb1) (Some f) (sb_level sb1)
             now slot' 0%N)
  end.

(** [func (sb *bufferWriter) checkRotate(now time.Time) error]. *)
Definition checkRotate (e : Env) (now : Time) (sb : bufferWriter)
  : M (option error * bufferWriter) :=
  match file sb with
  | None => rotateFile e now 0 sb
  | Some _ =>
      let '(syear, smonth, sday) := Date (stime sb) in
      let '(year, month, day) := Date now in
      if negb (year =? syear) || negb (month =? smonth) || negb (day =? sday)
      then rotateFile e now 0 sb
      else
        let hour := Hour now in
        let shour := Hour (stime sb) in
        if negb (hour =? shour) then rotateFile e now 0 sb
        else if (MaxSize <=? nbytes sb)%N then
          rotateFile e now (int_add (slot sb) 1) sb
        else ret (None, sb)
  end.

(* ================================================================= *)
(** ** What the Go runtime supplies to one call *)

(** [time.Now()], the goroutine number read off [runtime.Stack], and
    [runtime.Caller(skip)] as file and line, [None] when it reports no
    frame. *)
Record Runtime := mkRuntime {
  rt_now : Time;
  rt_gid : N;
  rt_caller : Z -> option (string * Z)
}.

(** The file part of [path.Split]: what follows the last ['/']. *)
Definition path_file (p : string) : string := last (split_slash p) "".

(** [func GetPrefix(skip int) string]. *)
Definition GetPrefix (rt : Runtime) (skip : Z) : string :=
  let buf := "reqid-" ++ dec (rt_gid rt) ++ " " in
  match rt_caller rt skip with
  | Some (file, line) => buf ++ path_file file ++ " " ++ Itoa line ++ " : "
  | None => buf ++ " ??? "
  end.

(* ================================================================= *)
(** ** filelog.go: the buffer free list *)

(** A [bytes.Buffer]: the bytes held, the read offset and the capacity of
    the slice underneath. *)
Record buffer := mkBuffer {
  buf_bytes : string;
  buf_off : nat;
  buf_cap : nat
}.

(** [new(buffer)]. *)
Definition new_buffer : buffer := mkBuffer "" 0 0.

(** [Len] of [bytes.Buffer]: the unread bytes, [len(b.buf) - b.off]. *)
Definition buffer_Len (b : buffer) : nat :=
  (String.length (buf_bytes b) - buf_off b)%nat.

(** [Cap] of [bytes.Buffer]. *)
Definition buffer_Cap (b : buffer) : nat := buf_cap b.

(** [Reset] of [bytes.Buffer]: empties the buffer and keeps its storage. *)
Definition buffer_Reset (b : buffer) : buffer := mkBuffer "" 0 (buf_cap b).

(** [WriteString] of [bytes.Buffer]; the storage grows when it has to, and
    is taken to grow no further than that. *)
Definition buffer_WriteString (b : buffer) (s : string) : buffer :=
  let bytes := buf_bytes b ++ s in
  mkBuffer bytes (buf_off b) (Nat.max (buf_cap b) (String.length bytes)).

(* ================================================================= *)
(** ** filelog.go: the multiplexed writer [fileLogWriter] *)

(** [writers] is the array [[6]*bufferWriter]; [freeList] is the linked
    list of buffers, its head first. *)
Record fileLogWriter := mkFileLogWriter {
  w_basePath : string;
  w_logName : string;
  writers : list (option bufferWriter);
  freeList : list buffer
}.

Definition set_writers (w : fileLogWriter) (ws : list (option bufferWriter))
  : fileLogWriter :=
  mkFileLogWriter (w_basePath w) (w_logName w) ws (freeList w).

Definition set_freeList (w : fileLogWriter) (fl : list buffer) : fileLogWriter :=
  mkFileLogWriter (w_basePath w) (w_logName w) (writers w) fl.

(** [func newFileLog(logName, basePath string) *fileLogWriter]. *)
Definition newFileLog (logName basePath : string) : fileLogWriter :=
  mkFileLogWriter basePath logName (repeat None 6) [].

(** Assignment to one slot of an array. *)
Fixpoint array_set {A : Type} (l : list A) (i : nat) (x : A) : list A :=
  match l, i with
  | [], _ => []
  | _ :: r, O => x :: r
  | y :: r, S i' => y :: array_set r i' x
  end.

(** [func (w *fileLogWriter) getBuffer() *buffer]. *)
Definition getBuffer (w : fileLogWriter) : buffer * fileLogWriter :=
  match freeList w with
  | b :: next => (buffer_Reset b, set_freeList w next)
  | [] => (new_buffer, w)
  end.

(** [func (w *fileLogWriter) putBuffer(b *buffer)]. *)
Definition putBuffer (w : fileLogWriter) (b : buffer) : fileLogWriter :=
  if (256 <=? buffer_Len b)%nat then w
  else set_freeList w (b :: freeList w).

(** The line [write] assembles before it takes the lock.  The buffer it
    gets from [bfPool] is always a new one, since nothing is ever put into
    that pool.  [None] is the panic of [buf.Bytes()[buf.Len()-1]] on an empty
    buffer. *)
Definition assemble (rt : Runtime) (level : Level) (s : string) : option string :=
  let buf := "" in
  let buf :=
    if negb (level =? LevelAction)%N then buf ++ Format_stamp (rt_now rt)
    else buf in
  let buf := buf ++ GetPrefix rt 4 in
  let buf := buf ++ s in
  match last_byte buf with
  | None => None
  | Some c =>
      Some (if negb (Ascii.eqb c newline) then buf ++ String newline "" else buf)
  end.

(** [func (w *fileLogWriter) write(level Level, s string)]. *)
Definition fileLogWriter_write (e : Env) (rt : Runtime) (level : Level)
    (s : string) (w : fileLogWriter) : M fileLogWriter :=
  let now := rt_now rt in
  match assemble rt level s with
  | None => panic out_of_range
  | Some buf =>
      if negb (level <? 6)%N then panic out_of_range
      else
        let writer :=
          match nth (N.to_nat level) (writers w) None with
          | Some sb => sb
          | None =>
              mkBufferWriter None (w_basePath w) (w_logName w) None level
                zeroTime 0 0%N
          end in
        r <- checkRotate e now writer ;;
        match fst r with
        | Some err =>
            Println ("[logtool] check rotate err: " ++ err) ;;;
            ret (set_writers w
                   (array_set (writers w) (N.to_nat level) (Some (snd r))))
        | None =>
            r2 <- bufferWriter_Write e (snd r) buf ;;
            ret (set_writers w
                   (array_set (writers w) (N.to_nat level) (Some (snd r2))))
        end
  end.

(** The loop of [flushAll] over the array. *)
Fixpoint flushAll_loop (e : Env) (ws : list (option bufferWriter))
  : M (list (option bufferWriter)) :=
  match ws with
  | [] => ret []
  | writer :: rest =>
      writer' <- match writer with
                 | Some sb =>
                     match Writer sb with
                     | Some b =>
                         r <- Flush e b ;;
                         bufferWriter_Sync e sb ;;;
                         ret (Some (set_Writer sb (Some (snd r))))
                     | None => ret writer
                     end
                 | None => ret writer
                 end ;;
      rest' <- flushAll_loop e rest ;;
      ret (writer' :: rest')
  end.

(** [func (w *fileLogWriter) flushAll()]. *)
Definition flushAll (e : Env) (w : fileLogWriter) : M fileLogWriter :=
  ws <- flushAll_loop e (writers w) ;;
  ret (set_writers w ws).

(** [func (w *fileLogWriter) exit()]. *)
Definition exit (e : Env) (w : fileLogWriter) : M fileLogWriter :=
  flushAll e w.

(* ================================================================= *)
(** ** The facade: configuration and the leveled entry points *)

(** The package-level variables. *)
Record Logtool := mkLogtool {
  inited : bool;
  flagLoglevel : Level;
  flagLogname : string;
  flagLogpath : string;
  logPath : string;
  logName : string;
  logLevel : Level;
  alsoStdout : bool;
  logWriter : option fileLogWriter;
  skip : Z
}.

(** The variables as their initialisers leave them. *)
Definition initial : Logtool :=
  mkLogtool false levelDefault "" "" "/data" "logtool" LevelDebug false None 3.

Fixpoint Level_Set_loop (names : list string) (k : N) (s : string)
  : option Level :=
  match names with
  | [] => None
  | v :: rest =>
      if negb (k =? levelDefault)%N && String.eqb v s then Some k
      else Level_Set_loop rest (k + 1)%N s
  end.

(** [func (l *Level) Set(s string) error]: the level after the call and the
    error returned. *)
Definition Level_Set (l : Level) (s : string) : Level * option error :=
  match Level_Set_loop levelName 0%N s with
  | Some lv => (lv, None)
  | None => (l, Some "invaild level")
  end.

(** [func level() Level]. *)
Definition level (st : Logtool) : Level :=
  if (levelDefault <? flagLoglevel st)%N then flagLoglevel st else logLevel st.

(** [func SetLevel(level Level)]. *)
Definition SetLevel (lv : Level) (st : Logtool) : Outcome Logtool :=
  if (lv <? LevelDebug)%N || (LevelError <? lv)%N then Panic "invalid log level"
  else
    Ret (mkLogtool (inited st) (flagLoglevel st) (flagLogname st)
           (flagLogpath st) (logPath st) (logName st) lv (alsoStdout st)
           (logWriter st) (skip st)).

(** [func SetName(name string)]. *)
Definition SetName (name : string) (st : Logtool) : Outcome Logtool :=
  if String.eqb name "" then Panic "invalid log name"
  else
    Ret (mkLogtool (inited st) (flagLoglevel st) (flagLogname st)
           (flagLogpath st) (logPath st) name (logLevel st) (alsoStdout st)
           (logWriter st) (skip st)).

Definition set_alsoStdout (b : bool) (st : Logtool) : Logtool :=
  mkLogtool (inited st) (flagLoglevel st) (flagLogname st) (flagLogpath st)
    (logPath st) (logName st) (logLevel st) b (logWriter st) (skip st).

Definition set_inited (b : bool) (st : Logtool) : Logtool :=
  mkLogtool b (flagLoglevel st) (flagLogname st) (flagLogpath st)
    (logPath st) (logName st) (logLevel st) (alsoStdout st) (logWriter st)
    (skip st).

Definition set_logWriter (lw : option fileLogWriter) (st : Logtool) : Logtool :=
  mkLogtool (inited st) (flagLoglevel st) (flagLogname st) (flagLogpath st)
    (logPath st) (logName st) (logLevel st) (alsoStdout st) lw (skip st).

Definition lift {A} (o : Outcome A) : M A := fun os => (o, os).

(** [func Init(logName string, logLevel Level, stdOut bool)]. *)
Definition Init (name : string) (lv : Level) (stdOut : bool) (st : Logtool)
  : M Logtool :=
  (if inited st then Println "logtool has be inited" else ret tt) ;;;
  st1 <- lift (SetName name (set_alsoStdout stdOut st)) ;;
  st2 <- lift (SetLevel lv st1) ;;
  ret (set_inited true st2).

(** [func initWriter()]. *)
Definition initWriter (st : Logtool) : Logtool :=
  match logWriter st with
  | Some _ => st
  | None =>
      let name :=
        if negb (String.eqb (flagLogname st) "") then flagLogname st
        else logName st in
      let path :=
        if negb (String.eqb (flagLogpath st) "") then flagLogpath st
        else logPath st in
      mkLogtool (inited st) (flagLoglevel st) (flagLogname st) (flagLogpath st)
        path name (logLevel st) (alsoStdout st)
        (Some (newFileLog name path)) (skip st)
  end.

(** [func write(level Level, msg string)] of the facade.  Every
    [time.Now()] of one call reads the same [rt_now]. *)
Definition write (e : Env) (rt : Runtime) (lv : Level) (msg : string)
    (st : Logtool) : M Logtool :=
  if negb (inited st) then
    match index_level levelName lv with
    | None => panic out_of_range
    | Some name =>
        Println (Format_datetime (rt_now rt) ++ " " ++ GetPrefix rt (skip st) ++
                 " [" ++ name ++ "] " ++ msg) ;;;
        ret st
    end
  else
    let st := match logWriter st with None => initWriter st | Some _ => st end in
    match logWriter st with
    | None => panic nil_deref
    | Some w =>
        w' <- fileLogWriter_write e rt lv msg w ;;
        let st' := set_logWriter (Some w') st in
        if alsoStdout st' then
          match index_level levelName lv with
          | None => panic out_of_range
          | Some name =>
              Println (Format_datetime (rt_now rt) ++ " [" ++ name ++ "] " ++ msg) ;;;
              ret st'
          end
        else ret st'
    end.

(** [func Debug(str string)], [Info], [Warn], [Error]: the record is
    written when the effective level admits it. *)
Definition Debug (e : Env) (rt : Runtime) (str : string) (st : Logtool)
  : M Logtool :=
  if (level st <=? LevelDebug)%N then write e rt LevelDebug str st else ret st.

Definition Info (e : Env) (rt : Runtime) (str : string) (st : Logtool)
  : M Logtool :=
  if (level st <=? LevelInfo)%N then write e rt LevelInfo str st else ret st.

Definition Warn (e : Env) (rt : Runtime) (str : string) (st : Logtool)
  : M Logtool :=
  if (level st <=? LevelWarn)%N then write e rt LevelWarn str st else ret st.

Definition Error (e : Env) (rt : Runtime) (str : string) (st : Logtool)
  : M Logtool :=
  if (level st <=? LevelError)%N then write e rt LevelError str st else ret st.

(** [func Action(v interface{}) error]; [marshalled] is what
    [json.Marshal(v)] returned. *)
Definition Action (e : Env) (rt : Runtime) (marshalled : string + error)
    (st : Logtool) : M (option error * Logtool) :=
  match marshalled with
  | inr _ => ret (Some "action data is empty", st)
  | inl str => st' <- write e rt LevelAction str st ;; ret (None, st')
  end.

(** [func Exit()]. *)
Definition Exit (e : Env) (st : Logtool) : M Logtool :=
  match logWriter st with
  | Some w => w' <- exit e w ;; ret (set_logWriter (Some w') st)
  | None => ret st
  end.

(* ================================================================= *)
(** ** Sample states used by the concrete instances below *)

Definition jan5_7h : Time := mkTime 2024 1 5 7 3 9 120000000.
Definition jan5_7h' : Time := mkTime 2024 1 5 7 59 0 0.
Definition jan5_8h : Time := mkTime 2024 1 5 8 0 0 5000000.

(** An environment in which every system call succeeds. *)
Definition env_ok : Env :=
  mkEnv (fun _ => None) (fun _ => None) (fun _ => None) (fun _ => None).

(** An environment in which no directory can be created. *)
Definition env_nodir : Env :=
  mkEnv (fun _ => Some "permission denied") (fun _ => None)
        (fun _ => None) (fun _ => None).

Definition os0 : OS := mkOS [] [] [].

(** An operating system with one open file, handle 0. *)
Definition os1 : OS :=
  mkOS [mkOFile "/data/logs/app/202401/05/info-07.log" true]
       [EMkdirAll "/data/logs/app/202401/05";
        EOpenFile "/data/logs/app/202401/05/info-07.log"] [].

(** A stream that was never opened. *)
Definition sb_new : bufferWriter :=
  mkBufferWriter None "/data" "app" None LevelInfo zeroTime 0 0%N.

(** A stream opened at 07:03 on handle 0, with some bytes buffered. *)
Definition sb_open : bufferWriter :=
  mkBufferWriter (Some (mkBufio 0%nat bufferSize "pending" None)) "/data" "app"
    (Some 0%nat) LevelInfo jan5_7h 0 7%N.

(** The same stream once it has reached the size threshold. *)
Definition sb_full : bufferWriter := set_nbytes sb_open MaxSize.

Definition rt0 : Runtime :=
  mkRuntime jan5_7h 18 (fun _ => Some ("/src/app/main.go", 42)).

(* ================================================================= *)
(** ** Predicates used in the statements *)

(** The system calls of one [Flush]: the buffered bytes go to the file
    unless the writer carries an error or holds nothing. *)
Definition flush_events (b : bufioWriter) : list Event :=
  match bw_err b with
  | Some _ => []
  | None => if String.eqb (bw_buf b) "" then [] else [EWrite (bw_wr b) (bw_buf b)]
  end.

(** A stream as the code builds it: the level is one of the six, and the
    buffered writer is there exactly when the file is and wraps that file. *)
Definition sb_wf (sb : bufferWriter) : Prop :=
  (sb_level sb < 6)%N /\
  match file sb, Writer sb with
  | Some f, Some b => bw_wr b = f
  | None, None => True
  | _, _ => False
  end.

(** The writer as the code builds it: six slots, and the stream in slot
    [i] is well formed, of level [i], and carries the names of the writer. *)
Definition w_wf (w : fileLogWriter) : Prop :=
  List.length (writers w) = 6%nat /\
  forall i sb, nth_error (writers w) i = Some (Some sb) ->
    sb_wf sb /\ N.to_nat (sb_level sb) = i.

Definition add_trace (os : OS) (evs : list Event) : OS :=
  mkOS (os_files os) (os_trace os ++ evs) (os_console os).

(** The slot [checkRotate] rotates to, read off its tests; [None] when it
    does not rotate. *)
Definition rotation_due (sb : bufferWriter) (now : Time) : option Z :=
  match file sb with
  | None => Some 0
  | Some _ =>
      if negb (t_year now =? t_year (stime sb))
         || negb (t_month now =? t_month (stime sb))
         || negb (t_day now =? t_day (stime sb)) then Some 0
      else if negb (Hour now =? Hour (stime sb)) then Some 0
      else if (MaxSize <=? nbytes sb)%N then Some (int_add (slot sb) 1)
      else None
  end.

(** The stream [write] uses for a level: the one in the array, or a new
    one when the slot is nil. *)
Definition stream_of (w : fileLogWriter) (lv : Level) : bufferWriter :=
  match nth (N.to_nat lv) (writers w) None with
  | Some sb => sb
  | None =>
      mkBufferWriter None (w_basePath w) (w_logName w) None lv zeroTime 0 0%N
  end.

(** All the bytes of a string satisfy a test. *)
Fixpoint string_forall (P : ascii -> bool) (s : string) : bool :=
  match s with
  | EmptyString => true
  | String c r => P c && string_forall P r
  end.

Definition is_digit (c : ascii) : bool :=
  (48 <=? nat_of_ascii c)%nat && (nat_of_ascii c <=? 57)%nat.

(** A decimal digit or the sign. *)
Definition is_numeric (c : ascii) : bool := is_digit c || Ascii.eqb c "-".

Definition not_slash (c : ascii) : bool := negb (Ascii.eqb c slash).

Definition nl : string := String newline "".

(** The system calls [flushAll] performs for one slot of the array: nothing
    for a nil slot or a stream without a buffered writer, otherwise the flush
    of the buffered writer and the [Sync] of the file. *)
Definition flushAll_events (o : option bufferWriter) : list Event :=
  match o with
  | Some sb =>
      match Writer sb with
      | Some b =>
          flush_events b ++
          match file sb with Some f => [ESync f] | None => [] end
      | None => []
      end
  | None => []
  end.

(** The facade as the code builds it. *)
Definition Logtool_wf (st : Logtool) : Prop :=
  match logWriter st with
  | Some w => w_wf w
  | None => True
  end.

(** An environment in which [Sync] fails. *)
Definition env_nosync : Env :=
  mkEnv (fun _ => None) (fun _ => None) (fun _ => None)
        (fun _ => Some "input/output error").

(** A writer whose only stream, that of [LevelInfo], is [sb_open]. *)
Definition w_open : fileLogWriter :=
  mkFileLogWriter "/data" "app" [None; None; Some sb_open; None; None; None] [].

(** A buffer that held 512 bytes, was reset, and now holds three bytes in
    the storage it kept. *)
Definition big_storage_buffer : buffer :=
  buffer_WriteString
    (buffer_Reset (buffer_WriteString new_buffer (zeros 512))) "abc".

(** The pool holds only buffers of fewer than 256 unread bytes. *)
Definition pool_short (w : fileLogWriter) : Prop :=
  Forall (fun b => (buffer_Len b < 256)%nat) (freeList w).

(** A path element that [Clean] keeps as it is: not empty, not [.] or
    [..], without a separator. *)
Definition plain (c : string) : bool :=
  negb (String.eqb c "") && negb (String.eqb c ".") && negb (String.eqb c "..")
  && string_forall not_slash c.

(** The stacks [Clean] builds: plain elements on top of [..] elements, and
    no [..] at all under the root. *)
Inductive normal (rooted : bool) : list string -> Prop :=
| normal_nil : normal rooted []
| normal_dotdot st :
    rooted = false -> Forall (fun c => c = "..") st ->
    normal rooted (".." :: st)
| normal_plain c st :
    plain c = true -> normal rooted st -> normal rooted (c :: st).

(** The layout of the specification, as strings: the directory
    [<base>/logs/<logName>/<YYYYMM>/<DD>] and the path of the file in it. *)
Definition layout_dir (base name : string) (t : Time) : string :=
  base ++ "/logs/" ++ name ++ "/" ++
  fmt_0d 4 (t_year t) ++ fmt_0d 2 (t_month t) ++ "/" ++ fmt_0d 2 (t_day t).

Definition layout_path (base name fname : string) (t : Time) : string :=
  layout_dir base name t ++ "/" ++ fname.

(** A base path that needs no cleaning: empty, or equal to its cleaned form
    without being [.] and without a separator at its end. *)
Definition regular_base (base : string) : Prop :=
  base = "" \/
  (Clean base = base /\ base <> "." /\ HasSuffix base "/" = false).

(** The result of [rotateFile] from what [createFile] answers. *)
Definition rotate_result (sb_old : bufferWriter) (now : Time) (sl : Z)
    (r : Outcome (fd + error) * OS) : Outcome (option error * bufferWriter) * OS :=
  match r with
  | (Ret (inr err), os') => (Ret (Some err, sb_old), os')
  | (Ret (inl nf), os') =>
      (Ret (None,
            mkBufferWriter (Some (NewWriterSize nf bufferSize))
              (sb_basePath sb_old) (sb_logName sb_old) (Some nf)
              (sb_level sb_old) now sl 0%N), os')
  | (Panic m, os') => (Panic m, os')
  end.

Definition rt8 : Runtime :=
  mkRuntime jan5_8h 18 (fun _ => Some ("/src/app/main.go", 57)).

(** One record written at 07:03 and one at 08:00, on a new writer. *)
Definition two_hours : Outcome fileLogWriter * OS :=
  match fileLogWriter_write env_ok rt0 LevelInfo "a" (newFileLog "app" "/data") os0 with
  | (Ret w1, o1) => fileLogWriter_write env_ok rt8 LevelInfo "b" w1 o1
  | r => r
  end.

(* ================================================================= *)
(** ** The rest of the facade *)

(** [func (l *Level) String() string]; [None] is the panic of the index
    out of range. *)
Definition Level_String (l : Level) : option string := index_level levelName l.

(** [func IsDebug() bool]. *)
Definition IsDebug (st : Logtool) : bool := (level st =? LevelDebug)%N.

(** [func AlsoStdout(b bool)]. *)
Definition AlsoStdout (b : bool) (st : Logtool) : Logtool := set_alsoStdout b st.

(** [func SetLogPath(path string)]. *)
Definition SetLogPath (path : string) (st : Logtool) : Logtool :=
  if negb (String.eqb path "") then
    mkLogtool (inited st) (flagLoglevel st) (flagLogname st) (flagLogpath st)
      path (logName st) (logLevel st) (alsoStdout st) (logWriter st) (skip st)
  else st.

(** [func SetSkip(s int)]. *)
Definition SetSkip (s : Z) (st : Logtool) : Logtool :=
  mkLogtool (inited st) (flagLoglevel st) (flagLogname st) (flagLogpath st)
    (logPath st) (logName st) (logLevel st) (alsoStdout st) (logWriter st) s.

(** [type LogWriter struct { level Level }] and
    [func NewLogWriter(level Level) io.Writer]. *)
Record LogWriter := mkLogWriter { lw_level : Level }.

Definition NewLogWriter (lv : Level) : LogWriter := mkLogWriter lv.

(** The first part of [func (this *LogWriter) Write(data []byte)]: the level
    and the bytes after the [switch] on the three leading bytes, which a
    writer of [levelDefault] applies to data longer than three bytes that
    starts with ['[']. *)
Definition LogWriter_route (this : LogWriter) (data : string) : Level * string :=
  let l := lw_level this in
  if (lw_level this =? levelDefault)%N && (3 <? len data)%N
     && (match String.get 0 data with
         | Some c => Ascii.eqb c "["
         | None => false
         end)
  then
    let rest := substring 3 (String.length data - 3) data in
    let head := substring 0 3 data in
    if String.eqb head "[D]" then (LevelDebug, rest)
    else if String.eqb head "[I]" then (LevelInfo, rest)
    else if String.eqb head "[W]" then (LevelWarn, rest)
    else if String.eqb head "[E]" then (LevelError, rest)
    else (l, data)
  else (l, data).

(** [func (this *LogWriter) Write(data []byte) (int, error)]: the count
    returned (the error is always nil) and the state. *)
Definition LogWriter_Write (e : Env) (rt : Runtime) (this : LogWriter)
    (data : string) (st : Logtool) : M (N * Logtool) :=
  let '(l, data) := LogWriter_route this data in
  if (l =? levelDefault)%N || (level st <=? l)%N then
    st' <- write e rt l data st ;; ret (len data, st')
  else ret (len data, st).

(** The markers the built-in [log] package's records may carry, each with
    the level it selects. *)
Definition markers : list (string * Level) :=
  [("[D]", LevelDebug); ("[I]", LevelInfo); ("[W]", LevelWarn);
   ("[E]", LevelError)].

(* ================================================================= *)
(** ** Histories of calls on one writer *)

(** The calls that take the lock of a [fileLogWriter], each with what the
    environment and the runtime supply to it: a [write], or a [flushAll] (a
    tick of [flushDaemon], or [exit]). *)
Inductive Call :=
| CallWrite (e : Env) (rt : Runtime) (lv : Level) (s : string)
| CallFlush (e : Env).

Definition call (c : Call) (w : fileLogWriter) : M fileLogWriter :=
  match c with
  | CallWrite e rt lv s => fileLogWriter_write e rt lv s w
  | CallFlush e => flushAll e w
  end.

(** The calls one after the other, as the lock orders them. *)
Fixpoint calls (cs : list Call) (w : fileLogWriter) : M fileLogWriter :=
  match cs with
  | [] => ret w
  | c :: rest => w' <- call c w ;; calls rest w'
  end.

(** [func (w *fileLogWriter) flushDaemon()], cut after the ticks whose
    environments are given: one [flushAll] for each. *)
Definition flushDaemon (ticks : list Env) (w : fileLogWriter) : M fileLogWriter :=
  calls (map CallFlush ticks) w.

(** The bytes the [Write] system calls of a trace hand to a handle. *)
Fixpoint written (f : fd) (evs : list Event) : string :=
  match evs with
  | [] => ""
  | EWrite g data :: rest =>
      if Nat.eqb g f then data ++ written f rest else written f rest
  | _ :: rest => written f rest
  end.

(** A buffered writer that can take bytes: no sticky error, its file open
    and writable. *)
Definition healthy (e : Env) (os : OS) (b : bufioWriter) : Prop :=
  bw_err b = None /\ is_open os (bw_wr b) = true /\ write_err e (bw_wr b) = None.

(** The handle of a stream was opened on the path of the stream's own
    opening time and slot. *)
Definition stream_path (os : OS) (sb : bufferWriter) : Prop :=
  match file sb with
  | Some f =>
      exists lname o,
        index_level levelName (sb_level sb) = Some lname /\
        nth_error (os_files os) f = Some o /\
        of_path o =
          Join (logDir (sb_basePath sb) (sb_logName sb) (stime sb))
               (logFile lname (slot sb) (stime sb))
  | None => True
  end.

Definition w_paths (os : OS) (w : fileLogWriter) : Prop :=
  forall i sb, nth_error (writers w) i = Some (Some sb) -> stream_path os sb.

(** The handle table only grows, and a handle keeps its path. *)
Definition files_ext (os os' : OS) : Prop :=
  forall f o, nth_error (os_files os) f = Some o ->
    exists o', nth_error (os_files os') f = Some o' /\ of_path o' = of_path o.

(** The line [write] assembles, written out: the stamp unless the level is
    [LevelAction], the caller prefix, the message, and a newline unless the
    message ends in one. *)
Definition line_of (rt : Runtime) (lv : Level) (s : string) : string :=
  ((if (lv =? LevelAction)%N then "" else Format_stamp (rt_now rt))
   ++ GetPrefix rt 4) ++ s ++ (if HasSuffix s nl then "" else nl).

(** The stream of a level with its buffered writer replaced. *)
Definition with_buffer (sb : bufferWriter) (b : bufioWriter) (n : N) : bufferWriter :=
  set_nbytes (set_Writer sb (Some b)) n.

(** An operation that keeps the handles there are, whatever it returns. *)
Definition keeps_files {A} (m : M A) : Prop :=
  forall os r os', m os = (r, os') -> files_ext os os'.

(** Records written one after the other at one level, each with the
    environment and the runtime of its call. *)
Definition writes (lv : Level) (rs : list (Env * Runtime * string)) : list Call :=
  map (fun r => CallWrite (fst (fst r)) (snd (fst r)) lv (snd r)) rs.

(** Their lines, in the order of the calls. *)
Fixpoint lines_of (lv : Level) (rs : list (Env * Runtime * string)) : string :=
  match rs with
  | [] => ""
  | r :: rest => line_of (snd (fst r)) lv (snd r) ++ lines_of lv rest
  end.

(** The record is of the date and hour the stream was opened in. *)
Definition in_hour_of (sb : bufferWriter) (r : Env * Runtime * string) : Prop :=
  Date (rt_now (snd (fst r))) = Date (stime sb) /\
  Hour (rt_now (snd (fst r))) = Hour (stime sb).

(** A call a caller may make: a [write] with one of the six levels, or a
    [flushAll]. *)
Definition call_ok (c : Call) : Prop :=
  match c with
  | CallWrite _ _ lv _ => (lv < 6)%N
  | CallFlush _ => True
  end.

(** The line [write] prints for an error of the rotation check. *)
Definition rotate_report (err : error) : string :=
  "[logtool] check rotate err: " ++ err.


(** What a rotation of the stream [sb] to the slot [sl] at [now] comes to,
    [r] being the outcome and [os] the operating system before: the old file,
    if there is one, gets its pending bytes and is closed; the directory of
    [now] is asked for and then the file of [now] and [sl]; when both are
    granted the stream is the new one, on the new handle, opened at [now] in
    slot [sl] with a byte count of 0 and an empty buffer of [bufferSize];
    otherwise an error is returned and handle, opening time, slot and byte
    count of the stream are what they were. *)
Definition rotation_to (e : Env) (now : Time) (sl : Z) (sb : bufferWriter)
    (os : OS) (r : Outcome (option error * bufferWriter) * OS) : Prop :=
  exists lname res sb' os' post,
    index_level levelName (sb_level sb) = Some lname /\
    let dir := logDir (sb_basePath sb) (sb_logName sb) now in
    let fname := Join dir (logFile lname sl now) in
    let nf := List.length (os_files os) in
    let pre :=
      match file sb, Writer sb with
      | Some f, Some b => (flush_events b ++ [EClose f])%list
      | _, _ => []
      end in
    r = (Ret (res, sb'), os') /\
    os_console os' = os_console os /\
    os_trace os' = (os_trace os ++ pre ++ EMkdirAll dir :: post)%list /\
    ((exists err,
        res = Some err /\
        (mkdir_err e dir <> None /\ post = [] \/
         mkdir_err e dir = None /\ open_err e fname <> None /\
         post = [EOpenFile fname]) /\
        file sb' = file sb /\ stime sb' = stime sb /\ slot sb' = slot sb /\
        nbytes sb' = nbytes sb)
     \/
     (res = None /\ mkdir_err e dir = None /\ open_err e fname = None /\
      post = [EOpenFile fname] /\
      sb' = mkBufferWriter (Some (NewWriterSize nf bufferSize))
              (sb_basePath sb) (sb_logName sb) (Some nf) (sb_level sb)
              now sl 0%N /\
      nth_error (os_files os') nf = Some (mkOFile fname true))).

(** Two spellings of one path: they clean to the same string, the lexical
    equivalence of package [filepath]. *)
Definition same_path (a b : string) : Prop := Clean a = Clean b.

(* ================================================================= *)
(** * Properties *)

Example Clean_examples :
  Clean "/data/logs/app/202401/05/" = "/data/logs/app/202401/05" /\
  Clean "/data//logs" = "/data/logs" /\
  Clean "a/../../b/./c" = "../b/c" /\
  Clean "/../a" = "/a" /\
  Clean "" = "." /\
  Clean "a/.." = ".".
Proof. repeat split; reflexivity. Qed.

Example Format_stamp_examples :
  Format_stamp (mkTime 2024 1 5 7 3 9 120000000) = "2024-01-05 07:03:09.12 " /\
  Format_stamp (mkTime 2024 11 25 17 30 59 999999) = "2024-11-25 17:30:59 " /\
  Format_stamp (mkTime 2024 11 25 17 30 59 7000000) = "2024-11-25 17:30:59.007 ".
Proof. repeat split; reflexivity. Qed.

(** The second record makes the first one go to its file, which is closed
    before the file of the next hour is opened; the path of a negative slot
    is that of slot 0. *)
Example two_hours_trace :
  os_trace (snd two_hours) =
    [EMkdirAll "/data/logs/app/202401/05";
     EOpenFile "/data/logs/app/202401/05/info-07.log";
     EWrite 0%nat ("2024-01-05 07:03:09.12 reqid-18 main.go 42 : a" ++ nl);
     EClose 0%nat;
     EMkdirAll "/data/logs/app/202401/05";
     EOpenFile "/data/logs/app/202401/05/info-08.log"] /\
  logFile "info" 3 jan5_7h = "info-07-3.log" /\
  logFile "info" (-1) jan5_7h = "info-07.log".
Proof. repeat split; vm_compute; reflexivity. Qed.

(* ================================================================= *)
(** ** Rotation: [checkRotate] *)

Lemma date_test (a b : Time) :
  (negb (t_year a =? t_year b) || negb (t_month a =? t_month b)
   || negb (t_day a =? t_day b)) = false <-> Date a = Date b.
Proof.
  unfold Date. split.
  - intros H. apply orb_false_iff in H as [H Hd].
    apply orb_false_iff in H as [Hy Hm].
    apply negb_false_iff, Z.eqb_eq in Hy, Hm, Hd. congruence.
  - intros H. injection H as -> -> ->. now rewrite !Z.eqb_refl.
Qed.

Lemma int_add_no_overflow (a : Z) :
  - 2 ^ 63 <= a < 2 ^ 63 - 1 -> int_add a 1 = a + 1.
Proof.
  intros H. unfold int_add.
  rewrite Z.mod_small by lia. lia.
Qed.

(** The branch [checkRotate] takes, for every stream state: which call of
    [rotateFile] it is, or that it returns at once. *)
Lemma checkRotate_branches (e : Env) (now : Time) (sb : bufferWriter) :
  (file sb = None -> checkRotate e now sb = rotateFile e now 0 sb) /\
  (file sb <> None ->
   Date now <> Date (stime sb) \/ Hour now <> Hour (stime sb) ->
   checkRotate e now sb = rotateFile e now 0 sb) /\
  (file sb <> None ->
   Date now = Date (stime sb) -> Hour now = Hour (stime sb) ->
   (MaxSize <= nbytes sb)%N ->
   checkRotate e now sb = rotateFile e now (int_add (slot sb) 1) sb /\
   (- 2 ^ 63 <= slot sb < 2 ^ 63 - 1 -> int_add (slot sb) 1 = slot sb + 1)) /\
  (file sb <> None ->
   Date now = Date (stime sb) -> Hour now = Hour (stime sb) ->
   (nbytes sb < MaxSize)%N ->
   forall os, checkRotate e now sb os = (Ret (None, sb), os)).
Proof.
  unfold checkRotate.
  destruct (file sb) as [f|] eqn:Hf.
  2:{ repeat split; intros; congruence. }
  cbn [Date].
  destruct (negb (t_year now =? t_year (stime sb))
            || negb (t_month now =? t_month (stime sb))
            || negb (t_day now =? t_day (stime sb))) eqn:Hd.
  - assert (Hne : Date now <> Date (stime sb)).
    { intros Heq. apply date_test in Heq. congruence. }
    repeat split; intros; try congruence; contradiction.
  - apply date_test in Hd.
    destruct (Z.eqb_spec (Hour now) (Hour (stime sb))) as [Hh|Hh]; cbn [negb].
    + destruct (N.leb_spec MaxSize (nbytes sb)) as [Hn|Hn].
      * repeat split; intros; try congruence; try lia.
        -- tauto.
        -- now apply int_add_no_overflow.
      * repeat split; intros; try congruence; try lia. tauto.
    + repeat split; intros; try congruence; contradiction.
Qed.

(* ================================================================= *)
(** ** System calls and [bufio.Writer] *)

Ltac munfold :=
  cbv beta iota delta [bind ret panic emit Println lift];
  cbn [fst snd os_files os_trace os_console].

Lemma add_trace_nil (os : OS) : add_trace os [] = os.
Proof. destruct os; unfold add_trace; cbn. now rewrite app_nil_r. Qed.

Lemma add_trace_app (os : OS) (l1 l2 : list Event) :
  add_trace (add_trace os l1) l2 = add_trace os (l1 ++ l2).
Proof. unfold add_trace; cbn. now rewrite app_assoc. Qed.

Lemma File_Write_spec (e : Env) (f : fd) (p : string) (os : OS) :
  exists r, File_Write e f p os = (Ret r, add_trace os [EWrite f p]).
Proof.
  unfold File_Write. munfold. cbn.
  fold (add_trace os [EWrite f p]).
  destruct (is_open _ f); [destruct (write_err e f)|]; eauto.
Qed.

Lemma Flush_spec (e : Env) (b : bufioWriter) (os : OS) :
  exists err b',
    Flush e b os = (Ret (err, b'), add_trace os (flush_events b)) /\
    bw_wr b' = bw_wr b /\ bw_size b' = bw_size b /\
    flush_events b' = [] /\
    (bw_buf b' = bw_buf b \/ bw_buf b' = "").
Proof.
  unfold Flush, flush_events.
  destruct (bw_err b) as [err|] eqn:He.
  - exists (Some err), b. rewrite add_trace_nil, He. munfold. auto 6.
  - destruct (String.eqb (bw_buf b) "") eqn:Hb.
    + exists None, b. rewrite add_trace_nil, He, Hb. munfold. auto 6.
    + unfold bind at 1.
      destruct (File_Write_spec e (bw_wr b) (bw_buf b) os) as [[n werr] ->].
      cbn [snd]. destruct werr as [err|]; munfold.
      * exists (Some err). eexists. split; [reflexivity|]. cbn. auto 6.
      * exists None. eexists. split; [reflexivity|]. cbn. auto 6.
Qed.

Lemma is_open_close_at (l : list OFile) (f g : nat) (c : list string) (t : list Event) :
  is_open (mkOS (close_at l f) t c) g =
  if Nat.eqb g f then false else is_open (mkOS l t c) g.
Proof.
  unfold is_open; cbn. revert f g.
  induction l as [|o l IH]; intros f g.
  - destruct g, f; cbn; try reflexivity; now destruct (Nat.eqb g f).
  - destruct f as [|f], g as [|g]; cbn; try reflexivity. apply IH.
Qed.

Lemma close_at_length (l : list OFile) (f : nat) :
  List.length (close_at l f) = List.length l.
Proof.
  revert f. induction l as [|o l IH]; intros [|f]; cbn; auto.
Qed.

Lemma File_Close_spec (f : fd) (os : OS) :
  exists r os',
    File_Close f os = (Ret r, os') /\
    os_trace os' = (os_trace os ++ [EClose f])%list /\
    os_console os' = os_console os /\
    List.length (os_files os') = List.length (os_files os) /\
    is_open os' f = false /\
    (forall g, g <> f -> is_open os' g = is_open os g).
Proof.
  unfold File_Close. munfold. cbn.
  destruct (is_open _ f) eqn:Ho.
  - do 2 eexists. split; [reflexivity|]. cbn.
    repeat split; auto using close_at_length.
    + rewrite is_open_close_at. now rewrite Nat.eqb_refl.
    + intros g Hg. rewrite is_open_close_at.
      destruct (Nat.eqb_spec g f); [contradiction|]. reflexivity.
  - do 2 eexists. split; [reflexivity|]. cbn. repeat split; auto.
Qed.

Lemma index_level_some (lv : Level) :
  (lv < 6)%N -> exists name, index_level levelName lv = Some name.
Proof.
  intros H. unfold index_level.
  destruct (nth_error levelName (N.to_nat lv)) eqn:E; eauto.
  apply nth_error_None in E. cbn in E. lia.
Qed.

(** What [createFile] does, by the answers of the environment. *)
Lemma createFile_spec (e : Env) (base name : string) (lv : Level) (sl : Z)
    (t : Time) (os : OS) (lname : string) :
  index_level levelName lv = Some lname ->
  let dir := logDir base name t in
  let fname := Join dir (logFile lname sl t) in
  createFile e base name lv sl t os =
  match mkdir_err e dir with
  | Some err =>
      (Ret (inr ("logtool: cannot create log: " ++ err)),
       add_trace os [EMkdirAll dir])
  | None =>
      match open_err e fname with
      | Some err =>
          (Ret (inr ("logtool: cannot open log file: " ++ err)),
           add_trace os [EMkdirAll dir; EOpenFile fname])
      | None =>
          (Ret (inl (List.length (os_files os))),
           mkOS (os_files os ++ [mkOFile fname true])
                (os_trace os ++ [EMkdirAll dir; EOpenFile fname])
                (os_console os))
      end
  end.
Proof.
  intros Hl dir fname. unfold createFile, MkdirAll, OpenFile.
  fold dir. rewrite Hl. fold fname. munfold. unfold add_trace.
  destruct (mkdir_err e dir) as [err|]; [reflexivity|].
  munfold. rewrite <- !app_assoc.
  destruct (open_err e fname) as [err|]; reflexivity.
Qed.

(* ================================================================= *)
(** ** Rotation: [rotateFile] *)

Lemma rotateFile_closed (e : Env) (now : Time) (sl : Z) (sb : bufferWriter)
    (os : OS) :
  file sb = None ->
  rotateFile e now sl sb os =
  rotate_result sb now sl
    (createFile e (sb_basePath sb) (sb_logName sb) (sb_level sb) sl now os).
Proof.
  intros Hf. unfold rotateFile, rotate_result. rewrite Hf.
  unfold bind at 1. unfold ret at 1. unfold bind.
  destruct (createFile _ _ _ _ _ _ os) as [[[nf|err]|m] os']; reflexivity.
Qed.

Lemma rotateFile_open (e : Env) (now : Time) (sl : Z) (sb : bufferWriter)
    (os : OS) (f : fd) (b : bufioWriter) :
  file sb = Some f -> Writer sb = Some b ->
  exists b1 os_c,
    bw_wr b1 = bw_wr b /\ bw_size b1 = bw_size b /\
    ((bw_buf b1 = bw_buf b \/ bw_buf b1 = "") /\ flush_events b1 = []) /\
    os_trace os_c = (os_trace os ++ flush_events b ++ [EClose f])%list /\
    os_console os_c = os_console os /\
    List.length (os_files os_c) = List.length (os_files os) /\
    is_open os_c f = false /\
    (forall g, g <> f -> is_open os_c g = is_open os g) /\
    rotateFile e now sl sb os =
    rotate_result (set_Writer sb (Some b1)) now sl
      (createFile e (sb_basePath sb) (sb_logName sb) (sb_level sb) sl now os_c).
Proof.
  intros Hf Hw.
  destruct (Flush_spec e b os) as (ferr & b1 & HF & Hwr & Hsz & Hfl & Hev).
  destruct (File_Close_spec f (add_trace os (flush_events b)))
    as (cr & os_c & HC & Htr & Hco & Hlen & Hcl & Hoth).
  exists b1, os_c. repeat split; auto.
  - rewrite Htr. unfold add_trace; cbn. now rewrite app_assoc.
  - unfold rotateFile, rotate_result. rewrite Hf, Hw.
    unfold bind at 1. unfold bind at 1. rewrite HF.
    unfold bind at 1. rewrite HC. unfold ret at 1. cbn [snd].
    unfold bind.
    change (sb_basePath (set_Writer sb (Some b1))) with (sb_basePath sb).
    change (sb_logName (set_Writer sb (Some b1))) with (sb_logName sb).
    change (sb_level (set_Writer sb (Some b1))) with (sb_level sb).
    destruct (createFile _ _ _ _ _ _ os_c) as [[[nf|err]|m] os']; reflexivity.
Qed.

(** A failed rotation leaves the bookkeeping of the stream as it was. *)
Lemma rotateFile_error_keeps (e : Env) (now : Time) (sl : Z)
    (sb sb' : bufferWriter) (os os' : OS) (err : error) :
  rotateFile e now sl sb os = (Ret (Some err, sb'), os') ->
  file sb' = file sb /\ stime sb' = stime sb /\ slot sb' = slot sb /\
  nbytes sb' = nbytes sb /\ sb_level sb' = sb_level sb /\
  sb_basePath sb' = sb_basePath sb /\ sb_logName sb' = sb_logName sb /\
  (Writer sb = None -> Writer sb' = None).
Proof.
  intros H. destruct (file sb) as [f|] eqn:Hf.
  - destruct (Writer sb) as [b|] eqn:Hw.
    + destruct (rotateFile_open e now sl sb os Hf Hw)
        as (b1 & os_c & _ & _ & _ & _ & _ & _ & _ & _ & Hr).
      rewrite Hr in H. unfold rotate_result in H.
      destruct (createFile _ _ _ _ _ _ os_c) as [[[nf|err']|m] os''];
        inversion H; subst; cbn; repeat split; auto; discriminate.
    + unfold rotateFile in H. rewrite Hf, Hw in H. discriminate.
  - rewrite (rotateFile_closed e now sl sb os Hf) in H.
    unfold rotate_result in H.
    destruct (createFile _ _ _ _ _ _ os) as [[[nf|err']|m] os''];
      inversion H; subst; repeat split; auto.
Qed.

(** C3: a rotation of a stream whose file is open performs, in this order
    and nothing else, the flush of the bytes pending in the old buffered
    writer to the old file, the close of the old file, [MkdirAll] and
    [OpenFile] of the new path: nothing is written after the new file is
    opened.  When the open succeeds the old file is closed, the new handle is
    open, [nbytes] is 0, [stime] is [now], [slot] is the slot asked for, and
    the buffered writer is a new, empty one of capacity 256 KiB (262144 bytes)
    on the new file.  The rotation does not panic. *)
Theorem rotateFile_flush_close_open (e : Env) (now : Time) (sl : Z)
    (sb : bufferWriter) (os : OS) (f : fd) (b : bufioWriter) :
  sb_wf sb -> file sb = Some f -> Writer sb = Some b ->
  (f < List.length (os_files os))%nat ->
  exists lname,
    index_level levelName (sb_level sb) = Some lname /\
    let dir := logDir (sb_basePath sb) (sb_logName sb) now in
    let fname := Join dir (logFile lname sl now) in
    let nf := List.length (os_files os) in
    let pending :=
      match bw_err b with
      | Some _ => []
      | None => if String.eqb (bw_buf b) "" then [] else [EWrite f (bw_buf b)]
      end in
    match rotateFile e now sl sb os with
    | (Ret (None, sb'), os') =>
        os_trace os' =
          (os_trace os ++ pending ++ [EClose f; EMkdirAll dir; EOpenFile fname])%list /\
        is_open os' f = false /\
        nth_error (os_files os') nf = Some (mkOFile fname true) /\
        sb' = mkBufferWriter (Some (mkBufio nf 262144 "" None))
                (sb_basePath sb) (sb_logName sb) (Some nf) (sb_level sb)
                now sl 0%N
    | (Ret (Some err, sb'), os') =>
        exists calls,
          os_trace os' = (os_trace os ++ pending ++ EClose f :: calls)%list /\
          (calls = [EMkdirAll dir] \/ calls = [EMkdirAll dir; EOpenFile fname]) /\
          file sb' = Some f
    | (Panic _, _) => False
    end.
Proof.
  intros [Hlv Hwf] Hf Hw Hvalid.
  destruct (index_level_some Hlv) as [lname Hl]. exists lname.
  split; [exact Hl|]. cbv zeta.
  rewrite Hf, Hw in Hwf. subst f.
  destruct (rotateFile_open e now sl sb os Hf Hw)
    as (b1 & os_c & _ & _ & _ & Htr & Hco & Hlen & Hcl & Hoth & Hr).
  rewrite Hr, (createFile_spec e _ _ _ sl now os_c Hl). unfold rotate_result.
  fold (flush_events b).
  destruct (mkdir_err e _) as [err|].
  - exists [EMkdirAll (logDir (sb_basePath sb) (sb_logName sb) now)].
    cbn. rewrite Htr, <- !app_assoc. auto.
  - destruct (open_err e _) as [err|].
    + eexists. cbn. rewrite Htr, <- !app_assoc. cbn. split; [reflexivity|]. auto.
    + cbn [os_trace os_files]. rewrite Htr, <- !app_assoc, Hlen.
      repeat split.
      * unfold is_open in *. cbn [os_files] in *.
        rewrite nth_error_app1 by lia. exact Hcl.
      * rewrite nth_error_app2 by lia. rewrite Hlen, Nat.sub_diag. reflexivity.
Qed.

Lemma rotateFile_flush_close_open_witness :
  exists sb' os',
    rotateFile env_ok jan5_8h 0 sb_open os1 = (Ret (None, sb'), os') /\
    os_trace os' =
      [EMkdirAll "/data/logs/app/202401/05";
       EOpenFile "/data/logs/app/202401/05/info-07.log";
       EWrite 0%nat "pending"; EClose 0%nat;
       EMkdirAll "/data/logs/app/202401/05";
       EOpenFile "/data/logs/app/202401/05/info-08.log"] /\
    nbytes sb' = 0%N /\ stime sb' = jan5_8h /\ slot sb' = 0 /\
    file sb' = Some 1%nat /\
    Writer sb' = Some (mkBufio 1%nat 262144 "" None).
Proof.
  destruct (@rotateFile_flush_close_open env_ok jan5_8h 0 sb_open os1 0%nat
              (mkBufio 0%nat bufferSize "pending" None))
    as (lname & Hl & H).
  - split; [reflexivity | reflexivity].
  - reflexivity.
  - reflexivity.
  - cbn; lia.
  - injection Hl as <-. cbv zeta in H.
    destruct (rotateFile env_ok jan5_8h 0 sb_open os1) as [[[[err|] sb']|m] os'] eqn:E.
    + vm_compute in E. discriminate.
    + destruct H as (Ht & _ & _ & ->). eexists. exists os'.
      split; [reflexivity|]. split; [exact Ht|]. repeat split.
    + contradiction.
Defined.

Lemma checkRotate_due (e : Env) (now : Time) (sb : bufferWriter) :
  checkRotate e now sb =
  match rotation_due sb now with
  | Some sl => rotateFile e now sl sb
  | None => ret (None, sb)
  end.
Proof.
  unfold checkRotate, rotation_due. destruct (file sb); [|reflexivity].
  cbn [Date].
  destruct (negb (t_year now =? t_year (stime sb)) || _ || _); [reflexivity|].
  destruct (negb (Hour now =? Hour (stime sb))); [reflexivity|].
  destruct (MaxSize <=? nbytes sb)%N; reflexivity.
Qed.

(** Whether a rotation is due depends on the time only through its date
    and hour, and on the stream only through its bookkeeping. *)
Lemma rotation_due_stable (sb sb' : bufferWriter) (now now2 : Time) :
  file sb' = file sb -> stime sb' = stime sb -> slot sb' = slot sb ->
  nbytes sb' = nbytes sb ->
  Date now2 = Date now -> Hour now2 = Hour now ->
  rotation_due sb' now2 = rotation_due sb now.
Proof.
  intros Hf Hs Hsl Hn Hd Hh. unfold rotation_due.
  rewrite Hf, Hs, Hsl, Hn, Hh. unfold Date in Hd. injection Hd as -> -> ->.
  reflexivity.
Qed.

(** [rotateFile] on a well-formed stream returns, and the stream stays well
    formed. *)
Lemma rotateFile_wf (e : Env) (now : Time) (sl : Z) (sb : bufferWriter) (os : OS) :
  sb_wf sb ->
  exists res sb' os',
    rotateFile e now sl sb os = (Ret (res, sb'), os') /\
    sb_wf sb' /\ sb_level sb' = sb_level sb /\
    (res = None -> exists b, Writer sb' = Some b).
Proof.
  intros [Hlv Hwf].
  destruct (index_level_some Hlv) as [lname Hl].
  destruct (file sb) as [f|] eqn:Hf; destruct (Writer sb) as [b|] eqn:Hw;
    try contradiction.
  - destruct (rotateFile_open e now sl sb os Hf Hw)
      as (b1 & os_c & Hwr & _ & _ & _ & _ & _ & _ & _ & Hr).
    rewrite Hr, (createFile_spec e _ _ _ sl now os_c Hl). unfold rotate_result.
    destruct (mkdir_err e _); [|destruct (open_err e _)];
      do 3 eexists; (split; [reflexivity|]); unfold sb_wf; cbn;
      rewrite ?Hf; repeat split; eauto; try congruence; discriminate.
  - rewrite (rotateFile_closed e now sl sb os Hf),
      (createFile_spec e _ _ _ sl now os Hl). unfold rotate_result.
    destruct (mkdir_err e _); [|destruct (open_err e _)];
      do 3 eexists; (split; [reflexivity|]); unfold sb_wf; cbn;
      rewrite ?Hf, ?Hw; repeat split; eauto; discriminate.
Qed.

Lemma checkRotate_wf (e : Env) (now : Time) (sb : bufferWriter) (os : OS) :
  sb_wf sb ->
  exists res sb' os',
    checkRotate e now sb os = (Ret (res, sb'), os') /\
    sb_wf sb' /\ sb_level sb' = sb_level sb /\
    (res = None -> exists b, Writer sb' = Some b).
Proof.
  intros Hwf. rewrite checkRotate_due.
  destruct (rotation_due sb now) as [sl|] eqn:Hd.
  - now apply rotateFile_wf.
  - exists None, sb, os. repeat split; try apply Hwf.
    intros _. unfold rotation_due in Hd. destruct Hwf as [_ Hwf].
    destruct (file sb); [|discriminate].
    destruct (Writer sb); [eauto|contradiction].
Qed.

Lemma flush_events_writes (b : bufioWriter) :
  Forall (fun ev => exists data, ev = EWrite (bw_wr b) data) (flush_events b).
Proof.
  unfold flush_events. destruct (bw_err b); [constructor|].
  destruct (String.eqb (bw_buf b) ""); repeat constructor. eauto.
Qed.

Lemma bufio_Write_returns (e : Env) (b : bufioWriter) (p : string) (os : OS) :
  exists n err b' evs,
    bufio_Write e b p os = (Ret (n, err, b'), add_trace os evs) /\
    bw_wr b' = bw_wr b /\
    Forall (fun ev => exists data, ev = EWrite (bw_wr b) data) evs.
Proof.
  unfold bufio_Write.
  destruct (bw_err b) as [err|].
  { exists 0%N, (Some err), b, []. rewrite add_trace_nil. auto. }
  destruct (len p <=? Available b)%N.
  { do 3 eexists. exists []. rewrite add_trace_nil.
    split; [reflexivity|]. split; [reflexivity|constructor]. }
  destruct (String.eqb (bw_buf b) "").
  { unfold bind.
    destruct (File_Write_spec e (bw_wr b) p os) as [[n werr] ->].
    do 4 eexists. split; [reflexivity|]. split; [reflexivity|].
    repeat constructor. eauto. }
  unfold bind at 1.
  match goal with |- context [Flush e ?x os] =>
    pose proof (flush_events_writes x) as Hfw;
    destruct (Flush_spec e x os) as (ferr & b1 & -> & Hwr & _ & _ & _) end.
  cbn [bw_wr] in Hfw.
  cbn [fst snd]. destruct ferr as [err|].
  { do 4 eexists. split; [reflexivity|]. split; [exact Hwr|exact Hfw]. }
  match goal with |- context [if ?c then _ else _] => destruct c end.
  { do 4 eexists. split; [reflexivity|]. split; [reflexivity|exact Hfw]. }
  unfold bind.
  match goal with |- context [File_Write e ?f ?q ?o] =>
    destruct (File_Write_spec e f q o) as [[n werr] ->] end.
  rewrite add_trace_app.
  do 4 eexists. split; [reflexivity|]. split; [reflexivity|].
  apply Forall_app. split; [exact Hfw|]. repeat constructor. eauto.
Qed.

Lemma bufferWriter_Write_wf (e : Env) (sb : bufferWriter) (p : string)
    (os : OS) (b : bufioWriter) :
  sb_wf sb -> Writer sb = Some b ->
  exists n err sb' evs,
    bufferWriter_Write e sb p os = (Ret (n, err, sb'), add_trace os evs) /\
    sb_wf sb' /\ sb_level sb' = sb_level sb /\ file sb' = file sb /\
    stime sb' = stime sb /\ slot sb' = slot sb /\
    (exists b', Writer sb' = Some b' /\ bw_wr b' = bw_wr b) /\
    Forall (fun ev => exists data, ev = EWrite (bw_wr b) data) evs.
Proof.
  intros [Hlv Hwf] Hw. unfold bufferWriter_Write. rewrite Hw.
  destruct (bufio_Write_returns e b p os)
    as (n & err & b' & evs & HW & Hwr & Hev).
  unfold bind. rewrite HW. do 4 eexists. split; [reflexivity|].
  unfold sb_wf; cbn. rewrite Hw in Hwf.
  destruct (file sb); [|contradiction]. repeat split; eauto. congruence.
Qed.

(* ================================================================= *)
(** ** Strings *)

Lemma append_nil_r (s : string) : s ++ "" = s.
Proof. induction s; cbn; congruence. Qed.

Lemma append_assoc (a b c : string) : (a ++ b) ++ c = a ++ b ++ c.
Proof. induction a; cbn; congruence. Qed.

Lemma length_append (a b : string) :
  String.length (a ++ b) = (String.length a + String.length b)%nat.
Proof. induction a; cbn; congruence. Qed.

Lemma last_byte_cons_some (c : ascii) (s : string) :
  exists d, last_byte (String c s) = Some d.
Proof.
  revert c. induction s as [|a s IH]; intros c; [now exists c|].
  destruct (IH a) as [d Hd]. exists d. exact Hd.
Qed.

Lemma last_byte_cons (c : ascii) (s : string) :
  last_byte (String c s) =
  match last_byte s with Some d => Some d | None => Some c end.
Proof.
  destruct s as [|a s]; [reflexivity|].
  change (last_byte (String c (String a s))) with (last_byte (String a s)).
  now destruct (last_byte_cons_some a s) as [d ->].
Qed.

Lemma last_byte_app (a b : string) :
  last_byte (a ++ b) =
  match last_byte b with Some c => Some c | None => last_byte a end.
Proof.
  induction a as [|c a IH].
  - cbn. now destruct (last_byte b).
  - cbn [append]. rewrite !last_byte_cons, IH.
    destruct (last_byte b); [reflexivity|]. now destruct (last_byte a).
Qed.

Lemma last_byte_none (s : string) : last_byte s = None -> s = "".
Proof.
  destruct s as [|c s]; [reflexivity|]. rewrite last_byte_cons.
  destruct (last_byte s); discriminate.
Qed.

Lemma substring_last (s : string) (c : ascii) :
  substring (String.length s) 1 (s ++ String c "") = String c "".
Proof. induction s; cbn; auto. Qed.

Lemma snoc_inv (s : string) :
  s = "" \/ exists r c, s = r ++ String c "".
Proof.
  induction s as [|a s IH]; [now left|]. right.
  destruct IH as [->|(r & c & ->)].
  - exists "", a. reflexivity.
  - exists (String a r), c. reflexivity.
Qed.

(** [HasSuffix] with a one-byte suffix tests the last byte. *)
Lemma HasSuffix_last (s : string) (c : ascii) :
  HasSuffix s (String c "") =
  match last_byte s with Some d => Ascii.eqb d c | None => false end.
Proof.
  unfold HasSuffix. destruct (snoc_inv s) as [->|(r & d & ->)]; [reflexivity|].
  rewrite last_byte_app, length_append. cbn [String.length last_byte].
  replace (String.length r + 1 - 1)%nat with (String.length r) by lia.
  rewrite substring_last.
  replace (1 <=? String.length r + 1)%nat with true
    by (symmetry; apply Nat.leb_le; lia).
  cbn. now destruct (Ascii.eqb d c).
Qed.

Lemma prefix_app (a b : string) : String.prefix a (a ++ b) = true.
Proof.
  induction a as [|c a IH]; cbn; [now destruct b|].
  destruct (ascii_dec c c); [exact IH|contradiction].
Qed.

Lemma string_forall_app (P : ascii -> bool) (a b : string) :
  string_forall P (a ++ b) = string_forall P a && string_forall P b.
Proof. induction a; cbn; [reflexivity|]. now rewrite IHa, andb_assoc. Qed.

Lemma string_forall_impl (P Q : ascii -> bool) (s : string) :
  (forall c, P c = true -> Q c = true) ->
  string_forall P s = true -> string_forall Q s = true.
Proof.
  intros H. induction s as [|c s IH]; cbn; [reflexivity|].
  intros Hs. apply andb_true_iff in Hs as [Hc Hs].
  now rewrite (H c Hc), IH.
Qed.

Lemma digits_of_uint (d : Decimal.uint) :
  string_forall is_digit (NilEmpty.string_of_uint d) = true.
Proof. induction d; cbn; auto. Qed.

Lemma dec_digits (n : N) : string_forall is_digit (dec n) = true.
Proof.
  unfold dec, NilZero.string_of_uint.
  destruct (N.to_uint n); try reflexivity; apply digits_of_uint.
Qed.

Lemma dec_nonempty (n : N) : exists c r, dec n = String c r.
Proof.
  unfold dec, NilZero.string_of_uint.
  destruct (N.to_uint n); cbn; eauto.
Qed.

Lemma zeros_digits (k : nat) : string_forall is_digit (zeros k) = true.
Proof. induction k; cbn; auto. Qed.

Lemma pad0_digits (w : nat) (n : N) :
  string_forall is_digit (pad0 w (dec n)) = true.
Proof.
  unfold pad0. now rewrite string_forall_app, zeros_digits, dec_digits.
Qed.

Lemma pad0_nonempty (w : nat) (n : N) : exists c r, pad0 w (dec n) = String c r.
Proof.
  unfold pad0. destruct (w - String.length (dec n))%nat; cbn; eauto.
  apply dec_nonempty.
Qed.

Lemma is_digit_numeric (c : ascii) : is_digit c = true -> is_numeric c = true.
Proof. unfold is_numeric. now intros ->. Qed.

Lemma appendInt_numeric (z : Z) (w : nat) :
  string_forall is_numeric (appendInt z w) = true.
Proof.
  unfold appendInt. destruct (z <? 0); cbn [append string_forall];
    rewrite ?andb_true_l;
    apply (string_forall_impl is_digit _ _ is_digit_numeric), pad0_digits.
Qed.

Lemma appendInt_nonempty (z : Z) (w : nat) :
  exists c r, appendInt z w = String c r.
Proof.
  unfold appendInt. destruct (z <? 0); cbn; eauto. apply pad0_nonempty.
Qed.

Lemma fmt_0d_numeric (w : nat) (z : Z) :
  string_forall is_numeric (fmt_0d w z) = true.
Proof.
  unfold fmt_0d. destruct (z <? 0); cbn [append string_forall];
    rewrite ?andb_true_l;
    apply (string_forall_impl is_digit _ _ is_digit_numeric), pad0_digits.
Qed.

Lemma fmt_0d_nonempty (w : nat) (z : Z) : exists c r, fmt_0d w z = String c r.
Proof.
  unfold fmt_0d. destruct (z <? 0); cbn; eauto. apply pad0_nonempty.
Qed.

Lemma Itoa_numeric (z : Z) : string_forall is_numeric (Itoa z) = true.
Proof.
  unfold Itoa. destruct (z <? 0); cbn [append string_forall];
    rewrite ?andb_true_l;
    apply (string_forall_impl is_digit _ _ is_digit_numeric), dec_digits.
Qed.

(* ================================================================= *)
(** ** The line [write] assembles *)

Lemma GetPrefix_last (rt : Runtime) (k : Z) :
  last_byte (GetPrefix rt k) = Some " "%char.
Proof.
  unfold GetPrefix. destruct (rt_caller rt k) as [[file line]|];
    rewrite !last_byte_app; reflexivity.
Qed.

Lemma GetPrefix_head (rt : Runtime) (k : Z) :
  exists r, GetPrefix rt k = String "r" r.
Proof.
  unfold GetPrefix. destruct (rt_caller rt k) as [[file line]|]; cbn; eauto.
Qed.

Lemma Format_stamp_head (t : Time) :
  exists c r, Format_stamp t = String c r /\ is_numeric c = true.
Proof.
  unfold Format_stamp, Format_datetime.
  pose proof (appendInt_numeric (t_year t) 4) as Hn.
  destruct (appendInt_nonempty (t_year t) 4) as (c & r & Hy).
  rewrite Hy in *. cbn in Hn. apply andb_true_iff in Hn as [Hc _].
  cbn. eauto.
Qed.

(** The buffer of [write] before the test of its last byte. *)
Lemma assemble_eq (rt : Runtime) (lv : Level) (s : string) :
  let head :=
    (if (lv =? LevelAction)%N then "" else Format_stamp (rt_now rt))
    ++ GetPrefix rt 4 in
  assemble rt lv s =
  Some (head ++ s ++ (if HasSuffix s nl then "" else nl)).
Proof.
  cbv zeta. unfold assemble.
  assert (Hbuf :
    ((if negb (lv =? LevelAction)%N then "" ++ Format_stamp (rt_now rt) else "")
     ++ GetPrefix rt 4) ++ s =
    ((if (lv =? LevelAction)%N then "" else Format_stamp (rt_now rt))
     ++ GetPrefix rt 4) ++ s).
  { now destruct (lv =? LevelAction)%N. }
  rewrite Hbuf. clear Hbuf.
  set (head := (if (lv =? LevelAction)%N then "" else _) ++ GetPrefix rt 4).
  assert (Hlast : last_byte (head ++ s) =
                  match last_byte s with Some c => Some c | None => Some " "%char end).
  { rewrite last_byte_app. destruct (last_byte s); [reflexivity|].
    unfold head. now rewrite last_byte_app, GetPrefix_last. }
  rewrite Hlast. unfold nl at 1. rewrite HasSuffix_last.
  destruct (last_byte s) as [c|].
  - destruct (Ascii.eqb c newline); cbn [negb].
    + now rewrite append_nil_r.
    + now rewrite append_assoc.
  - cbn. now rewrite append_assoc.
Qed.

(** C5: the line [write] submits is the stamp (if any), the caller prefix
    and the message, followed by one newline when the message does not end in
    a newline and by nothing when it does; either way the line ends in a
    newline.  That line is what the stream receives when the rotation check
    passes. *)
Theorem write_line_newline (rt : Runtime) (lv : Level) (s : string) :
  let head :=
    (if (lv =? LevelAction)%N then "" else Format_stamp (rt_now rt))
    ++ GetPrefix rt 4 in
  let line := head ++ s ++ (if HasSuffix s nl then "" else nl) in
  assemble rt lv s = Some line /\
  HasSuffix line nl = true /\
  forall e w os sb1 os1,
    (lv < 6)%N ->
    checkRotate e (rt_now rt) (stream_of w lv) os = (Ret (None, sb1), os1) ->
    fileLogWriter_write e rt lv s w os =
    (r2 <- bufferWriter_Write e sb1 line ;;
     ret (set_writers w (array_set (writers w) (N.to_nat lv) (Some (snd r2)))))
      os1.
Proof.
  cbv zeta. split; [apply assemble_eq|]. split.
  - unfold nl. rewrite !HasSuffix_last, <- append_assoc, last_byte_app.
    destruct (last_byte s) as [c|] eqn:Hs.
    + destruct (Ascii.eqb c newline) eqn:Hc; cbn.
      * rewrite last_byte_app, Hs. exact Hc.
      * reflexivity.
    + reflexivity.
  - intros e w os sb1 os1 Hlv Hc.
    unfold fileLogWriter_write. rewrite assemble_eq.
    apply N.ltb_lt in Hlv. rewrite Hlv. cbn [negb].
    fold (stream_of w lv). unfold bind at 1. rewrite Hc. reflexivity.
Qed.

Lemma write_line_newline_witness :
  assemble rt0 LevelInfo "hello" =
    Some ("2024-01-05 07:03:09.12 reqid-18 main.go 42 : hello" ++ nl) /\
  assemble rt0 LevelInfo ("hello" ++ nl) =
    Some ("2024-01-05 07:03:09.12 reqid-18 main.go 42 : hello" ++ nl) /\
  exists w' os',
    fileLogWriter_write env_ok rt0 LevelInfo "hello" (newFileLog "app" "/data") os0
    = (Ret w', os') /\
    option_map bw_buf (Writer (stream_of w' LevelInfo)) =
      Some ("2024-01-05 07:03:09.12 reqid-18 main.go 42 : hello" ++ nl).
Proof.
  destruct (write_line_newline rt0 LevelInfo "hello") as (H1 & _ & H3).
  destruct (write_line_newline rt0 LevelInfo ("hello" ++ nl)) as (H2 & _ & _).
  split; [exact H1|]. split; [exact H2|].
  specialize (H3 env_ok (newFileLog "app" "/data") os0).
  destruct (checkRotate env_ok (rt_now rt0)
              (stream_of (newFileLog "app" "/data") LevelInfo) os0)
    as [[[[err|] sb1]|m] os1] eqn:E; try (vm_compute in E; discriminate).
  specialize (H3 sb1 os1 eq_refl eq_refl).
  rewrite H3. vm_compute in E. injection E as <- <-.
  do 2 eexists. split; vm_compute; reflexivity.
Defined.

(** C6: the assembled line starts with the formatted timestamp exactly when
    the level is not [LevelAction]: for every other level the line is the
    stamp followed by the caller prefix and the message, for [LevelAction] it
    starts with the caller prefix, which no stamp is a prefix of.  No
    configuration is read. *)
Theorem write_line_stamp (rt : Runtime) (lv : Level) (s : string) :
  exists line,
    assemble rt lv s = Some line /\
    line = (if (lv =? LevelAction)%N then "" else Format_stamp (rt_now rt))
           ++ GetPrefix rt 4 ++ s ++ (if HasSuffix s nl then "" else nl) /\
    HasPrefix line (Format_stamp (rt_now rt)) = negb (lv =? LevelAction)%N.
Proof.
  eexists. split; [apply assemble_eq|]. split; [apply append_assoc|].
  unfold HasPrefix. rewrite append_assoc.
  destruct (lv =? LevelAction)%N; cbn [negb].
  - destruct (GetPrefix_head rt 4) as [r ->].
    destruct (Format_stamp_head (rt_now rt)) as (c & r' & -> & Hc).
    cbn. destruct (ascii_dec c "r") as [->|]; [discriminate|reflexivity].
  - apply prefix_app.
Qed.

(* ================================================================= *)
(** ** The multiplexed writer: [write] *)

Lemma array_set_length {A} (l : list A) (i : nat) (x : A) :
  List.length (array_set l i x) = List.length l.
Proof. revert i. induction l; intros [|i]; cbn; auto. Qed.

Lemma array_set_same {A} (l : list A) (i : nat) (x : A) :
  (i < List.length l)%nat -> nth_error (array_set l i x) i = Some x.
Proof.
  revert i. induction l as [|y l IH]; intros [|i] H; cbn in *; try lia; auto.
  apply IH. lia.
Qed.

Lemma array_set_other {A} (l : list A) (i j : nat) (x : A) :
  i <> j -> nth_error (array_set l i x) j = nth_error l j.
Proof.
  revert i j. induction l as [|y l IH]; intros [|i] [|j] H; cbn; auto;
    try congruence.
Qed.

Lemma nth_Some_nth_error {A} (l : list (option A)) (i : nat) (x : A) :
  nth i l None = Some x -> nth_error l i = Some (Some x).
Proof.
  revert i. induction l as [|y l IH]; intros [|i] H; cbn in *;
    try discriminate; auto. congruence.
Qed.

Lemma stream_of_wf (w : fileLogWriter) (lv : Level) :
  w_wf w -> (lv < 6)%N ->
  sb_wf (stream_of w lv) /\ sb_level (stream_of w lv) = lv.
Proof.
  intros [_ Hw] Hlv. unfold stream_of.
  destruct (nth (N.to_nat lv) (writers w) None) as [sb|] eqn:E.
  - apply nth_Some_nth_error, Hw in E as [Hsb Hi].
    split; [exact Hsb|]. now apply N2Nat.inj.
  - split; [|reflexivity]. split; [exact Hlv|exact I].
Qed.

Lemma w_wf_set (w : fileLogWriter) (lv : Level) (sb : bufferWriter) :
  w_wf w -> sb_wf sb -> sb_level sb = lv ->
  w_wf (set_writers w (array_set (writers w) (N.to_nat lv) (Some sb))).
Proof.
  intros [Hlen Hw] Hsb Hlv. split; cbn.
  - now rewrite array_set_length.
  - intros i sb' Hi. destruct (Nat.eq_dec (N.to_nat lv) i) as [<-|Hne].
    + destruct (Nat.lt_ge_cases (N.to_nat lv) (List.length (writers w))) as [Hlt|Hge].
      * rewrite array_set_same in Hi by exact Hlt.
        injection Hi as <-. split; [exact Hsb|]. now rewrite Hlv.
      * assert (Hn : nth_error (array_set (writers w) (N.to_nat lv) (Some sb))
                       (N.to_nat lv) = None)
          by (apply nth_error_None; now rewrite array_set_length).
        congruence.
    + rewrite array_set_other in Hi by exact Hne. now apply Hw.
Qed.

Lemma newFileLog_wf (name base : string) : w_wf (newFileLog name base).
Proof.
  split; [reflexivity|]. intros i sb H. cbn in H.
  do 6 (destruct i as [|i]; [discriminate|]). now destruct i.
Qed.

(** [write] on a well-formed writer and one of the six levels returns, and
    the writer stays well formed with the stream of the level in place. *)
Lemma fileLogWriter_write_returns (e : Env) (rt : Runtime) (lv : Level)
    (s : string) (w : fileLogWriter) (os : OS) :
  w_wf w -> (lv < 6)%N ->
  exists w' os',
    fileLogWriter_write e rt lv s w os = (Ret w', os') /\ w_wf w' /\
    exists sb, nth_error (writers w') (N.to_nat lv) = Some (Some sb).
Proof.
  intros Hw Hlv. unfold fileLogWriter_write. rewrite assemble_eq.
  pose proof Hlv as Hlt. apply N.ltb_lt in Hlt. rewrite Hlt. cbn [negb].
  fold (stream_of w lv).
  destruct (stream_of_wf Hw Hlv) as [Hsb Hl].
  destruct (checkRotate_wf e (rt_now rt) os Hsb)
    as (res & sb1 & os1 & Hc & Hsb1 & Hl1 & Hres).
  assert (Hin : (N.to_nat lv < List.length (writers w))%nat)
    by (destruct Hw as [-> _]; lia).
  unfold bind at 1. rewrite Hc. cbn [fst snd].
  destruct res as [err|].
  - munfold. do 2 eexists. split; [reflexivity|]. split.
    + apply w_wf_set; auto. congruence.
    + exists sb1. cbn. now apply array_set_same.
  - destruct (Hres eq_refl) as [b Hb].
    match goal with |- context [bufferWriter_Write e sb1 ?p] =>
      destruct (bufferWriter_Write_wf e p os1 Hsb1 Hb)
        as (n & err & sb2 & evs & HW & Hsb2 & Hl2 & _) end.
    unfold bind. rewrite HW. munfold. do 2 eexists. split; [reflexivity|].
    split.
    + apply w_wf_set; auto. congruence.
    + exists sb2. cbn. now apply array_set_same.
Qed.

(** C10: on a writer as the code builds it, [write] with one of the six
    levels (0 to 5) finds or creates the stream of the level within the six
    slots of [writers] and returns without a panic, the stream being in its
    slot afterwards; with any level from 6 on, the index is out of range and
    [write] panics.  [level <= 5] is what a caller has to guarantee. *)
Theorem write_level_in_bounds (e : Env) (rt : Runtime) (lv : Level)
    (s : string) (w : fileLogWriter) (os : OS) :
  w_wf w ->
  ((lv <= 5)%N ->
   exists w' os',
     fileLogWriter_write e rt lv s w os = (Ret w', os') /\ w_wf w' /\
     exists sb, nth_error (writers w') (N.to_nat lv) = Some (Some sb)) /\
  ((5 < lv)%N ->
   fileLogWriter_write e rt lv s w os = (Panic out_of_range, os)).
Proof.
  intros Hw. split.
  - intros Hlv. apply fileLogWriter_write_returns; [exact Hw|lia].
  - intros Hlv. unfold fileLogWriter_write. rewrite assemble_eq.
    replace (lv <? 6)%N with false by (symmetry; apply N.ltb_ge; lia).
    reflexivity.
Qed.

Lemma write_level_in_bounds_witness :
  (exists w' os',
     fileLogWriter_write env_ok rt0 LevelAction "{}" (newFileLog "app" "/data") os0
     = (Ret w', os')) /\
  fileLogWriter_write env_ok rt0 6%N "x" (newFileLog "app" "/data") os0
  = (Panic out_of_range, os0).
Proof.
  destruct (write_level_in_bounds env_ok rt0 LevelAction "{}" os0
              (newFileLog_wf "app" "/data")) as [H1 _].
  destruct (write_level_in_bounds env_ok rt0 6%N "x" os0
              (newFileLog_wf "app" "/data")) as [_ H2].
  split.
  - destruct H1 as (w' & os' & H & _); [vm_compute; discriminate|]. eauto.
  - apply H2. reflexivity.
Defined.

(** The two ways a rotation ends, by the answers of the environment: the
    stream keeps its bookkeeping, with nothing new and nothing left to flush
    in its buffer, or it is the new stream on a handle that did not exist
    before.  Either way the old file, if any, is flushed and closed first and
    the directory creation is attempted. *)
Lemma rotateFile_cases (e : Env) (now : Time) (sl : Z) (sb : bufferWriter)
    (os : OS) (lname : string) :
  sb_wf sb -> index_level levelName (sb_level sb) = Some lname ->
  let dir := logDir (sb_basePath sb) (sb_logName sb) now in
  let fname := Join dir (logFile lname sl now) in
  let nf := List.length (os_files os) in
  let pre :=
    match file sb, Writer sb with
    | Some f, Some b => (flush_events b ++ [EClose f])%list
    | _, _ => []
    end in
  exists res sb' os' post,
    rotateFile e now sl sb os = (Ret (res, sb'), os') /\
    os_console os' = os_console os /\
    os_trace os' = (os_trace os ++ pre ++ EMkdirAll dir :: post)%list /\
    (post = [] \/ post = [EOpenFile fname]) /\
    ((exists err,
        res = Some err /\
        (mkdir_err e dir <> None \/ open_err e fname <> None) /\
        file sb' = file sb /\ stime sb' = stime sb /\ slot sb' = slot sb /\
        nbytes sb' = nbytes sb /\
        match Writer sb', Writer sb with
        | Some b', Some b =>
            (bw_buf b' = bw_buf b \/ bw_buf b' = "") /\ flush_events b' = []
        | None, None => True
        | _, _ => False
        end)
     \/
     (res = None /\ mkdir_err e dir = None /\ open_err e fname = None /\
      sb' = mkBufferWriter (Some (NewWriterSize nf bufferSize))
              (sb_basePath sb) (sb_logName sb) (Some nf) (sb_level sb)
              now sl 0%N /\
      nth_error (os_files os') nf = Some (mkOFile fname true))).
Proof.
  intros [Hlv Hwf] Hl dir fname nf.
  destruct (file sb) as [f|] eqn:Hf; destruct (Writer sb) as [b|] eqn:Hw;
    try contradiction; cbv zeta.
  - destruct (rotateFile_open e now sl sb os Hf Hw)
      as (b1 & os_c & _ & _ & Hbuf & Htr & Hco & Hlen & _ & _ & Hr).
    rewrite Hr, (createFile_spec e _ _ _ sl now os_c Hl). unfold rotate_result.
    fold dir. fold fname.
    destruct (mkdir_err e dir) as [err|] eqn:Hm;
      [|destruct (open_err e fname) as [err|] eqn:Ho].
    + do 3 eexists. exists [].
      split; [reflexivity|]. cbn. rewrite Htr, <- !app_assoc.
      do 3 (split; [auto|]). left. eexists. rewrite ?Hw.
      split; [reflexivity|]. split; [left; discriminate|].
      do 4 (split; [cbn; rewrite ?Hf; reflexivity|]). exact Hbuf.
    + do 3 eexists. exists [EOpenFile fname].
      split; [reflexivity|]. cbn. rewrite Htr, <- !app_assoc.
      do 3 (split; [auto|]). left. eexists. rewrite ?Hw.
      split; [reflexivity|]. split; [right; discriminate|].
      do 4 (split; [cbn; rewrite ?Hf; reflexivity|]). exact Hbuf.
    + do 3 eexists. exists [EOpenFile fname].
      split; [reflexivity|]. cbn. rewrite Htr, <- !app_assoc.
      do 3 (split; [auto|]). right. rewrite Hlen. fold nf.
      do 4 (split; [reflexivity|]).
      rewrite nth_error_app2 by lia. rewrite Hlen. fold nf.
      now rewrite Nat.sub_diag.
  - rewrite (rotateFile_closed e now sl sb os Hf),
      (createFile_spec e _ _ _ sl now os Hl). unfold rotate_result.
    fold dir. fold fname.
    destruct (mkdir_err e dir) as [err|] eqn:Hm;
      [|destruct (open_err e fname) as [err|] eqn:Ho].
    + do 3 eexists. exists []. split; [reflexivity|]. cbn.
      do 3 (split; [auto|]). left. eexists. rewrite ?Hw.
      split; [reflexivity|]. split; [left; discriminate|].
      do 4 (split; [cbn; rewrite ?Hf; reflexivity|]). exact I.
    + do 3 eexists. exists [EOpenFile fname]. split; [reflexivity|]. cbn.
      do 3 (split; [auto|]). left. eexists. rewrite ?Hw.
      split; [reflexivity|]. split; [right; discriminate|].
      do 4 (split; [cbn; rewrite ?Hf; reflexivity|]). exact I.
    + do 3 eexists. exists [EOpenFile fname]. split; [reflexivity|]. cbn.
      do 3 (split; [auto|]). right. fold nf.
      do 4 (split; [reflexivity|]).
      rewrite nth_error_app2 by lia. fold nf. now rewrite Nat.sub_diag.
Qed.

(** [rotateFile] performs the rotation it is asked for, on every stream as
    the code builds it and whatever the environment answers. *)
Lemma rotateFile_rotation_to (e : Env) (now : Time) (sl : Z) (sb : bufferWriter)
    (os : OS) :
  sb_wf sb -> rotation_to e now sl sb os (rotateFile e now sl sb os).
Proof.
  intros Hsb. pose proof Hsb as [Hlv Hwf].
  destruct (index_level_some Hlv) as [lname Hl].
  unfold rotation_to. exists lname.
  set (dir := logDir (sb_basePath sb) (sb_logName sb) now).
  set (fname := Join dir (logFile lname sl now)).
  set (nf := List.length (os_files os)).
  destruct (file sb) as [f|] eqn:Hf; destruct (Writer sb) as [b|] eqn:Hw;
    try contradiction; cbv zeta.
  - destruct (rotateFile_open e now sl sb os Hf Hw)
      as (b1 & os_c & _ & _ & Hbuf & Htr & Hco & Hlen & _ & _ & Hr).
    rewrite Hr, (createFile_spec e _ _ _ sl now os_c Hl). unfold rotate_result.
    fold dir. fold fname.
    destruct (mkdir_err e dir) as [err|] eqn:Hm;
      [|destruct (open_err e fname) as [err|] eqn:Ho].
    + do 3 eexists. exists [].
      split; [exact Hl|]. split; [reflexivity|]. cbn.
      rewrite Htr, <- !app_assoc. do 2 (split; [auto|]). left. eexists.
      split; [reflexivity|]. split; [left; split; [discriminate|reflexivity]|].
      cbn; rewrite ?Hf; auto.
    + do 3 eexists. exists [EOpenFile fname].
      split; [exact Hl|]. split; [reflexivity|]. cbn.
      rewrite Htr, <- !app_assoc. do 2 (split; [auto|]). left. eexists.
      split; [reflexivity|].
      split; [right; split; [reflexivity|split; [discriminate|reflexivity]]|].
      cbn; rewrite ?Hf; auto.
    + do 3 eexists. exists [EOpenFile fname].
      split; [exact Hl|]. split; [reflexivity|]. cbn.
      rewrite Htr, <- !app_assoc. do 2 (split; [auto|]). right.
      rewrite Hlen. fold nf. do 5 (split; [reflexivity|]).
      rewrite nth_error_app2 by lia. rewrite Hlen. fold nf.
      now rewrite Nat.sub_diag.
  - rewrite (rotateFile_closed e now sl sb os Hf),
      (createFile_spec e _ _ _ sl now os Hl). unfold rotate_result.
    fold dir. fold fname.
    destruct (mkdir_err e dir) as [err|] eqn:Hm;
      [|destruct (open_err e fname) as [err|] eqn:Ho].
    + do 3 eexists. exists [].
      split; [exact Hl|]. split; [reflexivity|]. cbn.
      do 2 (split; [auto|]). left. eexists.
      split; [reflexivity|]. split; [left; split; [discriminate|reflexivity]|].
      auto.
    + do 3 eexists. exists [EOpenFile fname].
      split; [exact Hl|]. split; [reflexivity|]. cbn.
      do 2 (split; [auto|]). left. eexists.
      split; [reflexivity|].
      split; [right; split; [reflexivity|split; [discriminate|reflexivity]]|].
      auto.
    + do 3 eexists. exists [EOpenFile fname].
      split; [exact Hl|]. split; [reflexivity|]. cbn.
      do 2 (split; [auto|]). right. fold nf. do 5 (split; [reflexivity|]).
      rewrite nth_error_app2 by lia. fold nf. now rewrite Nat.sub_diag.
Qed.

(** C1: [checkRotate] decides in this order: no file open, rotate to slot 0
    at [now]; otherwise the date or the hour of [now] differs from that of
    [stime], rotate to slot 0 at [now], whatever the byte count; otherwise
    [nbytes >= MaxSize], rotate to [slot+1] at [now]; otherwise nothing is
    rotated, no error is returned and neither the stream nor the operating
    system changes.  In each of the first three cases the call is that
    [rotateFile], for every stream state, and on a stream as the code builds
    it the rotation is carried out: the old file, if any, gets its pending
    bytes and is closed, the directory and the file of [now] and of the slot
    are asked for, and when they are granted the stream is on the new handle,
    opened at [now], in that slot, with a byte count of 0; when they are
    refused the error is returned. *)
Theorem checkRotate_case_order (e : Env) (now : Time) (sb : bufferWriter) :
  (file sb = None ->
   checkRotate e now sb = rotateFile e now 0 sb /\
   (sb_wf sb ->
    forall os, rotation_to e now 0 sb os (checkRotate e now sb os))) /\
  (file sb <> None ->
   Date now <> Date (stime sb) \/ Hour now <> Hour (stime sb) ->
   checkRotate e now sb = rotateFile e now 0 sb /\
   (sb_wf sb ->
    forall os, rotation_to e now 0 sb os (checkRotate e now sb os))) /\
  (file sb <> None ->
   Date now = Date (stime sb) -> Hour now = Hour (stime sb) ->
   (MaxSize <= nbytes sb)%N ->
   checkRotate e now sb = rotateFile e now (int_add (slot sb) 1) sb /\
   (- 2 ^ 63 <= slot sb < 2 ^ 63 - 1 -> int_add (slot sb) 1 = slot sb + 1) /\
   (sb_wf sb ->
    forall os,
      rotation_to e now (int_add (slot sb) 1) sb os (checkRotate e now sb os))) /\
  (file sb <> None ->
   Date now = Date (stime sb) -> Hour now = Hour (stime sb) ->
   (nbytes sb < MaxSize)%N ->
   forall os, checkRotate e now sb os = (Ret (None, sb), os)).
Proof.
  destruct (checkRotate_branches e now sb) as (H1 & H2 & H3 & H4).
  split; [|split; [|split]].
  - intros Hf. split; [exact (H1 Hf)|]. intros Hsb os.
    rewrite (H1 Hf). now apply rotateFile_rotation_to.
  - intros Hf Hd. split; [exact (H2 Hf Hd)|]. intros Hsb os.
    rewrite (H2 Hf Hd). now apply rotateFile_rotation_to.
  - intros Hf Hd Hh Hn. destruct (H3 Hf Hd Hh Hn) as [Heq Hadd].
    split; [exact Heq|]. split; [exact Hadd|]. intros Hsb os.
    rewrite Heq. now apply rotateFile_rotation_to.
  - exact H4.
Qed.

Lemma checkRotate_case_order_witness :
  (exists os',
     checkRotate env_ok jan5_7h sb_new os0 =
       (Ret (None,
             mkBufferWriter (Some (NewWriterSize 0%nat bufferSize)) "/data" "app"
               (Some 0%nat) LevelInfo jan5_7h 0 0%N), os') /\
     os_trace os' =
       [EMkdirAll "/data/logs/app/202401/05";
        EOpenFile "/data/logs/app/202401/05/info-07.log"]) /\
  (exists os',
     checkRotate env_ok jan5_8h sb_full os1 =
       (Ret (None,
             mkBufferWriter (Some (NewWriterSize 1%nat bufferSize)) "/data" "app"
               (Some 1%nat) LevelInfo jan5_8h 0 0%N), os') /\
     os_trace os' =
       (os_trace os1 ++
        [EWrite 0%nat "pending"; EClose 0%nat;
         EMkdirAll "/data/logs/app/202401/05";
         EOpenFile "/data/logs/app/202401/05/info-08.log"])%list) /\
  (exists os',
     checkRotate env_ok jan5_7h' sb_full os1 =
       (Ret (None,
             mkBufferWriter (Some (NewWriterSize 1%nat bufferSize)) "/data" "app"
               (Some 1%nat) LevelInfo jan5_7h' 1 0%N), os') /\
     os_trace os' =
       (os_trace os1 ++
        [EWrite 0%nat "pending"; EClose 0%nat;
         EMkdirAll "/data/logs/app/202401/05";
         EOpenFile "/data/logs/app/202401/05/info-07-1.log"])%list) /\
  checkRotate env_ok jan5_7h' sb_open os1 = (Ret (None, sb_open), os1).
Proof.
  assert (Hnew : sb_wf sb_new) by (split; [reflexivity|exact I]).
  assert (Hfull : sb_wf sb_full) by (split; reflexivity).
  destruct (checkRotate_case_order env_ok jan5_7h sb_new) as (H1 & _).
  destruct (checkRotate_case_order env_ok jan5_8h sb_full) as (_ & H2 & _).
  destruct (checkRotate_case_order env_ok jan5_7h' sb_full) as (_ & _ & H3 & _).
  destruct (checkRotate_case_order env_ok jan5_7h' sb_open) as (_ & _ & _ & H4).
  split; [|split; [|split]].
  - destruct H1 as [_ H1]; [reflexivity|].
    destruct (H1 Hnew os0)
      as (lname & res & sb' & os' & post & Hl & Hr & _ & Htr & Hcase).
    injection Hl as <-.
    destruct Hcase as [(err & _ & [[Hm _]|(_ & Ho & _)] & _)
                      |(-> & _ & _ & -> & -> & _)];
      [now elim Hm | now elim Ho |].
    exists os'. split; [exact Hr | exact Htr].
  - destruct H2 as [_ H2]; [discriminate | right; discriminate |].
    destruct (H2 Hfull os1)
      as (lname & res & sb' & os' & post & Hl & Hr & _ & Htr & Hcase).
    injection Hl as <-.
    destruct Hcase as [(err & _ & [[Hm _]|(_ & Ho & _)] & _)
                      |(-> & _ & _ & -> & -> & _)];
      [now elim Hm | now elim Ho |].
    exists os'. split; [exact Hr | exact Htr].
  - destruct H3 as (_ & _ & H3);
      [discriminate | reflexivity | reflexivity | vm_compute; discriminate |].
    destruct (H3 Hfull os1)
      as (lname & res & sb' & os' & post & Hl & Hr & _ & Htr & Hcase).
    injection Hl as <-.
    destruct Hcase as [(err & _ & [[Hm _]|(_ & Ho & _)] & _)
                      |(-> & _ & _ & -> & -> & _)];
      [now elim Hm | now elim Ho |].
    exists os'. split; [exact Hr | exact Htr].
  - apply H4; [discriminate | reflexivity | reflexivity | reflexivity].
Defined.

Lemma logDir_date (base name : string) (a b : Time) :
  Date a = Date b -> logDir base name a = logDir base name b.
Proof. unfold logDir. now intros ->. Qed.

Lemma logFile_hour (lname : string) (sl : Z) (a b : Time) :
  Hour a = Hour b -> logFile lname sl a = logFile lname sl b.
Proof. unfold logFile. now intros ->. Qed.

Lemma stream_of_set (w : fileLogWriter) (lv : Level) (sb : bufferWriter) :
  (N.to_nat lv < List.length (writers w))%nat ->
  stream_of (set_writers w (array_set (writers w) (N.to_nat lv) (Some sb))) lv
  = sb.
Proof.
  intros H. unfold stream_of. cbn [writers set_writers].
  now rewrite (nth_error_nth _ _ None (array_set_same _ (Some sb) H)).
Qed.

(** C2: when a rotation is due for the stream of the level and the
    directory cannot be created or the file cannot be opened, [write] returns
    normally, prints the failure on the console, and hands nothing to the
    stream: its byte count, file, opening time and slot are as before and its
    buffer holds nothing new.  A later [write] to the same level at a time of
    the same date and hour finds the rotation still due: before it attempts
    the creation again it at most closes the old file once more, without
    writing to it; whatever it writes afterwards goes to the handle just
    opened, and when the creation succeeds the stream is on that handle. *)
Theorem write_rotation_failure (e : Env) (rt : Runtime) (lv : Level)
    (s : string) (w : fileLogWriter) (os : OS) (sl : Z) (lname : string) :
  w_wf w -> index_level levelName lv = Some lname ->
  let now := rt_now rt in
  let sb := stream_of w lv in
  let dir := logDir (sb_basePath sb) (sb_logName sb) now in
  let fname := Join dir (logFile lname sl now) in
  rotation_due sb now = Some sl ->
  mkdir_err e dir <> None \/ open_err e fname <> None ->
  exists err sb' os',
    let w1 := set_writers w (array_set (writers w) (N.to_nat lv) (Some sb')) in
    fileLogWriter_write e rt lv s w os = (Ret w1, os') /\
    os_console os' =
      (os_console os ++ [("[logtool] check rotate err: " ++ err)%string])%list /\
    nbytes sb' = nbytes sb /\ file sb' = file sb /\ stime sb' = stime sb /\
    slot sb' = slot sb /\
    match Writer sb', Writer sb with
    | Some b', Some b => bw_buf b' = bw_buf b \/ bw_buf b' = ""
    | None, None => True
    | _, _ => False
    end /\
    forall e2 rt2 s2 os2,
      Date (rt_now rt2) = Date now -> Hour (rt_now rt2) = Hour now ->
      exists w2 os2' pre post,
        fileLogWriter_write e2 rt2 lv s2 w1 os2 = (Ret w2, os2') /\
        os_trace os2' = (os_trace os2 ++ pre ++ EMkdirAll dir :: post)%list /\
        (pre = [] \/ exists f, file sb = Some f /\ pre = [EClose f]) /\
        (forall f data, In (EWrite f data) post ->
           f = List.length (os_files os2)) /\
        (mkdir_err e2 dir = None -> open_err e2 fname = None ->
         exists sb2 b2,
           nth_error (writers w2) (N.to_nat lv) = Some (Some sb2) /\
           file sb2 = Some (List.length (os_files os2)) /\
           Writer sb2 = Some b2 /\ bw_wr b2 = List.length (os_files os2) /\
           stime sb2 = rt_now rt2 /\ slot sb2 = sl).
Proof.
  intros Hw Hl now sb dir fname Hdue Hfail.
  assert (Hlv : (lv < 6)%N).
  { unfold index_level in Hl.
    assert (H : nth_error levelName (N.to_nat lv) <> None) by congruence.
    apply nth_error_Some in H. cbn in H. lia. }
  assert (Hin : (N.to_nat lv < List.length (writers w))%nat)
    by (destruct Hw as [-> _]; lia).
  destruct (stream_of_wf Hw Hlv) as [Hsb Hlevel]. fold sb in Hsb, Hlevel.
  assert (Hl' : index_level levelName (sb_level sb) = Some lname)
    by now rewrite Hlevel.
  destruct (rotateFile_cases e now sl os Hsb Hl')
    as (res & sb' & os1 & post & Hr & Hco & Htr & _ & Hcase).
  fold dir fname in Hcase, Htr.
  destruct Hcase as [(err & -> & _ & Hf & Hst & Hsl & Hn & Hbuf)
                    |(_ & Hm & Ho & _)]; [|destruct Hfail; contradiction].
  destruct (rotateFile_wf e now sl os Hsb)
    as (res0 & sb0 & os0' & Hr0 & Hsb' & Hlevel' & _).
  rewrite Hr in Hr0. injection Hr0 as <- <- <-.
  destruct (rotateFile_error_keeps _ _ _ _ _ Hr)
    as (_ & _ & _ & _ & _ & Hbase & Hname & _).
  exists err, sb'. eexists. cbv zeta.
  split; [|split; [|do 4 (split; [assumption|]); split]].
  - unfold fileLogWriter_write. rewrite assemble_eq.
    pose proof Hlv as Hlt. apply N.ltb_lt in Hlt. rewrite Hlt. cbn [negb].
    fold (stream_of w lv). fold sb. fold now.
    rewrite checkRotate_due, Hdue. unfold bind at 1. rewrite Hr.
    cbn [fst snd]. munfold. reflexivity.
  - cbn. now rewrite Hco.
  - destruct (Writer sb'), (Writer sb); tauto.
  - intros e2 rt2 s2 os2 Hd2 Hh2.
    set (w1 := set_writers w (array_set (writers w) (N.to_nat lv) (Some sb'))).
    assert (Hw1 : w_wf w1) by (apply w_wf_set; auto; congruence).
    assert (Hs1 : stream_of w1 lv = sb') by now apply stream_of_set.
    assert (Hl1 : index_level levelName (sb_level sb') = Some lname)
      by now rewrite Hlevel'.
    destruct (rotateFile_cases e2 (rt_now rt2) sl os2 Hsb' Hl1)
      as (res2 & sb2 & os3 & post2 & Hr2 & Hco2 & Htr2 & Hpost2 & Hcase2).
    rewrite Hbase, Hname, (@logDir_date _ _ _ _ Hd2) in Hcase2, Htr2, Hpost2.
    rewrite (@logFile_hour lname sl _ _ Hh2) in Hcase2, Hpost2.
    fold now dir fname in Hcase2, Htr2, Hpost2.
    set (pre2 := match file sb', Writer sb' with
                 | Some f, Some b => (flush_events b ++ [EClose f])%list
                 | _, _ => []
                 end) in Htr2.
    assert (Hpre2 : pre2 = [] \/ exists f, file sb = Some f /\ pre2 = [EClose f]).
    { unfold pre2. rewrite Hf.
      destruct (file sb) as [f|]; [|now left].
      destruct (Writer sb') as [b'|]; [|now left].
      destruct (Writer sb) as [b|]; [|contradiction].
      right. exists f. split; [reflexivity|].
      destruct Hbuf as [_ ->]. reflexivity. }
    assert (Hpost_nowrite : forall f data, ~ In (EWrite f data) post2).
    { intros f data Hi. destruct Hpost2 as [-> | ->]; [contradiction|].
      destruct Hi as [Hi|Hi]; [discriminate|contradiction]. }
    assert (Hdue2 : rotation_due sb' (rt_now rt2) = Some sl)
      by (rewrite <- Hdue; now apply rotation_due_stable).
    unfold fileLogWriter_write. rewrite assemble_eq.
    pose proof Hlv as Hlt. apply N.ltb_lt in Hlt. rewrite Hlt. cbn [negb].
    fold (stream_of w1 lv). rewrite Hs1, checkRotate_due, Hdue2.
    unfold bind at 1. rewrite Hr2. cbn [fst snd].
    assert (Hin1 : (N.to_nat lv < List.length (writers w1))%nat)
      by (destruct Hw1 as [-> _]; lia).
    destruct Hcase2 as [(err2 & -> & Hfail2 & _)
                       |(-> & Hm2 & Ho2 & -> & Hnth)].
    + munfold. do 2 eexists. exists pre2, post2.
      split; [reflexivity|]. split; [exact Htr2|]. split; [exact Hpre2|].
      split; [intros f data Hi; now apply Hpost_nowrite in Hi|].
      intros Hm2 Ho2. destruct Hfail2; contradiction.
    + match goal with |- context [bufferWriter_Write e2 ?x ?p] =>
        assert (Hx : sb_wf x) by (split; [exact (proj1 Hsb')|reflexivity]);
        destruct (@bufferWriter_Write_wf e2 x p os3
                    (NewWriterSize (List.length (os_files os2)) bufferSize)
                    Hx eq_refl)
          as (n & werr & sb3 & evs & HW & Hsb3 & _ & Hf3 & Hst3 & Hsl3
              & (b3 & Hb3 & Hwr3) & Hevs) end.
      unfold bind. rewrite HW. munfold.
      do 2 eexists. exists pre2, (post2 ++ evs)%list.
      split; [reflexivity|]. split.
      { cbn. rewrite Htr2, <- !app_assoc. reflexivity. }
      split; [exact Hpre2|]. split.
      { intros f data Hi. apply in_app_or in Hi as [Hi|Hi];
          [now apply Hpost_nowrite in Hi|].
        rewrite Forall_forall in Hevs. destruct (Hevs _ Hi) as [d Hd].
        cbn in Hd. now injection Hd as -> _. }
      intros _ _. exists sb3, b3. cbn [writers set_writers].
      rewrite array_set_same by exact Hin1. repeat split; auto.
Qed.

Lemma write_rotation_failure_witness :
  exists err,
    os_console
      (snd (fileLogWriter_write env_nodir rt0 LevelInfo "hello"
              (newFileLog "app" "/data") os0))
    = [("[logtool] check rotate err: " ++ err)%string].
Proof.
  destruct (@write_rotation_failure env_nodir rt0 LevelInfo "hello"
              (newFileLog "app" "/data") os0 0 "info")
    as (err & sb' & os' & H1 & H2 & _).
  - apply newFileLog_wf.
  - reflexivity.
  - reflexivity.
  - left. discriminate.
  - exists err. cbv zeta in H1. rewrite H1. exact H2.
Defined.

(* ================================================================= *)
(** ** [flushAll] and [exit] *)

Lemma bufferWriter_Sync_spec (e : Env) (sb : bufferWriter) (os : OS) :
  exists r,
    bufferWriter_Sync e sb os =
    (Ret r, add_trace os match file sb with Some f => [ESync f] | None => [] end).
Proof.
  unfold bufferWriter_Sync, File_Sync. destruct (file sb) as [f|].
  - munfold. fold (add_trace os [ESync f]).
    destruct (is_open _ f); eauto.
  - rewrite add_trace_nil. eexists. reflexivity.
Qed.

Lemma flushAll_loop_spec (e : Env) (ws : list (option bufferWriter)) (os : OS) :
  exists ws',
    flushAll_loop e ws os = (Ret ws', add_trace os (flat_map flushAll_events ws)) /\
    Forall2 (fun o o' =>
               match o, o' with
               | Some sb, Some sb' =>
                   file sb' = file sb /\ nbytes sb' = nbytes sb /\
                   stime sb' = stime sb /\ slot sb' = slot sb /\
                   sb_level sb' = sb_level sb /\ (sb_wf sb -> sb_wf sb')
               | None, None => True
               | _, _ => False
               end) ws ws'.
Proof.
  revert os. induction ws as [|o ws IH]; intros os.
  - exists []. cbn. rewrite add_trace_nil. split; [reflexivity|constructor].
  - cbn [flushAll_loop flat_map].
    assert (Hhead : exists o',
      match o with
      | Some sb =>
          match Writer sb with
          | Some b =>
              r <- Flush e b ;;
              bufferWriter_Sync e sb ;;;
              ret (Some (set_Writer sb (Some (snd r))))
          | None => ret o
          end
      | None => ret o
      end os = (Ret o', add_trace os (flushAll_events o)) /\
      match o, o' with
      | Some sb, Some sb' =>
          file sb' = file sb /\ nbytes sb' = nbytes sb /\
          stime sb' = stime sb /\ slot sb' = slot sb /\
          sb_level sb' = sb_level sb /\ (sb_wf sb -> sb_wf sb')
      | None, None => True
      | _, _ => False
      end).
    { destruct o as [sb|]; cbn [flushAll_events].
      - destruct (Writer sb) as [b|] eqn:Hb.
        + destruct (Flush_spec e b os) as (ferr & b1 & HF & Hwr & _ & _ & _).
          destruct (bufferWriter_Sync_spec e sb (add_trace os (flush_events b)))
            as [r HS].
          unfold bind at 1. rewrite HF. unfold bind. rewrite HS.
          rewrite add_trace_app. eexists. split; [reflexivity|].
          cbn. do 5 (split; [reflexivity|]).
          intros [Hlv Hwf]. split; [exact Hlv|].
          cbn. rewrite Hb in Hwf. destruct (file sb); [congruence|exact Hwf].
        + rewrite add_trace_nil. exists (Some sb). split; [reflexivity|].
          do 5 (split; [reflexivity|]). auto.
      - rewrite add_trace_nil. exists None. split; [reflexivity|exact I]. }
    destruct Hhead as (o' & Hh & Hrel).
    unfold bind at 1. rewrite Hh.
    destruct (IH (add_trace os (flushAll_events o))) as (ws' & Hl & HF2).
    unfold bind. rewrite Hl. rewrite add_trace_app.
    exists (o' :: ws'). split; [reflexivity|]. now constructor.
Qed.

Lemma Forall2_nth_error {A B} (R : A -> B -> Prop) (l : list A) (l' : list B)
    (i : nat) (y : B) :
  Forall2 R l l' -> nth_error l' i = Some y ->
  exists x, nth_error l i = Some x /\ R x y.
Proof.
  intros H. revert i. induction H as [|a b l l' Hab H IH]; intros [|i] Hi;
    cbn in *; try discriminate.
  - injection Hi as <-. eauto.
  - now apply IH.
Qed.

(** C7 (as the code has it): [flushAll], and [exit] which is [flushAll],
    always returns.  For every slot of the array in turn it performs nothing
    when the slot is nil or the stream has no buffered writer, and otherwise
    the flush of the buffered writer to the file followed by [Sync] of the
    file.  The results of both are discarded: nothing is printed on the
    console, whatever fails.  Later writes are neither blocked nor crashed:
    a well-formed writer stays well formed, and every [write] with one of the
    six levels that follows, in whatever environment, returns without a
    panic. *)
Theorem flushAll_best_effort (e : Env) (w : fileLogWriter) (os : OS) :
  exit e w os = flushAll e w os /\
  exists ws',
    flushAll e w os =
      (Ret (set_writers w ws'),
       add_trace os (flat_map flushAll_events (writers w))) /\
    os_console (snd (flushAll e w os)) = os_console os /\
    os_files (snd (flushAll e w os)) = os_files os /\
    (w_wf w ->
     w_wf (set_writers w ws') /\
     forall e2 rt lv s, (lv < 6)%N ->
       exists w2 os2,
         fileLogWriter_write e2 rt lv s (set_writers w ws')
           (snd (flushAll e w os)) = (Ret w2, os2) /\
         w_wf w2).
Proof.
  split; [reflexivity|].
  destruct (flushAll_loop_spec e (writers w) os) as (ws' & Hl & HF2).
  exists ws'. unfold flushAll, bind. rewrite Hl. munfold.
  do 3 (split; [reflexivity|]).
  intros [Hlen Hw].
  assert (Hwf : w_wf (set_writers w ws')).
  { split.
    - cbn. now rewrite <- (Forall2_length HF2).
    - cbn [writers set_writers]. intros i sb Hi.
      destruct (Forall2_nth_error _ HF2 Hi) as (o & Ho & Hrel).
      destruct o as [sb0|]; [|contradiction].
      destruct (Hw _ _ Ho) as [Hwf Hidx].
      destruct Hrel as (_ & _ & _ & _ & Hlevel & Hkeep).
      split; [now apply Hkeep|now rewrite Hlevel]. }
  split; [exact Hwf|].
  intros e2 rt lv s Hlv.
  destruct (@fileLogWriter_write_returns e2 rt lv s (set_writers w ws')
              (add_trace os (flat_map flushAll_events (writers w))) Hwf Hlv)
    as (w2 & os2 & HW & Hwf2 & _).
  exists w2, os2. split; [exact HW | exact Hwf2].
Qed.

Lemma flushAll_best_effort_witness :
  exists w',
    flushAll env_nosync w_open os1 =
      (Ret w', add_trace os1 [EWrite 0%nat "pending"; ESync 0%nat]) /\
    w_wf w' /\
    exists w2 os2,
      fileLogWriter_write env_ok rt0 LevelInfo "hello" w'
        (add_trace os1 [EWrite 0%nat "pending"; ESync 0%nat]) = (Ret w2, os2).
Proof.
  destruct (flushAll_best_effort env_nosync w_open os1)
    as (_ & ws' & H & _ & _ & Hwf).
  exists (set_writers w_open ws').
  destruct Hwf as [Hwf Hnext].
  { split; [reflexivity|].
    intros i sb Hi. cbn in Hi.
    do 2 (destruct i as [|i]; [discriminate|]).
    destruct i as [|i].
    - injection Hi as <-. repeat split; try reflexivity.
    - do 3 (destruct i as [|i]; [discriminate|]). now destruct i. }
  split; [exact H|]. split; [exact Hwf|].
  destruct (Hnext env_ok rt0 LevelInfo "hello") as (w2 & os2 & HW & _);
    [reflexivity|].
  rewrite H in HW. exists w2, os2. exact HW.
Defined.

(** C7, counterexample to the reporting of failures: with a stream whose
    file is open and an environment in which [Sync] fails, [Sync] returns an
    error, [flushAll] returns, and the console is as empty as before: the
    failure is not reported. *)
Lemma flushAll_failure_not_reported :
  fst (bufferWriter_Sync env_nosync sb_open os1) = Ret (Some "input/output error") /\
  nth_error (writers w_open) 2 = Some (Some sb_open) /\
  os_console os1 = [] /\
  os_console (snd (flushAll env_nosync w_open os1)) = [].
Proof. repeat split. Qed.

(** A buffered writer that carries an error takes no byte and makes no
    system call, whatever the environment: the error of a failed flush stays
    with the stream until a rotation installs a new writer. *)
Lemma bufio_Write_sticky (e : Env) (b : bufioWriter) (p : string) (os : OS)
    (err : error) :
  bw_err b = Some err -> bufio_Write e b p os = (Ret (0%N, Some err, b), os).
Proof. intros H. unfold bufio_Write. now rewrite H. Qed.

(* ================================================================= *)
(** ** The buffer free list *)

(** C8 (as the code has it): [getBuffer] returns an empty buffer: the head
    of the free list, reset (its storage kept), the rest of the list staying
    in the pool, or a new buffer when the list is empty.  [putBuffer] puts the
    buffer at the head of the list exactly when its length, the number of
    unread bytes, is below 256, and leaves the pool alone otherwise; the
    capacity plays no part.  So a pool that holds only buffers shorter than
    256 bytes keeps doing so. *)
Theorem buffer_pool_by_length (w : fileLogWriter) (b : buffer) :
  buffer_Len (fst (getBuffer w)) = 0%nat /\
  match freeList w with
  | head :: rest =>
      getBuffer w = (buffer_Reset head, set_freeList w rest) /\
      buffer_Cap (fst (getBuffer w)) = buffer_Cap head
  | [] => getBuffer w = (new_buffer, w)
  end /\
  putBuffer w b =
    (if (buffer_Len b <? 256)%nat then set_freeList w (b :: freeList w) else w) /\
  (pool_short w -> pool_short (putBuffer w b) /\ pool_short (snd (getBuffer w))).
Proof.
  unfold getBuffer, putBuffer, pool_short.
  rewrite (Nat.leb_antisym (buffer_Len b) 256).
  split; [|split; [|split]].
  - destruct (freeList w); reflexivity.
  - destruct (freeList w); [reflexivity|split; reflexivity].
  - destruct (buffer_Len b <? 256)%nat; reflexivity.
  - intros Hp. split.
    + destruct (Nat.ltb_spec (buffer_Len b) 256); cbn; [|exact Hp].
      now constructor.
    + destruct (freeList w) as [|h r] eqn:E; cbn; [now rewrite E|].
      now inversion Hp.
Qed.

Lemma buffer_pool_by_length_witness :
  pool_short (putBuffer (newFileLog "app" "/data") (mkBuffer "abc" 0 64)) /\
  freeList (putBuffer (newFileLog "app" "/data") (mkBuffer "abc" 0 64))
  = [mkBuffer "abc" 0 64].
Proof.
  destruct (buffer_pool_by_length (newFileLog "app" "/data") (mkBuffer "abc" 0 64))
    as (_ & _ & Hput & Hinv).
  split.
  - apply Hinv. constructor.
  - rewrite Hput. reflexivity.
Defined.

(** C8, counterexample to the bound on capacity: a buffer of capacity 512
    that holds three bytes is put into the pool, so the pool retains a buffer
    of capacity 256 or more. *)
Lemma putBuffer_keeps_big_capacity :
  (256 <= buffer_Cap big_storage_buffer)%nat /\
  freeList (putBuffer (newFileLog "app" "/data") big_storage_buffer)
  = [big_storage_buffer].
Proof.
  split; [|vm_compute; reflexivity].
  change (buffer_Cap big_storage_buffer) with 512%nat. lia.
Qed.

(* ================================================================= *)
(** ** Configuration *)

Lemma Level_Set_loop_unknown (names : list string) (k : N) (s : string) :
  ~ In s names -> Level_Set_loop names k s = None.
Proof.
  revert k. induction names as [|v names IH]; intros k Hn; [reflexivity|].
  cbn. destruct (String.eqb_spec v s) as [->|_].
  - exfalso. apply Hn. now left.
  - rewrite andb_false_r. apply IH. intros H. apply Hn. now right.
Qed.

Lemma write_returns (e : Env) (rt : Runtime) (lv : Level) (msg : string)
    (st : Logtool) (os : OS) :
  Logtool_wf st -> (lv < 6)%N ->
  exists st' os', write e rt lv msg st os = (Ret st', os') /\ Logtool_wf st'.
Proof.
  intros Hst Hlv. unfold write.
  destruct (index_level_some Hlv) as [name Hname]. rewrite Hname.
  destruct (inited st); cbn [negb].
  - assert (Hw : exists w st1,
              (match logWriter st with None => initWriter st | Some _ => st end)
              = st1 /\ logWriter st1 = Some w /\ w_wf w).
    { unfold Logtool_wf in Hst. destruct (logWriter st) as [w|] eqn:E.
      - exists w, st. auto.
      - unfold initWriter. rewrite E. do 2 eexists.
        split; [reflexivity|]. split; [reflexivity|]. apply newFileLog_wf. }
    destruct Hw as (w & st1 & -> & Hw1 & Hwf). rewrite Hw1.
    destruct (fileLogWriter_write_returns e rt msg os Hwf Hlv)
      as (w' & os' & HW & Hwf' & _).
    unfold bind at 1. rewrite HW.
    destruct (alsoStdout (set_logWriter (Some w') st1)); munfold;
      do 2 eexists; (split; [reflexivity|exact Hwf']).
  - munfold. do 2 eexists. split; [reflexivity|exact Hst].
Qed.

(** C9: an invalid configuration stops the program when it is set: [SetName]
    panics on the empty name, [SetLevel] panics on a level below [LevelDebug]
    or above [LevelError], and [Level.Set] returns an error, leaving the level
    as it was, for every string that is not one of the level names after
    ["output"] (so for ["output"] too).  Valid values are stored: a non-empty
    name, a level from [LevelDebug] to [LevelError], and the level whose name
    was parsed; [Init] panics or stores in the same way.  Whatever the
    configuration then holds, the entry points [Debug], [Info], [Warn],
    [Error] and [Action] return without a panic. *)
Theorem configuration_checked_when_set (st : Logtool) :
  SetName "" st = Panic "invalid log name" /\
  (forall name, name <> "" ->
     exists st', SetName name st = Ret st' /\ logName st' = name) /\
  (forall lv, (lv < LevelDebug \/ LevelError < lv)%N ->
     SetLevel lv st = Panic "invalid log level") /\
  (forall lv, (LevelDebug <= lv <= LevelError)%N ->
     exists st', SetLevel lv st = Ret st' /\ logLevel st' = lv) /\
  (forall l s, ~ In s ["debug"; "info"; "warn"; "error"; "action"] ->
     Level_Set l s = (l, Some "invaild level")) /\
  (forall l, Level_Set l "output" = (l, Some "invaild level")) /\
  (forall l lv s, lv <> levelDefault -> index_level levelName lv = Some s ->
     Level_Set l s = (lv, None)) /\
  (forall name lv stdOut os,
     name = "" \/ (lv < LevelDebug)%N \/ (LevelError < lv)%N ->
     exists msg os', Init name lv stdOut st os = (Panic msg, os')) /\
  (forall name lv stdOut os,
     name <> "" -> (LevelDebug <= lv <= LevelError)%N ->
     exists st' os',
       Init name lv stdOut st os = (Ret st', os') /\
       logName st' = name /\ logLevel st' = lv /\ alsoStdout st' = stdOut /\
       inited st' = true) /\
  (Logtool_wf st ->
   forall e rt str os,
     (exists st' os', Debug e rt str st os = (Ret st', os') /\ Logtool_wf st') /\
     (exists st' os', Info e rt str st os = (Ret st', os') /\ Logtool_wf st') /\
     (exists st' os', Warn e rt str st os = (Ret st', os') /\ Logtool_wf st') /\
     (exists st' os', Error e rt str st os = (Ret st', os') /\ Logtool_wf st') /\
     (forall m, exists r st' os',
        Action e rt m st os = (Ret (r, st'), os') /\ Logtool_wf st')).
Proof.
  split; [reflexivity|]. split.
  { intros name Hn. unfold SetName.
    destruct (String.eqb_spec name "") as [->|_]; [contradiction|]. eauto. }
  split.
  { intros lv Hlv. unfold SetLevel.
    destruct (N.ltb_spec lv LevelDebug); [reflexivity|].
    destruct (N.ltb_spec LevelError lv); [reflexivity|]. lia. }
  split.
  { intros lv [Hlo Hhi]. unfold SetLevel.
    destruct (N.ltb_spec lv LevelDebug); [lia|].
    destruct (N.ltb_spec LevelError lv); [lia|]. cbn. eauto. }
  split.
  { intros l s Hs. unfold Level_Set.
    change (Level_Set_loop levelName 0 s)
      with (Level_Set_loop (tl levelName) 1 s).
    now rewrite Level_Set_loop_unknown. }
  split; [reflexivity|]. split.
  { intros l lv s Hlv Hs. unfold index_level in Hs.
    assert (Hlt : (N.to_nat lv < 6)%nat).
    { change 6%nat with (List.length levelName). apply nth_error_Some. congruence. }
    destruct lv as [|p]; [contradiction|].
    do 5 (destruct p as [p|p|]; try (cbn in Hlt; lia);
          try (cbn in Hs; injection Hs as <-; reflexivity)). }
  split.
  { intros name lv stdOut os Hbad. unfold Init, SetName, SetLevel.
    destruct (String.eqb_spec name "") as [->|Hn].
    - destruct (inited st); munfold; do 2 eexists; reflexivity.
    - destruct Hbad as [Hbad|Hbad]; [contradiction|].
      assert (Hor : (lv <? LevelDebug)%N || (LevelError <? lv)%N = true).
      { apply orb_true_iff. destruct Hbad; [left|right]; now apply N.ltb_lt. }
      destruct (inited st); munfold; rewrite Hor; do 2 eexists; reflexivity. }
  split.
  { intros name lv stdOut os Hn [Hlo Hhi]. unfold Init, SetName, SetLevel.
    destruct (String.eqb_spec name "") as [->|_]; [contradiction|].
    assert (Hor : (lv <? LevelDebug)%N || (LevelError <? lv)%N = false).
    { apply orb_false_iff. split; apply N.ltb_ge; assumption. }
    destruct (inited st); munfold; rewrite Hor; do 2 eexists;
      repeat split. }
  intros Hst e rt str os.
  unfold Debug, Info, Warn, Error, Action.
  repeat split.
  - destruct (level st <=? LevelDebug)%N;
      [apply write_returns; [auto|reflexivity] | exists st, os; auto].
  - destruct (level st <=? LevelInfo)%N;
      [apply write_returns; [auto|reflexivity] | exists st, os; auto].
  - destruct (level st <=? LevelWarn)%N;
      [apply write_returns; [auto|reflexivity] | exists st, os; auto].
  - destruct (level st <=? LevelError)%N;
      [apply write_returns; [auto|reflexivity] | exists st, os; auto].
  - intros [str'|err].
    + destruct (@write_returns e rt LevelAction str' st os Hst eq_refl)
        as (st' & os' & HW & Hwf).
      unfold bind. rewrite HW. munfold. eauto.
    + munfold. eauto.
Qed.

(* ================================================================= *)
(** ** Paths: [split_slash], [Clean] and [Join] *)

Lemma split_slash_nonempty (s : string) : split_slash s <> [].
Proof.
  destruct s as [|c s]; cbn; [discriminate|].
  destruct (Ascii.eqb c slash); [discriminate|].
  destruct (split_slash s); discriminate.
Qed.

Lemma split_slash_app (a b : string) :
  split_slash (a ++ String slash b) = (split_slash a ++ split_slash b)%list.
Proof.
  induction a as [|c a IH]; [reflexivity|].
  cbn [append split_slash]. rewrite IH.
  destruct (Ascii.eqb c slash); [reflexivity|].
  destruct (split_slash a) as [|h t] eqn:E; [|reflexivity].
  now apply split_slash_nonempty in E.
Qed.

Lemma split_slash_plain (s : string) :
  string_forall not_slash s = true -> split_slash s = [s].
Proof.
  induction s as [|c s IH]; [reflexivity|]. cbn. intros H.
  apply andb_true_iff in H as [Hc Hs]. unfold not_slash in Hc.
  apply negb_true_iff in Hc. rewrite Hc, (IH Hs). reflexivity.
Qed.

Lemma split_slash_no_slash (s : string) :
  Forall (fun c => string_forall not_slash c = true) (split_slash s).
Proof.
  induction s as [|c s IH]; cbn; [repeat constructor|].
  destruct (Ascii.eqb c slash) eqn:Hc; [now constructor|].
  destruct (split_slash s) as [|h t]; [repeat constructor; cbn|].
  - unfold not_slash. now rewrite Hc.
  - inversion IH; subst. constructor; [|assumption].
    cbn. unfold not_slash at 1. now rewrite Hc.
Qed.

Lemma split_slash_concat (l : list string) :
  l <> [] -> Forall (fun c => string_forall not_slash c = true) l ->
  split_slash (String.concat "/" l) = l.
Proof.
  induction l as [|x l IH]; [congruence|]. intros _ HF.
  inversion HF as [|? ? Hx Hl]; subst.
  destruct l as [|y l]; [now apply split_slash_plain|].
  change (String.concat "/" (x :: y :: l))
    with (x ++ String slash (String.concat "/" (y :: l))).
  rewrite split_slash_app, (split_slash_plain _ Hx), IH; auto. discriminate.
Qed.

Lemma concat_app (l1 l2 : list string) :
  l1 <> [] -> l2 <> [] ->
  String.concat "/" (l1 ++ l2) =
  String.concat "/" l1 ++ "/" ++ String.concat "/" l2.
Proof.
  induction l1 as [|x l1 IH]; [congruence|]. intros _ H2.
  destruct l1 as [|y l1].
  - destruct l2; [congruence|]. reflexivity.
  - change (String.concat "/" ((x :: y :: l1) ++ l2))
      with (x ++ "/" ++ String.concat "/" ((y :: l1) ++ l2)).
    rewrite IH by (auto; discriminate).
    change (String.concat "/" (x :: y :: l1))
      with (x ++ "/" ++ String.concat "/" (y :: l1)).
    now rewrite !append_assoc.
Qed.

Lemma HasPrefix_app (a b : string) (c : ascii) :
  a <> "" -> HasPrefix (a ++ b) (String c "") = HasPrefix a (String c "").
Proof.
  destruct a as [|d a]; [congruence|]. intros _. unfold HasPrefix. cbn.
  destruct (ascii_dec c d); [|reflexivity]. now destruct (a ++ b), a.
Qed.

Lemma plain_parts (c : string) :
  plain c = true ->
  c <> "" /\ c <> "." /\ c <> ".." /\ string_forall not_slash c = true.
Proof.
  unfold plain. intros H.
  apply andb_true_iff in H as [H H4]. apply andb_true_iff in H as [H H3].
  apply andb_true_iff in H as [H1 H2].
  apply negb_true_iff in H1, H2, H3.
  apply String.eqb_neq in H1, H2, H3. auto.
Qed.

Lemma clean_step_plain (r : bool) (st : list string) (c : string) :
  plain c = true -> clean_step r st c = c :: st.
Proof.
  intros H. apply plain_parts in H as (H1 & H2 & H3 & _).
  apply String.eqb_neq in H1, H2, H3. unfold clean_step.
  now rewrite H1, H2, H3.
Qed.

Lemma clean_step_skip (r : bool) (st : list string) (c : string) :
  c = "" \/ c = "." -> clean_step r st c = st.
Proof. now intros [-> | ->]. Qed.

Lemma fold_clean_plain (r : bool) (l st : list string) :
  Forall (fun c => plain c = true) l ->
  fold_left (clean_step r) l st = (rev l ++ st)%list.
Proof.
  revert st. induction l as [|c l IH]; intros st HF; [reflexivity|].
  inversion HF; subst. cbn [fold_left rev].
  rewrite clean_step_plain by assumption. rewrite IH by assumption.
  now rewrite <- app_assoc.
Qed.

(** Every element is empty, [.], [..] or plain. *)
Lemma element_cases (c : string) :
  string_forall not_slash c = true ->
  c = "" \/ c = "." \/ c = ".." \/ plain c = true.
Proof.
  intros H. unfold plain. rewrite H, andb_true_r.
  destruct (String.eqb_spec c ""); auto.
  destruct (String.eqb_spec c "."); auto.
  destruct (String.eqb_spec c ".."); auto.
Qed.

Lemma clean_step_normal (r : bool) (st : list string) (c : string) :
  normal r st -> string_forall not_slash c = true ->
  normal r (clean_step r st c).
Proof.
  intros Hn Hc.
  destruct (element_cases c Hc) as [->|[->|[->|Hp]]].
  - now rewrite clean_step_skip by auto.
  - now rewrite clean_step_skip by auto.
  - unfold clean_step. cbn [String.eqb Ascii.eqb Bool.eqb andb orb].
    cbn. inversion Hn as [|st' Hr HF|c' st' Hp' Hn']; subst.
    + destruct r; [constructor|]. now constructor.
    + cbn. constructor; [reflexivity|]. now constructor.
    + destruct (String.eqb_spec c' ".."); [|assumption].
      subst. discriminate.
  - rewrite clean_step_plain by assumption. now constructor.
Qed.

Lemma fold_clean_normal (r : bool) (l st : list string) :
  normal r st -> Forall (fun c => string_forall not_slash c = true) l ->
  normal r (fold_left (clean_step r) l st).
Proof.
  revert st. induction l as [|c l IH]; intros st Hn HF; [assumption|].
  inversion HF; subst. cbn. apply IH; [|assumption].
  now apply clean_step_normal.
Qed.

Lemma clean_stack_normal (p : string) :
  normal (HasPrefix p "/") (clean_stack p).
Proof.
  apply fold_clean_normal; [constructor|apply split_slash_no_slash].
Qed.

Lemma normal_elements (r : bool) (st : list string) :
  normal r st ->
  Forall (fun c => string_forall not_slash c = true /\ c <> "") st.
Proof.
  induction 1 as [|st Hr HF|c st Hp Hn IH].
  - constructor.
  - constructor; [split; [reflexivity|discriminate]|].
    eapply Forall_impl; [|exact HF]. cbn. intros c ->.
    split; [reflexivity|discriminate].
  - constructor; [|assumption].
    apply plain_parts in Hp. tauto.
Qed.

Lemma fold_clean_dotdot (l acc : list string) :
  Forall (fun c => c = "..") l -> Forall (fun c => c = "..") acc ->
  fold_left (clean_step false) l acc = (rev l ++ acc)%list.
Proof.
  revert acc. induction l as [|c l IH]; intros acc Hl Hacc; [reflexivity|].
  inversion Hl; subst. cbn [fold_left rev].
  assert (Hstep : clean_step false acc ".." = ".." :: acc).
  { destruct acc as [|top rest]; [reflexivity|].
    inversion Hacc; subst. reflexivity. }
  rewrite Hstep, IH by (auto; now constructor).
  now rewrite <- app_assoc.
Qed.

(** Processing the elements of a normal stack again rebuilds it. *)
Lemma fold_clean_rebuild (r : bool) (st : list string) :
  normal r st -> fold_left (clean_step r) (rev st) [] = st.
Proof.
  induction 1 as [|st Hr HF|c st Hp Hn IH]; [reflexivity| |].
  - subst r. rewrite fold_clean_dotdot.
    + now rewrite rev_involutive, app_nil_r.
    + apply Forall_rev. now constructor.
    + constructor.
  - cbn [rev]. rewrite fold_left_app, IH. cbn.
    now apply clean_step_plain.
Qed.

Lemma concat_head (x : string) (l : list string) (c : ascii) (r : string) :
  x = String c r -> exists r', String.concat "/" (x :: l) = String c r'.
Proof. intros ->. destruct l; cbn; eauto. Qed.

Lemma normal_body (r : bool) (st : list string) :
  normal r st -> st <> [] ->
  exists c s, String.concat "/" (rev st) = String c s /\ c <> slash.
Proof.
  intros Hn Hne. apply normal_elements in Hn.
  apply Forall_rev in Hn.
  destruct (rev st) as [|x l] eqn:E.
  - exfalso. apply Hne. apply (f_equal (@rev string)) in E.
    now rewrite rev_involutive in E.
  - inversion Hn as [|? ? [Hx Hx'] _]; subst.
    destruct x as [|c x]; [congruence|].
    destruct (@concat_head (String c x) l c x eq_refl) as [r' Hr'].
    rewrite Hr'.
    exists c, r'. split; [reflexivity|]. cbn in Hx.
    apply andb_true_iff in Hx as [Hc _]. unfold not_slash in Hc.
    apply negb_true_iff, Ascii.eqb_neq in Hc. exact Hc.
Qed.

Lemma Clean_nonempty (p : string) : Clean p <> "".
Proof.
  unfold Clean. destruct (HasPrefix p "/"); [discriminate|].
  destruct (String.eqb_spec (String.concat "/" (rev (clean_stack p))) "");
    [discriminate|assumption].
Qed.

Lemma Clean_rooted (p : string) : HasPrefix (Clean p) "/" = HasPrefix p "/".
Proof.
  pose proof (clean_stack_normal p) as Hn. unfold Clean.
  destruct (HasPrefix p "/") eqn:Hr.
  - unfold HasPrefix. cbn. now destruct (String.concat _ _).
  - destruct (String.eqb_spec (String.concat "/" (rev (clean_stack p))) "")
      as [_|Hb]; [reflexivity|].
    destruct (clean_stack p) as [|x st] eqn:E; [now cbn in Hb|].
    destruct (normal_body Hn) as (c & s & Hs & Hc); [discriminate|].
    rewrite Hs. unfold HasPrefix. cbn [prefix].
    destruct (ascii_dec "/" c) as [<-|]; [|reflexivity]. now elim Hc.
Qed.

(** The elements of a cleaned path rebuild the stack it was printed from. *)
Lemma Clean_split (p : string) :
  fold_left (clean_step (HasPrefix p "/")) (split_slash (Clean p)) []
  = clean_stack p.
Proof.
  pose proof (clean_stack_normal p) as Hn.
  pose proof (normal_elements Hn) as He.
  assert (Hsf : Forall (fun c => string_forall not_slash c = true)
                  (rev (clean_stack p))).
  { apply Forall_rev. eapply Forall_impl; [|exact He]. cbn. tauto. }
  unfold Clean.
  destruct (clean_stack p) as [|x st] eqn:E.
  - cbn. now destruct (HasPrefix p "/").
  - assert (Hne : rev (x :: st) <> []).
    { intros H. apply (f_equal (@rev string)) in H.
      rewrite rev_involutive in H. discriminate. }
    destruct (normal_body Hn) as (c & s & Hs & Hc); [discriminate|].
    destruct (HasPrefix p "/") eqn:Hr.
    + change ("/" ++ String.concat "/" (rev (x :: st)))
        with ("" ++ String slash (String.concat "/" (rev (x :: st)))).
      rewrite split_slash_app, split_slash_concat by assumption.
      cbn [split_slash app fold_left]. rewrite clean_step_skip by auto.
      now apply fold_clean_rebuild.
    + rewrite Hs. cbn [String.eqb]. rewrite <- Hs.
      rewrite split_slash_concat by assumption.
      now apply fold_clean_rebuild.
Qed.

Lemma clean_stack_app (a b : string) :
  a <> "" ->
  clean_stack (a ++ String slash b) =
  fold_left (clean_step (HasPrefix a "/")) (split_slash b)
    (fold_left (clean_step (HasPrefix a "/")) (split_slash a) []).
Proof.
  intros Ha. unfold clean_stack.
  now rewrite (HasPrefix_app _ _ Ha), split_slash_app, fold_left_app.
Qed.

(** [Clean] of a path depends only on whether it is rooted and on its
    stack. *)
Lemma Clean_ext (p q : string) :
  HasPrefix p "/" = HasPrefix q "/" -> clean_stack p = clean_stack q ->
  Clean p = Clean q.
Proof. unfold Clean. now intros -> ->. Qed.

(** Joining onto a cleaned path is joining onto the path. *)
Lemma Clean_Join (p q : string) :
  p <> "" -> Clean (Clean p ++ String slash q) = Clean (p ++ String slash q).
Proof.
  intros Hp. pose proof (Clean_nonempty p) as Hc. apply Clean_ext.
  - now rewrite !HasPrefix_app, Clean_rooted by assumption.
  - rewrite !clean_stack_app by assumption.
    rewrite Clean_rooted, Clean_split. reflexivity.
Qed.

Lemma Clean_trailing_slash (a : string) :
  a <> "" -> Clean (a ++ "/") = Clean a.
Proof.
  intros Ha. apply Clean_ext.
  - now apply HasPrefix_app.
  - change (a ++ "/") with (a ++ String slash "").
    rewrite (clean_stack_app "" Ha). cbn [split_slash fold_left].
    now rewrite clean_step_skip by auto.
Qed.

Lemma Clean_double_slash (a b : string) :
  Clean (a ++ String slash (String slash b)) = Clean (a ++ String slash b).
Proof.
  apply Clean_ext.
  - destruct a as [|c a]; [now destruct b|].
    now rewrite !HasPrefix_app by discriminate.
  - unfold clean_stack.
    assert (Hr : HasPrefix (a ++ String slash (String slash b)) "/"
                 = HasPrefix (a ++ String slash b) "/").
    { destruct a as [|c a]; [now destruct b|].
      now rewrite !HasPrefix_app by discriminate. }
    rewrite Hr, !split_slash_app, !fold_left_app.
    change (split_slash (String slash b)) with ("" :: split_slash b).
    cbn [fold_left]. now rewrite clean_step_skip by auto.
Qed.

Lemma HasSuffix_slash_inv (s : string) :
  HasSuffix s "/" = true -> exists r, s = r ++ "/".
Proof.
  rewrite HasSuffix_last. destruct (snoc_inv s) as [->|(r & c & ->)];
    [discriminate|].
  rewrite last_byte_app. cbn. intros H. apply Ascii.eqb_eq in H. subst.
  now exists r.
Qed.

(** The directory and the path [createFile] computes are the cleaned forms
    of the layout, for every base path and log name. *)
Lemma logDir_layout (base name : string) (t : Time) :
  logDir base name t = Clean (layout_dir base name t).
Proof.
  unfold logDir, layout_dir, Join. cbn [Date].
  set (rest := name ++ "/" ++ fmt_0d 4 (t_year t) ++ fmt_0d 2 (t_month t)
               ++ "/" ++ fmt_0d 2 (t_day t)).
  assert (Hrest : name ++ "/" ++ fmt_0d 4 (t_year t) ++ fmt_0d 2 (t_month t)
                  ++ "/" ++ fmt_0d 2 (t_day t) ++ "/" = rest ++ "/").
  { unfold rest. now rewrite !append_assoc. }
  rewrite Hrest. clear Hrest.
  destruct (HasSuffix base "/") eqn:Hs; cbn [negb].
  - destruct (HasSuffix_slash_inv _ Hs) as [b0 ->].
    assert (Hne : ((b0 ++ "/") ++ "logs" =? "")%string = false).
    { apply String.eqb_neq. destruct b0; discriminate. }
    rewrite Hne. cbn [negb].
    replace (((b0 ++ "/") ++ "logs") ++ "/" ++ rest ++ "/")
      with ((b0 ++ "/logs/" ++ rest) ++ "/")
      by (rewrite !append_assoc; reflexivity).
    rewrite Clean_trailing_slash by (destruct b0; discriminate).
    replace ((b0 ++ "/") ++ "/logs/" ++ rest)
      with (b0 ++ String slash (String slash ("logs/" ++ rest)))
      by (rewrite !append_assoc; reflexivity).
    now rewrite Clean_double_slash.
  - assert (Hne : ((base ++ "/") ++ "logs" =? "")%string = false).
    { apply String.eqb_neq. destruct base; discriminate. }
    rewrite Hne. cbn [negb].
    replace (((base ++ "/") ++ "logs") ++ "/" ++ rest ++ "/")
      with ((base ++ "/logs/" ++ rest) ++ "/")
      by (rewrite !append_assoc; reflexivity).
    apply Clean_trailing_slash. destruct base; discriminate.
Qed.

Lemma layout_dir_nonempty (base name : string) (t : Time) :
  layout_dir base name t <> "".
Proof. unfold layout_dir. destruct base; discriminate. Qed.

Lemma Join_layout (base name fname : string) (t : Time) :
  fname <> "" ->
  Join (logDir base name t) fname = Clean (layout_path base name fname t).
Proof.
  intros Hf. unfold Join. rewrite logDir_layout.
  pose proof (Clean_nonempty (layout_dir base name t)) as Hne.
  apply String.eqb_neq in Hne. rewrite Hne. cbn [negb].
  apply Clean_Join, layout_dir_nonempty.
Qed.

Lemma plain_intro (c : ascii) (r : string) :
  c <> "."%char -> string_forall not_slash (String c r) = true ->
  plain (String c r) = true.
Proof.
  intros Hc Hs. unfold plain. rewrite Hs. cbn [String.eqb].
  apply Ascii.eqb_neq in Hc. now rewrite Hc.
Qed.

Lemma numeric_not_slash (c : ascii) : is_numeric c = true -> not_slash c = true.
Proof.
  intros H. unfold not_slash. destruct (Ascii.eqb_spec c slash) as [->|];
    [discriminate|reflexivity].
Qed.

Lemma numeric_plain (s : string) :
  string_forall is_numeric s = true -> s <> "" -> plain s = true.
Proof.
  destruct s as [|c r]; [congruence|]. intros H _. apply plain_intro.
  - cbn in H. apply andb_true_iff in H as [Hc _]. intros ->. discriminate.
  - exact (string_forall_impl _ _ _ numeric_not_slash H).
Qed.

Lemma year_month_plain (t : Time) :
  plain (fmt_0d 4 (t_year t) ++ fmt_0d 2 (t_month t)) = true.
Proof.
  apply numeric_plain.
  - now rewrite string_forall_app, !fmt_0d_numeric.
  - destruct (fmt_0d_nonempty 4 (t_year t)) as (c & r & ->). discriminate.
Qed.

Lemma day_plain (t : Time) : plain (fmt_0d 2 (t_day t)) = true.
Proof.
  apply numeric_plain; [apply fmt_0d_numeric|].
  destruct (fmt_0d_nonempty 2 (t_day t)) as (c & r & ->). discriminate.
Qed.

Lemma levelName_cases (lv : Level) (lname : string) :
  index_level levelName lv = Some lname ->
  In lname ["output"; "debug"; "info"; "warn"; "error"; "action"].
Proof. unfold index_level. intros H. now apply nth_error_In in H. Qed.

Lemma logFile_plain (lv : Level) (lname : string) (sl : Z) (t : Time) :
  index_level levelName lv = Some lname -> plain (logFile lname sl t) = true.
Proof.
  intros H. apply levelName_cases in H.
  assert (Hh : string_forall not_slash (fmt_0d 2 (Hour t)) = true)
    by exact (string_forall_impl _ _ _ numeric_not_slash (fmt_0d_numeric 2 _)).
  assert (Hi : string_forall not_slash (Itoa sl) = true)
    by exact (string_forall_impl _ _ _ numeric_not_slash (Itoa_numeric sl)).
  unfold logFile.
  repeat (destruct H as [<-|H]; [
    destruct (sl <=? 0); cbn [append]; (apply plain_intro; [discriminate|]);
    repeat (progress cbn [string_forall] || rewrite string_forall_app
            || rewrite Hh || rewrite Hi);
    reflexivity|]).
  contradiction.
Qed.

(** A cleaned base path extended by plain elements is already clean. *)
Lemma Clean_regular (base : string) (l : list string) :
  regular_base base -> l <> [] -> Forall (fun c => plain c = true) l ->
  Clean (base ++ "/" ++ String.concat "/" l) = base ++ "/" ++ String.concat "/" l.
Proof.
  intros Hb Hl HF.
  assert (Hsf : Forall (fun c => string_forall not_slash c = true) l).
  { eapply Forall_impl; [|exact HF]. cbn. intros c Hc.
    now apply plain_parts in Hc. }
  change (base ++ "/" ++ String.concat "/" l)
    with (base ++ String slash (String.concat "/" l)).
  destruct Hb as [->|(Hc & Hdot & Hsuf)].
  - unfold Clean, clean_stack. cbn [append].
    assert (Hr : HasPrefix (String slash (String.concat "/" l)) "/" = true)
      by (unfold HasPrefix; cbn; now destruct (String.concat "/" l)).
    rewrite Hr.
    change (String slash (String.concat "/" l))
      with ("" ++ String slash (String.concat "/" l)).
    rewrite split_slash_app, split_slash_concat by assumption.
    cbn [split_slash app fold_left]. rewrite clean_step_skip by auto.
    rewrite fold_clean_plain by assumption.
    now rewrite app_nil_r, rev_involutive.
  - assert (Hne : base <> "") by (intros ->; discriminate).
    unfold Clean. rewrite (HasPrefix_app _ _ Hne), clean_stack_app by assumption.
    fold (clean_stack base).
    rewrite split_slash_concat, fold_clean_plain by assumption.
    rewrite rev_app_distr, rev_involutive.
    pose proof (clean_stack_normal base) as Hn.
    unfold Clean in Hc.
    destruct (clean_stack base) as [|x st] eqn:E.
    + cbn in Hc. destruct (HasPrefix base "/"); subst base;
        [discriminate|congruence].
    + assert (Hrev : rev (x :: st) <> []).
      { intros H. apply (f_equal (@rev string)) in H.
        rewrite rev_involutive in H. discriminate. }
      rewrite concat_app by assumption.
      destruct (normal_body Hn) as (c & s & Hs & _); [discriminate|].
      destruct (HasPrefix base "/").
      * rewrite <- Hc. now rewrite append_assoc.
      * rewrite Hs in Hc |- *. cbn [String.eqb append] in Hc |- *.
        now rewrite <- Hc.
Qed.

Lemma layout_dir_elements (base name : string) (t : Time) :
  layout_dir base name t =
  base ++ "/" ++
  String.concat "/" ["logs"; name; fmt_0d 4 (t_year t) ++ fmt_0d 2 (t_month t);
                     fmt_0d 2 (t_day t)].
Proof. unfold layout_dir. cbn [String.concat]. now rewrite !append_assoc. Qed.

Lemma layout_path_elements (base name fname : string) (t : Time) :
  layout_path base name fname t =
  base ++ "/" ++
  String.concat "/" ["logs"; name; fmt_0d 4 (t_year t) ++ fmt_0d 2 (t_month t);
                     fmt_0d 2 (t_day t); fname].
Proof.
  unfold layout_path, layout_dir. cbn [String.concat].
  now rewrite !append_assoc.
Qed.

(* ================================================================= *)
(** ** The path resolver: [createFile] *)

Lemma Clean_idempotent (p : string) : Clean (Clean p) = Clean p.
Proof.
  apply Clean_ext; [apply Clean_rooted|].
  unfold clean_stack at 1. rewrite Clean_rooted. apply Clean_split.
Qed.

(** C4: for every base path, log name, timestamp and slot and each of the
    six levels, whose names are output, debug, info, warn, error and action,
    [createFile] asks for the directory [<base>/logs/<logName>/<YYYYMM>/<DD>/]
    and, when the directory is there, opens the file of that directory whose
    name is [<levelName>-<HH>.log] when the slot is 0 (or less) and
    [<levelName>-<HH>-<slot>.log] when it is positive.  The two paths are
    handed to the operating system in the cleaned spelling [filepath.Join]
    gives them, which names the same path: no separator at the end, none
    doubled, [.] and [..] elements resolved.  When the base path is regular
    (empty, or already clean, not [.] and without a separator at its end) and
    the log name is a plain element, the spelling is the layout letter for
    letter. *)
Theorem createFile_layout (e : Env) (base name : string) (lv : Level)
    (sl : Z) (t : Time) (os : OS) (lname : string) :
  index_level levelName lv = Some lname ->
  let fname := logFile lname sl t in
  map (index_level levelName)
      [levelDefault; LevelDebug; LevelInfo; LevelWarn; LevelError; LevelAction]
  = map Some ["output"; "debug"; "info"; "warn"; "error"; "action"] /\
  fname = (if sl <=? 0 then lname ++ "-" ++ fmt_0d 2 (Hour t) ++ ".log"
           else lname ++ "-" ++ fmt_0d 2 (Hour t) ++ "-" ++ Itoa sl ++ ".log") /\
  (exists r os',
     createFile e base name lv sl t os = (Ret r, os') /\
     os_trace os' =
       (os_trace os ++
        EMkdirAll (Clean (layout_dir base name t)) ::
        match mkdir_err e (Clean (layout_dir base name t)) with
        | Some _ => []
        | None => [EOpenFile (Clean (layout_path base name fname t))]
        end)%list) /\
  (regular_base base -> plain name = true ->
   Clean (layout_dir base name t) = layout_dir base name t /\
   Clean (layout_path base name fname t) = layout_path base name fname t) /\
  same_path (Clean (layout_dir base name t)) (layout_dir base name t ++ "/") /\
  same_path (Clean (layout_path base name fname t))
            (layout_dir base name t ++ "/" ++ fname).
Proof.
  intros Hl fname. split; [reflexivity|]. split; [reflexivity|].
  pose proof (@logFile_plain lv lname sl t Hl) as Hplain.
  fold fname in Hplain.
  split; [|split; [|split]].
  - rewrite (@createFile_spec e base name lv sl t os lname Hl).
    rewrite logDir_layout. fold fname.
    rewrite <- logDir_layout, Join_layout, logDir_layout
      by (apply plain_parts in Hplain; tauto).
    destruct (mkdir_err e _) as [err|]; [|destruct (open_err e _) as [err|]];
      do 2 eexists; split; reflexivity.
  - intros Hb Hn. split.
    + rewrite layout_dir_elements. apply Clean_regular; [assumption|discriminate|].
      repeat constructor; auto using year_month_plain, day_plain.
    + rewrite layout_path_elements. apply Clean_regular; [assumption|discriminate|].
      repeat constructor; auto using year_month_plain, day_plain.
  - unfold same_path. rewrite Clean_idempotent. symmetry.
    apply Clean_trailing_slash, layout_dir_nonempty.
  - unfold same_path. apply Clean_idempotent.
Qed.

Lemma createFile_layout_witness :
  (exists os',
     createFile env_ok "/data" "app" LevelInfo 0 jan5_7h os0
     = (Ret (inl 0%nat), os') /\
     os_trace os' = [EMkdirAll "/data/logs/app/202401/05";
                     EOpenFile "/data/logs/app/202401/05/info-07.log"]) /\
  same_path "/data/logs/app/202401/05" "/data/logs/app/202401/05/".
Proof.
  destruct (@createFile_layout env_ok "/data" "app" LevelInfo 0 jan5_7h os0 "info"
              eq_refl) as (_ & _ & (r & os' & Hc & Ht) & Hreg & Hsame & _).
  destruct Hreg as [Hd Hp].
  - right. repeat split; [discriminate].
  - reflexivity.
  - split.
    + exists os'. split.
      * rewrite Hc. f_equal. vm_compute in Hc. now injection Hc as <- _.
      * rewrite Ht, Hd, Hp. reflexivity.
    + rewrite Hd in Hsame. exact Hsame.
Defined.

Lemma configuration_checked_when_set_witness :
  SetLevel 7%N initial = Panic "invalid log level" /\
  (exists st', SetLevel LevelWarn initial = Ret st' /\ logLevel st' = LevelWarn) /\
  (exists st', SetName "app" initial = Ret st' /\ logName st' = "app") /\
  Level_Set LevelDebug "verbose" = (LevelDebug, Some "invaild level") /\
  Level_Set LevelDebug "warn" = (LevelWarn, None) /\
  exists st' os', Info env_ok rt0 "started" initial os0 = (Ret st', os').
Proof.
  destruct (configuration_checked_when_set initial)
    as (_ & Hname & Hbad & Hgood & Hunk & _ & Hknown & _ & _ & Hwrite).
  split; [apply Hbad; right; reflexivity|].
  split; [apply Hgood; split; discriminate|].
  split; [apply Hname; discriminate|].
  split.
  { apply Hunk. cbn. intros H.
    repeat (destruct H as [H|H]; [discriminate|]). exact H. }
  split; [apply Hknown; [discriminate|reflexivity]|].
  destruct (Hwrite I env_ok rt0 "started" os0)
    as (_ & (st' & os' & H & _) & _).
  eauto.
Defined.

(* ================================================================= *)
(** ** Byte accounting of the buffered writer *)

Lemma substring_split (s : string) (n : nat) :
  (n <= String.length s)%nat ->
  substring 0 n s ++ substring n (String.length s - n) s = s.
Proof.
  revert n. induction s as [|c s IH]; intros [|n] H; cbn in *; try lia;
    try reflexivity.
  - f_equal. clear. induction s; cbn; congruence.
  - f_equal. apply IH. lia.
Qed.

Lemma substring_length (s : string) (n m : nat) :
  (n + m <= String.length s)%nat -> String.length (substring n m s) = m.
Proof.
  revert n m. induction s as [|c s IH]; intros [|n] [|m] H; cbn in *;
    try lia; try reflexivity.
  - f_equal. apply (IH 0%nat). lia.
  - apply (IH n 0%nat). lia.
  - apply IH. lia.
Qed.

Lemma is_open_add_trace (os : OS) (evs : list Event) (f : fd) :
  is_open (add_trace os evs) f = is_open os f.
Proof. reflexivity. Qed.

Lemma File_Write_ok (e : Env) (f : fd) (p : string) (os : OS) :
  is_open os f = true -> write_err e f = None ->
  File_Write e f p os = (Ret (len p, None), add_trace os [EWrite f p]).
Proof.
  intros Ho He. unfold File_Write. munfold.
  fold (add_trace os [EWrite f p]). now rewrite is_open_add_trace, Ho, He.
Qed.

Lemma written_app (f : fd) (l1 l2 : list Event) :
  written f (l1 ++ l2) = written f l1 ++ written f l2.
Proof.
  induction l1 as [|ev l1 IH]; [reflexivity|]. cbn.
  destruct ev; auto. destruct (Nat.eqb f0 f); [|exact IH].
  now rewrite IH, append_assoc.
Qed.

Lemma eqb_empty (s : string) : String.eqb s "" = false -> s <> "".
Proof. intros H ->. discriminate. Qed.

Lemma Flush_healthy (e : Env) (b : bufioWriter) (os : OS) :
  healthy e os b -> bw_buf b <> "" ->
  Flush e b os =
  (Ret (None, mkBufio (bw_wr b) (bw_size b) "" None),
   add_trace os [EWrite (bw_wr b) (bw_buf b)]).
Proof.
  intros (Herr & Hopen & Hw) Hne. unfold Flush. rewrite Herr.
  apply String.eqb_neq in Hne. rewrite Hne.
  unfold bind. now rewrite File_Write_ok.
Qed.

Lemma Flush_empty (e : Env) (b : bufioWriter) (os : OS) :
  bw_err b = None -> bw_buf b = "" -> Flush e b os = (Ret (None, b), os).
Proof. intros Herr Hb. unfold Flush. now rewrite Herr, Hb. Qed.

(** On a healthy writer [Write] of [bufio.Writer] accepts the whole slice:
    the bytes handed to the file, followed by the bytes left in the buffer,
    are the bytes that were in the buffer followed by the slice. *)
Lemma bufio_Write_healthy (e : Env) (b : bufioWriter) (p : string) (os : OS) :
  healthy e os b ->
  exists b' evs,
    bufio_Write e b p os = (Ret (len p, None, b'), add_trace os evs) /\
    healthy e (add_trace os evs) b' /\ bw_wr b' = bw_wr b /\
    bw_size b' = bw_size b /\
    written (bw_wr b) evs ++ bw_buf b' = bw_buf b ++ p /\
    Forall (fun ev => exists data, ev = EWrite (bw_wr b) data) evs /\
    ((len p <= Available b)%N -> evs = [] /\ bw_buf b' = bw_buf b ++ p) /\
    ((len (bw_buf b) <= bw_size b)%N -> (len (bw_buf b') <= bw_size b)%N).
Proof.
  intros Hh. pose proof Hh as (Herr & Hopen & Hw).
  unfold bufio_Write. rewrite Herr.
  destruct (N.leb_spec (len p) (Available b)) as [Hfit|Hbig].
  { exists (mkBufio (bw_wr b) (bw_size b) (bw_buf b ++ p) None), [].
    rewrite add_trace_nil. split; [reflexivity|].
    split; [repeat split; assumption|].
    do 2 (split; [reflexivity|]). split; [reflexivity|].
    split; [constructor|]. split; [auto|].
    cbn [bw_buf]. unfold Available, len in *. rewrite length_append. lia. }
  destruct (String.eqb_spec (bw_buf b) "") as [Hb|Hb].
  { unfold bind. rewrite File_Write_ok by assumption. munfold.
    exists (mkBufio (bw_wr b) (bw_size b) "" None), [EWrite (bw_wr b) p].
    split; [reflexivity|]. split; [repeat split; assumption|].
    do 2 (split; [reflexivity|]). split.
    { cbn. now rewrite Nat.eqb_refl, Hb, !append_nil_r. }
    split; [repeat constructor; eauto|]. split; [lia|].
    intros _. cbn. unfold len. cbn. lia. }
  set (n := N.to_nat (Available b)).
  assert (Hn : (n < String.length p)%nat) by (unfold n, Available, len in *; lia).
  set (filled := mkBufio (bw_wr b) (bw_size b) (bw_buf b ++ substring 0 n p) None).
  set (rest := substring n (String.length p - n) p).
  assert (Hrest : String.length rest = (String.length p - n)%nat)
    by (apply substring_length; lia).
  assert (Hcount : (N.of_nat n + len rest)%N = len p)
    by (unfold len; rewrite Hrest; lia).
  assert (Hsplit : (bw_buf b ++ substring 0 n p) ++ rest = bw_buf b ++ p).
  { rewrite append_assoc. unfold rest. rewrite substring_split by lia.
    reflexivity. }
  assert (Hfh : healthy e os filled) by (repeat split; assumption).
  assert (Hfne : bw_buf filled <> "").
  { cbn. intros H. apply Hb. destruct (bw_buf b); [reflexivity|discriminate]. }
  unfold bind at 1. rewrite (Flush_healthy Hfh Hfne). cbn [fst snd bw_wr bw_size bw_buf filled].
  destruct (N.leb_spec (len rest) (bw_size b)) as [Hr|Hr].
  { munfold. rewrite Hcount.
    exists (mkBufio (bw_wr b) (bw_size b) rest None),
           [EWrite (bw_wr b) (bw_buf b ++ substring 0 n p)].
    split; [reflexivity|]. split; [repeat split; assumption|].
    do 2 (split; [reflexivity|]). split.
    { cbn. now rewrite Nat.eqb_refl, append_nil_r. }
    split; [repeat constructor; eauto|]. split; [lia|]. intros _. exact Hr. }
  unfold bind. rewrite File_Write_ok by assumption. munfold.
  rewrite Hcount, add_trace_app.
  exists (mkBufio (bw_wr b) (bw_size b) "" None),
         [EWrite (bw_wr b) (bw_buf b ++ substring 0 n p); EWrite (bw_wr b) rest].
  split; [reflexivity|]. split; [repeat split; assumption|].
  do 2 (split; [reflexivity|]). split.
  { cbn. now rewrite Nat.eqb_refl, !append_nil_r. }
  split; [repeat constructor; eauto|]. split; [lia|].
  intros _. unfold len. cbn. lia.
Qed.

Lemma File_Write_count (e : Env) (f : fd) (p : string) (os : OS) :
  exists n err,
    File_Write e f p os = (Ret (n, err), add_trace os [EWrite f p]) /\
    (n <= len p)%N /\ (err = None -> n = len p).
Proof.
  unfold File_Write. munfold. fold (add_trace os [EWrite f p]).
  destruct (is_open _ f); [destruct (write_err e f)|];
    do 2 eexists; (split; [reflexivity|]); split; try lia; congruence.
Qed.

(** The count [Write] of [bufio.Writer] returns never exceeds the slice,
    and is the whole slice when no error is returned. *)
Lemma bufio_Write_count (e : Env) (b : bufioWriter) (p : string) (os os' : OS)
    (n : N) (err : option error) (b' : bufioWriter) :
  bufio_Write e b p os = (Ret (n, err, b'), os') ->
  (n <= len p)%N /\ (err = None -> n = len p).
Proof.
  unfold bufio_Write. destruct (bw_err b) as [e0|].
  { munfold. intros H. injection H as <- <- _ _. split; [lia|discriminate]. }
  destruct (N.leb_spec (len p) (Available b)) as [Hfit|Hbig].
  { munfold. intros H. injection H as <- <- _ _. split; [lia|reflexivity]. }
  destruct (String.eqb (bw_buf b) "").
  { unfold bind.
    destruct (File_Write_count e (bw_wr b) p os) as (k & werr & -> & Hk & Hk').
    munfold. intros H. injection H as <- <- _ _. auto. }
  set (k := N.to_nat (Available b)).
  assert (Hk : (k < String.length p)%nat) by (unfold k, Available, len in *; lia).
  assert (Hrest : String.length (substring k (String.length p - k) p)
                  = (String.length p - k)%nat)
    by (apply substring_length; lia).
  unfold bind at 1.
  match goal with |- context [Flush e ?x os] =>
    destruct (Flush_spec e x os) as (ferr & b1 & -> & _) end.
  cbn [fst snd]. destruct ferr as [e1|].
  { munfold. intros H. injection H as <- <- _ _.
    split; [unfold len; lia|discriminate]. }
  destruct (N.leb_spec (len (substring k (String.length p - k) p)) (bw_size b))
    as [Hs|Hs].
  { munfold. intros H. injection H as <- <- _ _.
    unfold len. rewrite Hrest. split; [lia|intros _; lia]. }
  unfold bind.
  match goal with |- context [File_Write e ?f ?q ?o] =>
    destruct (File_Write_count e f q o) as (m & werr & -> & Hm & Hm') end.
  munfold. intros H. injection H as <- <- _ _.
  unfold len in *. rewrite Hrest in *. split; [lia|].
  intros He. specialize (Hm' He). lia.
Qed.

(** After a rotation check that returns no error the stream has a file and
    a buffered writer, was opened in the date and hour of [now], and is below
    the size threshold. *)
Lemma checkRotate_ok_state (e : Env) (now : Time) (sb sb1 : bufferWriter)
    (os os1 : OS) :
  sb_wf sb -> checkRotate e now sb os = (Ret (None, sb1), os1) ->
  (exists f b, file sb1 = Some f /\ Writer sb1 = Some b /\ bw_wr b = f) /\
  Date (stime sb1) = Date now /\ Hour (stime sb1) = Hour now /\
  (nbytes sb1 < MaxSize)%N.
Proof.
  intros Hwf Hc. rewrite checkRotate_due in Hc.
  destruct (rotation_due sb now) as [sl|] eqn:Hd.
  - destruct (index_level_some (proj1 Hwf)) as [lname Hl].
    destruct (rotateFile_cases e now sl os Hwf Hl)
      as (res & sb' & os' & post & Hr & _ & _ & _ & Hcase).
    rewrite Hr in Hc. injection Hc as -> -> ->.
    destruct Hcase as [(err & He & _)|(_ & _ & _ & -> & _)]; [discriminate|].
    cbn. split; [eauto|]. repeat split.
  - injection Hc as <- <-. unfold rotation_due in Hd.
    destruct Hwf as [_ Hwf].
    destruct (file sb) as [f|]; [|discriminate].
    destruct (Writer sb) as [b|]; [|contradiction].
    destruct (negb (t_year now =? t_year (stime sb))
              || negb (t_month now =? t_month (stime sb))
              || negb (t_day now =? t_day (stime sb))) eqn:Hdate;
      [discriminate|].
    apply date_test in Hdate.
    destruct (Z.eqb_spec (Hour now) (Hour (stime sb))) as [Hh|]; [|discriminate].
    cbn [negb] in Hd.
    destruct (N.leb_spec MaxSize (nbytes sb)); [discriminate|].
    split; [eauto|]. auto.
Qed.

Lemma assemble_line_of (rt : Runtime) (lv : Level) (s : string) :
  assemble rt lv s = Some (line_of rt lv s).
Proof. apply assemble_eq. Qed.

(** X1: on a stream whose buffered writer is healthy (no earlier error,
    file open and writable) [Write] accepts the whole slice and returns no
    error; [nbytes] grows by the length of the slice (modulo 2^64); no byte
    is lost or reordered: what was handed to the file followed by what is
    left in the buffer is what was in the buffer followed by the slice; the
    buffer stays within its capacity; only the file of the stream is written
    to, and file, opening time and slot are untouched. *)
Theorem bufferWriter_Write_accounts (e : Env) (sb : bufferWriter) (p : string)
    (os : OS) (b : bufioWriter) :
  Writer sb = Some b -> healthy e os b -> (len (bw_buf b) <= bw_size b)%N ->
  exists sb' b' evs,
    bufferWriter_Write e sb p os = (Ret (len p, None, sb'), add_trace os evs) /\
    nbytes sb' = uint64_add (nbytes sb) (len p) /\
    Writer sb' = Some b' /\ healthy e (add_trace os evs) b' /\
    written (bw_wr b) evs ++ bw_buf b' = bw_buf b ++ p /\
    (len (bw_buf b') <= bw_size b')%N /\
    Forall (fun ev => exists data, ev = EWrite (bw_wr b) data) evs /\
    file sb' = file sb /\ stime sb' = stime sb /\ slot sb' = slot sb.
Proof.
  intros Hw Hh Hcap.
  destruct (bufio_Write_healthy p Hh)
    as (b' & evs & HW & Hh' & Hwr & Hsz & Hcons & Hev & _ & Hb).
  unfold bufferWriter_Write. rewrite Hw. unfold bind. rewrite HW. munfold.
  exists (set_nbytes (set_Writer sb (Some b')) (uint64_add (nbytes sb) (len p))),
         b', evs.
  repeat split; try assumption; try apply Hh'. rewrite Hsz. now apply Hb.
Qed.

Lemma bufferWriter_Write_accounts_witness :
  exists sb',
    bufferWriter_Write env_ok sb_open "0123456789" os1
    = (Ret (10%N, None, sb'), os1) /\
    nbytes sb' = 17%N /\
    option_map bw_buf (Writer sb') = Some "pending0123456789".
Proof.
  destruct (@bufferWriter_Write_accounts env_ok sb_open "0123456789" os1
              (mkBufio 0%nat bufferSize "pending" None))
    as (sb' & b' & evs & HW & Hn & Hb & _ & Hcons & _ & _ & _).
  - reflexivity.
  - repeat split.
  - vm_compute. discriminate.
  - exists sb'. vm_compute in HW. injection HW as <- Hos.
    repeat split.
Defined.

Lemma rotation_due_none (sb : bufferWriter) (now : Time) (f : fd) :
  file sb = Some f -> Date now = Date (stime sb) -> Hour now = Hour (stime sb) ->
  (nbytes sb < MaxSize)%N -> rotation_due sb now = None.
Proof.
  intros Hf Hd Hh Hn. unfold rotation_due. rewrite Hf.
  apply date_test in Hd. rewrite Hd, Hh, Z.eqb_refl. cbn [negb].
  now destruct (N.leb_spec MaxSize (nbytes sb)); [lia|].
Qed.

Lemma fileLogWriter_write_buffered (e : Env) (rt : Runtime) (lv : Level)
    (s : string) (w : fileLogWriter) (os : OS) (f : fd) (b : bufioWriter) :
  let sb := stream_of w lv in
  let line := line_of rt lv s in
  (lv < 6)%N -> file sb = Some f -> Writer sb = Some b -> bw_err b = None ->
  Date (rt_now rt) = Date (stime sb) -> Hour (rt_now rt) = Hour (stime sb) ->
  (nbytes sb < MaxSize)%N -> (len line <= Available b)%N ->
  fileLogWriter_write e rt lv s w os =
  (Ret (set_writers w
          (array_set (writers w) (N.to_nat lv)
             (Some (with_buffer sb
                      (mkBufio (bw_wr b) (bw_size b) (bw_buf b ++ line) None)
                      (uint64_add (nbytes sb) (len line)))))),
   os).
Proof.
  intros sb line Hlv Hf Hw Herr Hd Hh Hn Hfit.
  unfold fileLogWriter_write. rewrite assemble_line_of.
  apply N.ltb_lt in Hlv. rewrite Hlv. cbn [negb].
  fold (stream_of w lv). fold sb. fold line.
  rewrite checkRotate_due, (rotation_due_none _ Hf Hd Hh Hn).
  munfold. unfold bufferWriter_Write. rewrite Hw. unfold bufio_Write.
  rewrite Herr. apply N.leb_le in Hfit. rewrite Hfit. munfold. reflexivity.
Qed.

(** X2: a record for a stream that is open in the date and hour of the
    record, below the size threshold, and whose buffer has room for the line,
    costs no system call: [write] returns with the operating system exactly
    as it was, the line is at the end of the buffer, and [nbytes] has grown by
    the length of the line. *)
Theorem write_buffers_without_system_call (e : Env) (rt : Runtime) (lv : Level)
    (s : string) (w : fileLogWriter) (os : OS) (f : fd) (b : bufioWriter) :
  let sb := stream_of w lv in
  let line := line_of rt lv s in
  (lv < 6)%N -> file sb = Some f -> Writer sb = Some b -> bw_err b = None ->
  Date (rt_now rt) = Date (stime sb) -> Hour (rt_now rt) = Hour (stime sb) ->
  (nbytes sb < MaxSize)%N -> (len line <= Available b)%N ->
  fileLogWriter_write e rt lv s w os =
  (Ret (set_writers w
          (array_set (writers w) (N.to_nat lv)
             (Some (with_buffer sb
                      (mkBufio (bw_wr b) (bw_size b) (bw_buf b ++ line) None)
                      (uint64_add (nbytes sb) (len line)))))),
   os).
Proof. apply fileLogWriter_write_buffered. Qed.

Lemma write_buffers_without_system_call_witness :
  exists w',
    fileLogWriter_write env_nodir rt0 LevelInfo "hello" w_open os1 = (Ret w', os1) /\
    option_map bw_buf (Writer (stream_of w' LevelInfo)) =
      Some ("pending" ++ line_of rt0 LevelInfo "hello").
Proof.
  eexists. split.
  - apply (@write_buffers_without_system_call env_nodir rt0 LevelInfo "hello"
             w_open os1 0%nat (mkBufio 0%nat bufferSize "pending" None));
      try reflexivity.
    vm_compute. discriminate.
  - reflexivity.
Defined.

(* ================================================================= *)
(** ** Handles keep their paths *)

Lemma files_ext_refl (os : OS) : files_ext os os.
Proof. intros f o H. eauto. Qed.

Lemma files_ext_trans (a b c : OS) :
  files_ext a b -> files_ext b c -> files_ext a c.
Proof.
  intros Hab Hbc f o H. destruct (Hab _ _ H) as (o1 & H1 & E1).
  destruct (Hbc _ _ H1) as (o2 & H2 & E2). exists o2. split; congruence.
Qed.

Lemma files_ext_same (os os' : OS) :
  os_files os' = os_files os -> files_ext os os'.
Proof. intros E f o H. rewrite E. eauto. Qed.

Lemma keeps_ret {A} (a : A) : keeps_files (ret a).
Proof. intros os r os' H. injection H as _ <-. apply files_ext_refl. Qed.

Lemma keeps_panic {A} (msg : string) : keeps_files (@panic A msg).
Proof. intros os r os' H. injection H as _ <-. apply files_ext_refl. Qed.

Lemma keeps_bind {A B} (m : M A) (k : A -> M B) :
  keeps_files m -> (forall a, keeps_files (k a)) -> keeps_files (bind m k).
Proof.
  intros Hm Hk os r os' H. unfold bind in H.
  destruct (m os) as [[a|msg] os1] eqn:E.
  - eapply files_ext_trans; [eapply Hm, E|eapply Hk, H].
  - injection H as _ <-. eapply Hm, E.
Qed.

Lemma keeps_emit (ev : Event) : keeps_files (emit ev).
Proof. intros os r os' H. injection H as _ <-. now apply files_ext_same. Qed.

Lemma keeps_Println (s : string) : keeps_files (Println s).
Proof. intros os r os' H. injection H as _ <-. now apply files_ext_same. Qed.

Lemma keeps_same {A} (m : M A) :
  (forall os r os', m os = (r, os') -> os_files os' = os_files os) ->
  keeps_files m.
Proof. intros Hm os r os' H. apply files_ext_same. eapply Hm, H. Qed.

Lemma close_at_nth (l : list OFile) (f g : nat) (o : OFile) :
  nth_error l g = Some o ->
  exists o', nth_error (close_at l f) g = Some o' /\ of_path o' = of_path o.
Proof.
  revert f g. induction l as [|x l IH]; intros [|f] [|g] H; cbn in *;
    try discriminate; eauto.
  injection H as <-. eauto.
Qed.

Create HintDb keeps.

#[local] Hint Resolve keeps_ret keeps_panic keeps_emit keeps_Println : keeps.

Ltac keeps :=
  repeat first
    [ solve [auto with keeps]
    | apply keeps_bind; [|intros ?]
    | match goal with
      | |- keeps_files (match ?x with _ => _ end) => destruct x
      | |- keeps_files (if ?x then _ else _) => destruct x
      | |- keeps_files (let '(_, _) := ?x in _) => destruct x
      end ].

Lemma keeps_MkdirAll (e : Env) (dir : string) : keeps_files (MkdirAll e dir).
Proof. unfold MkdirAll. keeps. Qed.

Lemma keeps_OpenFile (e : Env) (name : string) : keeps_files (OpenFile e name).
Proof.
  unfold OpenFile. apply keeps_bind; [auto with keeps|]. intros _.
  destruct (open_err e name); [auto with keeps|].
  intros os r os' H. injection H as _ <-. intros f o Hf. exists o.
  split; [|reflexivity]. cbn. rewrite nth_error_app1; [assumption|].
  apply nth_error_Some. congruence.
Qed.

Lemma keeps_File_Write (e : Env) (f : fd) (p : string) :
  keeps_files (File_Write e f p).
Proof.
  unfold File_Write. apply keeps_bind; [auto with keeps|]. intros _.
  apply keeps_same. intros os r os' H.
  destruct (is_open os f); [destruct (write_err e f)|]; now injection H as _ <-.
Qed.

Lemma keeps_File_Sync (e : Env) (f : fd) : keeps_files (File_Sync e f).
Proof.
  unfold File_Sync. apply keeps_bind; [auto with keeps|]. intros _.
  apply keeps_same. intros os r os' H.
  destruct (is_open os f); now injection H as _ <-.
Qed.

Lemma keeps_File_Close (f : fd) : keeps_files (File_Close f).
Proof.
  unfold File_Close. apply keeps_bind; [auto with keeps|]. intros _.
  intros os r os' H. destruct (is_open os f); injection H as _ <-.
  - intros g o Hg. cbn. now apply close_at_nth.
  - apply files_ext_refl.
Qed.

#[local] Hint Resolve keeps_MkdirAll keeps_OpenFile keeps_File_Write keeps_File_Sync
  keeps_File_Close : keeps.

Lemma keeps_Flush (e : Env) (b : bufioWriter) : keeps_files (Flush e b).
Proof. unfold Flush. keeps. Qed.

#[local] Hint Resolve keeps_Flush : keeps.

Lemma keeps_bufio_Write (e : Env) (b : bufioWriter) (p : string) :
  keeps_files (bufio_Write e b p).
Proof. unfold bufio_Write. keeps. Qed.

#[local] Hint Resolve keeps_bufio_Write : keeps.

Lemma keeps_bufferWriter_Write (e : Env) (sb : bufferWriter) (p : string) :
  keeps_files (bufferWriter_Write e sb p).
Proof. unfold bufferWriter_Write. keeps. Qed.

Lemma keeps_bufferWriter_Sync (e : Env) (sb : bufferWriter) :
  keeps_files (bufferWriter_Sync e sb).
Proof. unfold bufferWriter_Sync. keeps. Qed.

Lemma keeps_createFile (e : Env) (base name : string) (lv : Level) (sl : Z)
    (t : Time) : keeps_files (createFile e base name lv sl t).
Proof. unfold createFile. keeps. Qed.

#[local] Hint Resolve keeps_bufferWriter_Write keeps_bufferWriter_Sync keeps_createFile
  : keeps.

Lemma keeps_rotateFile (e : Env) (now : Time) (sl : Z) (sb : bufferWriter) :
  keeps_files (rotateFile e now sl sb).
Proof. unfold rotateFile. keeps. Qed.

#[local] Hint Resolve keeps_rotateFile : keeps.

Lemma keeps_checkRotate (e : Env) (now : Time) (sb : bufferWriter) :
  keeps_files (checkRotate e now sb).
Proof. rewrite checkRotate_due. keeps. Qed.

#[local] Hint Resolve keeps_checkRotate : keeps.

Lemma keeps_fileLogWriter_write (e : Env) (rt : Runtime) (lv : Level)
    (s : string) (w : fileLogWriter) :
  keeps_files (fileLogWriter_write e rt lv s w).
Proof. unfold fileLogWriter_write. keeps. Qed.

Lemma keeps_flushAll_loop (e : Env) (ws : list (option bufferWriter)) :
  keeps_files (flushAll_loop e ws).
Proof. induction ws as [|o ws IH]; cbn [flushAll_loop]; keeps. Qed.

#[local] Hint Resolve keeps_flushAll_loop : keeps.

Lemma keeps_flushAll (e : Env) (w : fileLogWriter) : keeps_files (flushAll e w).
Proof. unfold flushAll. keeps. Qed.

(* ================================================================= *)
(** ** One [write], step by step *)

Lemma stream_path_ext (os os' : OS) (sb sb' : bufferWriter) :
  files_ext os os' -> file sb' = file sb -> sb_level sb' = sb_level sb ->
  sb_basePath sb' = sb_basePath sb -> sb_logName sb' = sb_logName sb ->
  stime sb' = stime sb -> slot sb' = slot sb ->
  stream_path os sb -> stream_path os' sb'.
Proof.
  intros Hext Hf Hl Hb Hn Ht Hs Hp. unfold stream_path in *.
  rewrite Hf, Hl, Hb, Hn, Ht, Hs. destruct (file sb) as [f|]; [|exact I].
  destruct Hp as (lname & o & Hlv & Ho & Hpath).
  destruct (Hext _ _ Ho) as (o' & Ho' & E).
  exists lname, o'. repeat split; congruence.
Qed.

Lemma rotateFile_path (e : Env) (now : Time) (sl : Z) (sb sb' : bufferWriter)
    (os os' : OS) (res : option error) :
  sb_wf sb -> stream_path os sb ->
  rotateFile e now sl sb os = (Ret (res, sb'), os') -> stream_path os' sb'.
Proof.
  intros Hwf Hp Hr.
  pose proof (keeps_rotateFile _ _ _ _ _ Hr) as Hext.
  destruct (index_level_some (proj1 Hwf)) as [lname Hl].
  destruct (rotateFile_cases e now sl os Hwf Hl)
    as (res0 & sb0 & os0' & post & Hr0 & _ & _ & _ & Hcase).
  rewrite Hr in Hr0. injection Hr0 as <- <- <-.
  destruct Hcase as [(err & -> & _ & Hf & Hst & Hsl & _)
                    |(-> & _ & _ & -> & Hnth)].
  - destruct (rotateFile_error_keeps _ _ _ _ _ Hr)
      as (_ & _ & _ & _ & Hlev & Hbase & Hname & _).
    apply (@stream_path_ext os os' sb sb'); assumption.
  - unfold stream_path. cbn. eauto.
Qed.

Lemma checkRotate_path (e : Env) (now : Time) (sb sb' : bufferWriter)
    (os os' : OS) (res : option error) :
  sb_wf sb -> stream_path os sb ->
  checkRotate e now sb os = (Ret (res, sb'), os') -> stream_path os' sb'.
Proof.
  intros Hwf Hp Hc. rewrite checkRotate_due in Hc.
  destruct (rotation_due sb now) as [sl|].
  - eapply rotateFile_path; eauto.
  - now injection Hc as _ <- <-.
Qed.

Lemma bufferWriter_Write_fields (e : Env) (sb sb' : bufferWriter) (p : string)
    (os os' : OS) (n : N) (err : option error) :
  bufferWriter_Write e sb p os = (Ret (n, err, sb'), os') ->
  (n <= len p)%N /\ (err = None -> n = len p) /\
  exists b b', Writer sb = Some b /\ bw_wr b' = bw_wr b /\
    sb' = with_buffer sb b' (uint64_add (nbytes sb) n).
Proof.
  unfold bufferWriter_Write. destruct (Writer sb) as [b|]; [|discriminate].
  unfold bind. destruct (bufio_Write e b p os) as [[[[k werr] b']|m] os1] eqn:E;
    [|discriminate].
  munfold. intros H. injection H as <- <- <- <-.
  destruct (bufio_Write_count _ _ _ _ E) as [Hk Hk'].
  destruct (bufio_Write_returns e b p os) as (k0 & e0 & b0 & evs & HW & Hwr & _).
  rewrite E in HW. injection HW as <- <- <- _.
  repeat split; auto. exists b, b'. auto.
Qed.

(** What one [write] does, by the outcome of the rotation check. *)
Lemma fileLogWriter_write_step (e : Env) (rt : Runtime) (lv : Level)
    (s : string) (w : fileLogWriter) (os : OS) :
  w_wf w -> (lv < 6)%N ->
  let install sb :=
    set_writers w (array_set (writers w) (N.to_nat lv) (Some sb)) in
  exists res sb1 os1,
    checkRotate e (rt_now rt) (stream_of w lv) os = (Ret (res, sb1), os1) /\
    sb_wf sb1 /\ sb_level sb1 = lv /\
    match res with
    | Some err =>
        fileLogWriter_write e rt lv s w os =
        (Ret (install sb1),
         mkOS (os_files os1) (os_trace os1)
              (os_console os1 ++ [("[logtool] check rotate err: " ++ err)%string]))
    | None =>
        exists n werr sb2 evs,
          bufferWriter_Write e sb1 (line_of rt lv s) os1
          = (Ret (n, werr, sb2), add_trace os1 evs) /\
          fileLogWriter_write e rt lv s w os =
          (Ret (install sb2), add_trace os1 evs)
    end.
Proof.
  intros Hw Hlv install.
  destruct (stream_of_wf Hw Hlv) as [Hsb Hl].
  destruct (checkRotate_wf e (rt_now rt) os Hsb)
    as (res & sb1 & os1 & Hc & Hsb1 & Hl1 & Hres).
  exists res, sb1, os1. split; [exact Hc|]. split; [exact Hsb1|].
  split; [congruence|].
  assert (Hstep : fileLogWriter_write e rt lv s w os =
    match fst (res, sb1) with
    | Some err =>
        (Println ("[logtool] check rotate err: " ++ err) ;;;
         ret (install (snd (res, sb1)))) os1
    | None =>
        (r2 <- bufferWriter_Write e (snd (res, sb1)) (line_of rt lv s) ;;
         ret (install (snd r2))) os1
    end).
  { unfold fileLogWriter_write. rewrite assemble_line_of.
    pose proof Hlv as Hlt. apply N.ltb_lt in Hlt. rewrite Hlt. cbn [negb].
    fold (stream_of w lv). unfold bind at 1. rewrite Hc.
    destruct res; reflexivity. }
  rewrite Hstep. cbn [fst snd]. destruct res as [err|].
  - reflexivity.
  - destruct (Hres eq_refl) as [b Hb].
    destruct (bufferWriter_Write_wf e (line_of rt lv s) os1 Hsb1 Hb)
      as (n & werr & sb2 & evs & HW & _).
    exists n, werr, sb2, evs. split; [exact HW|].
    unfold bind. rewrite HW. reflexivity.
Qed.

Lemma checkRotate_console (e : Env) (now : Time) (sb sb' : bufferWriter)
    (os os' : OS) (res : option error) :
  sb_wf sb -> checkRotate e now sb os = (Ret (res, sb'), os') ->
  os_console os' = os_console os.
Proof.
  intros Hwf Hc. rewrite checkRotate_due in Hc.
  destruct (rotation_due sb now) as [sl|].
  - destruct (index_level_some (proj1 Hwf)) as [lname Hl].
    destruct (rotateFile_cases e now sl os Hwf Hl)
      as (res0 & sb0 & os0' & post & Hr0 & Hco & _).
    rewrite Hc in Hr0. now injection Hr0 as <- <- <-.
  - now injection Hc as _ _ <-.
Qed.

Lemma stream_of_path (os : OS) (w : fileLogWriter) (lv : Level) :
  w_paths os w -> stream_path os (stream_of w lv).
Proof.
  intros Hp. unfold stream_of.
  destruct (nth (N.to_nat lv) (writers w) None) as [sb|] eqn:E.
  - apply nth_Some_nth_error in E. eapply Hp, E.
  - exact I.
Qed.

Lemma w_paths_set (os os' : OS) (w : fileLogWriter) (lv : Level)
    (sb : bufferWriter) :
  w_paths os w -> files_ext os os' -> stream_path os' sb ->
  w_paths os' (set_writers w (array_set (writers w) (N.to_nat lv) (Some sb))).
Proof.
  intros Hp Hext Hsb i sb' Hi. cbn [writers set_writers] in Hi.
  destruct (Nat.eq_dec (N.to_nat lv) i) as [<-|Hne].
  - destruct (Nat.lt_ge_cases (N.to_nat lv) (List.length (writers w))) as [Hlt|Hge].
    + rewrite array_set_same in Hi by exact Hlt. now injection Hi as <-.
    + assert (Hn : nth_error (array_set (writers w) (N.to_nat lv) (Some sb))
                     (N.to_nat lv) = None)
        by (apply nth_error_None; now rewrite array_set_length).
      congruence.
  - rewrite array_set_other in Hi by exact Hne.
    apply (@stream_path_ext os os' sb' sb'); auto. eapply Hp, Hi.
Qed.

(** A [write] that prints no error went through a rotation check that
    passed and a [Write] on the stream the check left. *)
Lemma fileLogWriter_write_ok (e : Env) (rt : Runtime) (lv : Level)
    (s : string) (w w' : fileLogWriter) (os os' : OS) :
  w_wf w -> (lv < 6)%N ->
  fileLogWriter_write e rt lv s w os = (Ret w', os') ->
  os_console os' = os_console os ->
  exists sb1 os1 n werr sb2 evs,
    checkRotate e (rt_now rt) (stream_of w lv) os = (Ret (None, sb1), os1) /\
    sb_wf sb1 /\ sb_level sb1 = lv /\
    bufferWriter_Write e sb1 (line_of rt lv s) os1
    = (Ret (n, werr, sb2), add_trace os1 evs) /\
    w' = set_writers w (array_set (writers w) (N.to_nat lv) (Some sb2)) /\
    os' = add_trace os1 evs.
Proof.
  intros Hw Hlv HW Hco.
  destruct (@fileLogWriter_write_step e rt lv s w os Hw Hlv)
    as (res & sb1 & os1 & Hc & Hsb1 & Hl1 & Hcase).
  destruct (stream_of_wf Hw Hlv) as [Hsb _].
  assert (Hc1 : os_console os1 = os_console os)
    by exact (@checkRotate_console _ _ _ _ _ _ _ Hsb Hc).
  destruct res as [err|].
  - rewrite Hcase in HW. injection HW as _ <-. cbn in Hco.
    rewrite Hc1 in Hco. apply (f_equal (@List.length string)) in Hco.
    rewrite length_app in Hco. cbn in Hco. lia.
  - destruct Hcase as (n & werr & sb2 & evs & HWr & Hres).
    rewrite Hres in HW. injection HW as <- <-.
    exists sb1, os1, n, werr, sb2, evs. auto 8.
Qed.

(** X3: every [write] with one of the six levels keeps the writer well
    formed and every stream on the path of its own opening time and slot.
    When it prints no error, the rotation check passed and the line of the
    record was given to [Write] of the level's stream, whose file was opened
    on the path of the record's own date and hour: the directory and file
    name [createFile] computes for the time of the record and the slot of the
    stream.  After the rotation check nothing but that file is written to.
    When the buffered writer of the stream is healthy (no earlier error, file
    open and writable), the whole line is accepted and counted, and it is in
    that file or in the buffer behind what was there before: what was handed
    to the file followed by the buffer is the old buffer followed by the
    line. *)
Theorem write_lands_in_current_hour (e : Env) (rt : Runtime) (lv : Level)
    (s : string) (w w' : fileLogWriter) (os os' : OS) :
  w_wf w -> w_paths os w -> (lv < 6)%N ->
  fileLogWriter_write e rt lv s w os = (Ret w', os') ->
  w_wf w' /\ w_paths os' w' /\
  (os_console os' = os_console os ->
   exists sb1 os1 b1 n werr evs sb' f b o lname,
     checkRotate e (rt_now rt) (stream_of w lv) os = (Ret (None, sb1), os1) /\
     Writer sb1 = Some b1 /\ bw_wr b1 = f /\
     bufferWriter_Write e sb1 (line_of rt lv s) os1 = (Ret (n, werr, sb'), os') /\
     os' = add_trace os1 evs /\
     Forall (fun ev => exists data, ev = EWrite f data) evs /\
     nth_error (writers w') (N.to_nat lv) = Some (Some sb') /\
     file sb' = Some f /\ Writer sb' = Some b /\ bw_wr b = f /\
     index_level levelName lv = Some lname /\
     nth_error (os_files os') f = Some o /\
     of_path o =
       Join (logDir (sb_basePath sb') (sb_logName sb') (rt_now rt))
            (logFile lname (slot sb') (rt_now rt)) /\
     (healthy e os1 b1 ->
      n = len (line_of rt lv s) /\ werr = None /\
      written f evs ++ bw_buf b = bw_buf b1 ++ line_of rt lv s /\
      nbytes sb' = uint64_add (nbytes sb1) (len (line_of rt lv s)))).
Proof.
  intros Hw Hp Hlv HW.
  assert (Hext : files_ext os os')
    by exact (@keeps_fileLogWriter_write _ _ _ _ _ _ _ _ HW).
  assert (Hin : (N.to_nat lv < List.length (writers w))%nat)
    by (destruct Hw as [-> _]; lia).
  destruct (stream_of_wf Hw Hlv) as [Hsb Hl].
  pose proof (@stream_of_path os w lv Hp) as Hsp.
  destruct (@fileLogWriter_write_step e rt lv s w os Hw Hlv)
    as (res & sb1 & os1 & Hc & Hsb1 & Hl1 & Hcase).
  assert (Hp1 : stream_path os1 sb1)
    by exact (@checkRotate_path _ _ _ _ _ _ _ Hsb Hsp Hc).
  assert (Hc1 : os_console os1 = os_console os)
    by exact (@checkRotate_console _ _ _ _ _ _ _ Hsb Hc).
  destruct res as [err|].
  - rewrite Hcase in HW. injection HW as <- <-.
    split; [now apply w_wf_set|]. split.
    + apply (@w_paths_set os _ _ _ _ Hp Hext).
      apply (@stream_path_ext os1 _ sb1 sb1); auto. now apply files_ext_same.
    + intros Hco. cbn in Hco.
      rewrite Hc1 in Hco.
      apply (f_equal (@List.length string)) in Hco.
      rewrite length_app in Hco. cbn in Hco. lia.
  - destruct Hcase as (n & werr & sb2 & evs & HWr & Hres).
    rewrite Hres in HW. injection HW as <- <-.
    destruct (@bufferWriter_Write_fields _ _ _ _ _ _ _ _ HWr)
      as (_ & _ & b & b' & Hb & Hwr & Hsb2).
    pose proof HWr as HWr0. rewrite Hsb2 in *. clear Hsb2.
    assert (Hwf2 : sb_wf (with_buffer sb1 b' (uint64_add (nbytes sb1) n))).
    { destruct Hsb1 as [Hlev Hm]. split; [exact Hlev|]. cbn.
      rewrite Hb in Hm. destruct (file sb1); [congruence|contradiction]. }
    assert (Hp2 : stream_path (add_trace os1 evs)
                    (with_buffer sb1 b' (uint64_add (nbytes sb1) n))).
    { apply (@stream_path_ext os1 _ sb1 _); auto. now apply files_ext_same. }
    split; [now apply w_wf_set|].
    split; [exact (@w_paths_set os _ _ _ _ Hp Hext Hp2)|].
    intros _.
    destruct (@checkRotate_ok_state _ _ _ _ _ _ Hsb Hc)
      as ((f & b0 & Hf & Hb0 & Hwr0) & Hd & Hh & _).
    assert (b0 = b) by congruence. subst b0.
    unfold stream_path in Hp2. cbn [file with_buffer set_nbytes set_Writer] in Hp2.
    rewrite Hf in Hp2. destruct Hp2 as (lname & o & Hln & Ho & Hpath).
    unfold with_buffer in Hln, Hpath.
    cbn [sb_level sb_basePath sb_logName stime slot set_nbytes set_Writer]
      in Hln, Hpath.
    assert (Hevs : Forall (fun ev => exists data, ev = EWrite f data) evs).
    { destruct (@bufferWriter_Write_wf e sb1 (line_of rt lv s) os1 b Hsb1 Hb)
        as (n' & err' & sb'' & evs' & HWr' & _ & _ & _ & _ & _ & _ & HF).
      rewrite HWr' in HWr0. injection HWr0 as _ _ _ Het.
      apply app_inv_head in Het. subst evs'. now rewrite Hwr0 in HF. }
    exists sb1, os1, b, n, werr, evs,
      (with_buffer sb1 b' (uint64_add (nbytes sb1) n)), f, b', o, lname.
    cbn [writers set_writers]. rewrite array_set_same by exact Hin.
    split; [exact Hc|]. split; [exact Hb|]. split; [exact Hwr0|].
    split; [exact HWr0|]. split; [reflexivity|]. split; [exact Hevs|].
    split; [reflexivity|]. split; [exact Hf|]. split; [reflexivity|].
    split; [congruence|]. split; [congruence|]. split; [exact Ho|].
    split.
    + rewrite Hpath. unfold with_buffer.
      cbn [sb_level sb_basePath sb_logName stime slot set_nbytes set_Writer].
      now rewrite (@logDir_date _ _ _ _ Hd), (@logFile_hour lname _ _ _ Hh).
    + intros Hh1.
      destruct (@bufio_Write_healthy e b (line_of rt lv s) os1 Hh1)
        as (b2 & evs2 & HB & _ & _ & _ & Hcons & _).
      revert HWr0. unfold bufferWriter_Write. rewrite Hb. unfold bind.
      rewrite HB. munfold. intros E. injection E as En Ew Eb2 _ Et.
      apply app_inv_head in Et. subst evs2 b2 n werr.
      rewrite Hwr0 in Hcons.
      split; [reflexivity|]. split; [reflexivity|]. split; [exact Hcons|].
      reflexivity.
Qed.

Lemma newFileLog_paths (name base : string) (os : OS) :
  w_paths os (newFileLog name base).
Proof.
  intros i sb H. cbn in H.
  do 6 (destruct i as [|i]; [discriminate|]). now destruct i.
Qed.

Lemma write_lands_in_current_hour_witness :
  exists w' os' o sb' b evs,
    fileLogWriter_write env_ok rt0 LevelInfo "hello" (newFileLog "app" "/data") os0
    = (Ret w', os') /\
    nth_error (os_files os') 0 = Some o /\
    of_path o = "/data/logs/app/202401/05/info-07.log" /\
    nth_error (writers w') 2 = Some (Some sb') /\ Writer sb' = Some b /\
    written 0%nat evs ++ bw_buf b = line_of rt0 LevelInfo "hello".
Proof.
  destruct (fileLogWriter_write env_ok rt0 LevelInfo "hello"
              (newFileLog "app" "/data") os0) as [[w'|m] os'] eqn:E;
    [|vm_compute in E; discriminate].
  destruct (@write_lands_in_current_hour env_ok rt0 LevelInfo "hello"
              (newFileLog "app" "/data") w' os0 os')
    as (_ & _ & H).
  - apply newFileLog_wf.
  - apply newFileLog_paths.
  - reflexivity.
  - exact E.
  - destruct H as (sb1 & o1 & b1 & n & werr & evs & sb' & f & b & o & lname
                   & Hc & Hb1 & Hw1 & _ & _ & _ & Hn & Hf & Hb & _ & Hl & Ho
                   & Hp & Hh).
    + vm_compute in E. now injection E as _ <-.
    + exists w', os', o, sb', b, evs. split; [reflexivity|].
      vm_compute in Hc. injection Hc as <- <-.
      cbn in Hb1. injection Hb1 as <-. cbn in Hw1. subst f.
      destruct Hh as (_ & _ & Hcons & _); [repeat split|].
      vm_compute in E. injection E as <- <-.
      cbn in Hn. injection Hn as <-.
      injection Hl as <-. split; [exact Ho|].
      split; [rewrite Hp; reflexivity|].
      split; [reflexivity|]. split; [exact Hb | exact Hcons].
Defined.

(** X4: a [write] that prints no error leaves the byte count [nbytes] of
    its stream below the threshold plus the length of the line it assembled:
    [Write] is only called on a stream that the rotation check found below
    [MaxSize], and the count can grow by no more than the line (lines shorter
    than 2^64 - MaxSize, so that the 64-bit counter does not wrap).  The
    count is of the bytes accepted since the handle was opened and starts at
    0 with every rotation; the bound is on that count, not on the size of
    the file, which is opened for appending and may hold bytes from
    before. *)
Theorem write_size_overshoot (e : Env) (rt : Runtime) (lv : Level)
    (s : string) (w w' : fileLogWriter) (os os' : OS) :
  w_wf w -> (lv < 6)%N ->
  (len (line_of rt lv s) < 2 ^ 64 - MaxSize)%N ->
  fileLogWriter_write e rt lv s w os = (Ret w', os') ->
  os_console os' = os_console os ->
  exists sb',
    nth_error (writers w') (N.to_nat lv) = Some (Some sb') /\
    (nbytes sb' < MaxSize + len (line_of rt lv s))%N.
Proof.
  intros Hw Hlv Hlen HW Hco.
  assert (Hin : (N.to_nat lv < List.length (writers w))%nat)
    by (destruct Hw as [-> _]; lia).
  destruct (stream_of_wf Hw Hlv) as [Hsb _].
  destruct (@fileLogWriter_write_ok e rt lv s w w' os os' Hw Hlv HW Hco)
    as (sb1 & os1 & n & werr & sb2 & evs & Hc & _ & _ & HWr & -> & _).
  destruct (@checkRotate_ok_state _ _ _ _ _ _ Hsb Hc) as (_ & _ & _ & Hn1).
  destruct (@bufferWriter_Write_fields _ _ _ _ _ _ _ _ HWr)
    as (Hn & _ & b & b' & _ & _ & ->).
  exists (with_buffer sb1 b' (uint64_add (nbytes sb1) n)).
  cbn [writers set_writers]. rewrite array_set_same by exact Hin.
  split; [reflexivity|]. unfold with_buffer. cbn [nbytes set_nbytes].
  unfold uint64_add.
  assert (H64 : (2 ^ 64 = 18446744073709551616)%N) by reflexivity.
  unfold MaxSize in *. rewrite N.mod_small by lia. lia.
Qed.

Lemma write_size_overshoot_witness :
  exists w' os' sb',
    fileLogWriter_write env_ok rt0 LevelInfo "hello" w_open os1 = (Ret w', os') /\
    nth_error (writers w') 2 = Some (Some sb') /\
    (nbytes sb' < MaxSize + len (line_of rt0 LevelInfo "hello"))%N.
Proof.
  destruct (fileLogWriter_write env_ok rt0 LevelInfo "hello" w_open os1)
    as [[w'|m] os'] eqn:E; [|vm_compute in E; discriminate].
  destruct (@write_size_overshoot env_ok rt0 LevelInfo "hello" w_open w' os1 os')
    as (sb' & Hn & Hb).
  - split; [reflexivity|]. intros i sb Hi. cbn in Hi.
    do 2 (destruct i as [|i]; [discriminate|]).
    destruct i as [|i];
      [injection Hi as <-; repeat split; try reflexivity|].
    do 3 (destruct i as [|i]; [discriminate|]). now destruct i.
  - reflexivity.
  - reflexivity.
  - exact E.
  - vm_compute in E. now injection E as _ <-.
  - exists w', os', sb'. split; [reflexivity|]. split; [exact Hn|exact Hb].
Defined.

(* ================================================================= *)
(** ** Records of one hour, in the order of the calls *)

Lemma len_app (a b : string) : len (a ++ b) = (len a + len b)%N.
Proof. unfold len. rewrite length_append. lia. Qed.

Lemma writes_in_order_aux (lv : Level) (f : fd) (os : OS)
    (rs : list (Env * Runtime * string)) :
  (lv < 6)%N ->
  forall (w : fileLogWriter) (b : bufioWriter),
    (N.to_nat lv < List.length (writers w))%nat ->
    file (stream_of w lv) = Some f -> Writer (stream_of w lv) = Some b ->
    bw_err b = None ->
    Forall (in_hour_of (stream_of w lv)) rs ->
    (nbytes (stream_of w lv) + len (lines_of lv rs) < MaxSize)%N ->
    (len (bw_buf b) + len (lines_of lv rs) <= bw_size b)%N ->
    exists w' b',
      calls (writes lv rs) w os = (Ret w', os) /\
      List.length (writers w') = List.length (writers w) /\
      file (stream_of w' lv) = Some f /\ Writer (stream_of w' lv) = Some b' /\
      bw_err b' = None /\ bw_buf b' = bw_buf b ++ lines_of lv rs /\
      bw_size b' = bw_size b /\ bw_wr b' = bw_wr b /\
      nbytes (stream_of w' lv) =
        (nbytes (stream_of w lv) + len (lines_of lv rs))%N /\
      stime (stream_of w' lv) = stime (stream_of w lv) /\
      slot (stream_of w' lv) = slot (stream_of w lv) /\
      forall i, i <> N.to_nat lv ->
        nth_error (writers w') i = nth_error (writers w) i.
Proof.
  intros Hlv. induction rs as [|[[e rt] s] rs IH];
    intros w b Hin Hf Hw Herr Hall Hn Hcap.
  - exists w, b. cbn. rewrite append_nil_r, N.add_0_r. repeat split; auto.
  - inversion Hall as [|? ? [Hd Hh] Hall']; subst. cbn [fst snd] in Hd, Hh.
    cbn [lines_of fst snd] in Hn, Hcap |- *. rewrite len_app in Hn, Hcap.
    set (line := line_of rt lv s) in *.
    set (sb := stream_of w lv) in *.
    assert (Hfit : (len line <= Available b)%N) by (unfold Available; lia).
    assert (Hn0 : (nbytes sb < MaxSize)%N) by lia.
    pose proof (@fileLogWriter_write_buffered e rt lv s w os f b
                  Hlv Hf Hw Herr Hd Hh Hn0 Hfit) as HW.
    fold sb line in HW.
    set (b1 := mkBufio (bw_wr b) (bw_size b) (bw_buf b ++ line) None) in *.
    set (sb1 := with_buffer sb b1 (uint64_add (nbytes sb) (len line))) in *.
    set (w1 := set_writers w (array_set (writers w) (N.to_nat lv) (Some sb1))) in *.
    assert (Hs1 : stream_of w1 lv = sb1) by now apply stream_of_set.
    assert (Hadd : uint64_add (nbytes sb) (len line) = (nbytes sb + len line)%N).
    { unfold uint64_add. apply N.mod_small.
      assert (H64 : (2 ^ 64 = 18446744073709551616)%N) by reflexivity.
      unfold MaxSize in *. lia. }
    destruct (IH w1 b1) as (w' & b' & HC & Hlen & Hf' & Hw' & Herr' & Hbuf'
                            & Hsz' & Hwr' & Hn' & Hst' & Hsl' & Hoth).
    + unfold w1. cbn. now rewrite array_set_length.
    + now rewrite Hs1.
    + now rewrite Hs1.
    + reflexivity.
    + rewrite Hs1. exact Hall'.
    + rewrite Hs1. unfold sb1, with_buffer. cbn [nbytes set_nbytes].
      rewrite Hadd. lia.
    + unfold b1. cbn [bw_buf bw_size]. rewrite len_app. lia.
    + exists w', b'. cbn [writes map calls call fst snd].
      fold (writes lv rs). unfold bind. rewrite HW.
      split; [exact HC|]. rewrite Hs1 in *.
      unfold w1 in Hlen. cbn in Hlen. rewrite array_set_length in Hlen.
      split; [exact Hlen|]. split; [exact Hf'|]. split; [exact Hw'|].
      split; [exact Herr'|]. split.
      { rewrite Hbuf'. unfold b1. cbn [bw_buf]. now rewrite append_assoc. }
      split; [exact Hsz'|]. split; [exact Hwr'|]. split.
      { rewrite Hn', len_app. unfold sb1, with_buffer. cbn [nbytes set_nbytes].
        rewrite Hadd. lia. }
      split; [exact Hst'|]. split; [exact Hsl'|].
      intros i Hi. rewrite Hoth by exact Hi. unfold w1. cbn.
      apply array_set_other. congruence.
Qed.

(** X5: records written one after the other to a level whose stream is
    open in their date and hour, all staying below the size threshold and
    within the room of the buffer, make no system call; the buffer then holds
    what it held followed by their lines in the order of the calls, [nbytes]
    has grown by the total length, and the other streams are untouched. *)
Theorem writes_in_call_order (lv : Level) (f : fd) (os : OS)
    (rs : list (Env * Runtime * string)) (w : fileLogWriter) (b : bufioWriter) :
  (lv < 6)%N -> (N.to_nat lv < List.length (writers w))%nat ->
  file (stream_of w lv) = Some f -> Writer (stream_of w lv) = Some b ->
  bw_err b = None ->
  Forall (in_hour_of (stream_of w lv)) rs ->
  (nbytes (stream_of w lv) + len (lines_of lv rs) < MaxSize)%N ->
  (len (bw_buf b) + len (lines_of lv rs) <= bw_size b)%N ->
  exists w' b',
    calls (writes lv rs) w os = (Ret w', os) /\
    Writer (stream_of w' lv) = Some b' /\
    bw_buf b' = bw_buf b ++ lines_of lv rs /\
    nbytes (stream_of w' lv) = (nbytes (stream_of w lv) + len (lines_of lv rs))%N /\
    file (stream_of w' lv) = Some f /\
    forall i, i <> N.to_nat lv ->
      nth_error (writers w') i = nth_error (writers w) i.
Proof.
  intros Hlv Hin Hf Hw Herr Hall Hn Hcap.
  destruct (@writes_in_order_aux lv f os rs Hlv w b Hin Hf Hw Herr Hall Hn Hcap)
    as (w' & b' & HC & _ & Hf' & Hw' & _ & Hbuf & _ & _ & Hn' & _ & _ & Hoth).
  exists w', b'. auto 8.
Qed.

Lemma writes_in_call_order_witness :
  exists w' b',
    calls (writes LevelInfo [(env_nodir, rt0, "one"); (env_ok, rt0, "two")])
      w_open os1 = (Ret w', os1) /\
    Writer (stream_of w' LevelInfo) = Some b' /\
    bw_buf b' =
      "pending" ++ line_of rt0 LevelInfo "one" ++ line_of rt0 LevelInfo "two".
Proof.
  destruct (@writes_in_call_order LevelInfo 0%nat os1
              [(env_nodir, rt0, "one"); (env_ok, rt0, "two")] w_open
              (mkBufio 0%nat bufferSize "pending" None))
    as (w' & b' & HC & Hw & Hb & _); try reflexivity.
  - cbn. lia.
  - repeat constructor.
  - vm_compute. discriminate.
  - exists w', b'. split; [exact HC|]. split; [exact Hw|].
    rewrite Hb. cbn [lines_of fst snd]. now rewrite append_nil_r.
Defined.

(* ================================================================= *)
(** ** Histories of calls *)

Lemma flushAll_loop_streams (e : Env) (ws ws' : list (option bufferWriter))
    (os os' : OS) :
  flushAll_loop e ws os = (Ret ws', os') ->
  Forall2 (fun o o' =>
             match o, o' with
             | Some sb, Some sb' => sb' = set_Writer sb (Writer sb')
             | None, None => True
             | _, _ => False
             end) ws ws'.
Proof.
  revert ws' os os'. induction ws as [|o ws IH]; intros ws' os os' H.
  - injection H as <- _. constructor.
  - cbn [flushAll_loop] in H. unfold bind at 1 in H.
    match type of H with
    | context [match ?m os with _ => _ end] =>
        destruct (m os) as [[o'|msg] os1] eqn:Eh; [|discriminate]
    end.
    unfold bind in H.
    destruct (flushAll_loop e ws os1) as [[ws1|msg] os2] eqn:Et; [|discriminate].
    injection H as <- <-. constructor; [|eapply IH, Et].
    destruct o as [sb|].
    + destruct (Writer sb) as [b|] eqn:Hb.
      * unfold bind at 1 in Eh.
        destruct (Flush e b os) as [[r|msg] os3]; [|discriminate].
        unfold bind in Eh.
        destruct (bufferWriter_Sync e sb os3) as [[r'|msg] os4]; [|discriminate].
        injection Eh as <- _. reflexivity.
      * injection Eh as <- _. destruct sb. cbn in *. now subst.
    + injection Eh as <- _. exact I.
Qed.

(** One [write] keeps the invariants of the writer and prints at most the
    report of a failed rotation. *)
Lemma fileLogWriter_write_invariants (e : Env) (rt : Runtime) (lv : Level)
    (s : string) (w : fileLogWriter) (os : OS) :
  w_wf w -> w_paths os w -> (lv < 6)%N ->
  exists w' os' errs,
    fileLogWriter_write e rt lv s w os = (Ret w', os') /\
    w_wf w' /\ w_paths os' w' /\ files_ext os os' /\
    os_console os' = (os_console os ++ map rotate_report errs)%list /\
    (List.length errs <= 1)%nat.
Proof.
  intros Hw Hp Hlv.
  destruct (stream_of_wf Hw Hlv) as [Hsb Hl].
  pose proof (@stream_of_path os w lv Hp) as Hsp.
  destruct (@fileLogWriter_write_step e rt lv s w os Hw Hlv)
    as (res & sb1 & os1 & Hc & Hsb1 & Hl1 & Hcase).
  assert (Hp1 : stream_path os1 sb1)
    by exact (@checkRotate_path _ _ _ _ _ _ _ Hsb Hsp Hc).
  assert (Hc1 : os_console os1 = os_console os)
    by exact (@checkRotate_console _ _ _ _ _ _ _ Hsb Hc).
  destruct res as [err|].
  - do 2 eexists. exists [err]. split; [exact Hcase|].
    assert (Hext : files_ext os
              (mkOS (os_files os1) (os_trace os1)
                 (os_console os1 ++ [("[logtool] check rotate err: " ++ err)%string])))
      by exact (@keeps_fileLogWriter_write _ _ _ _ _ _ _ _ Hcase).
    split; [now apply w_wf_set|]. split.
    { apply (@w_paths_set os _ _ _ _ Hp Hext).
      apply (@stream_path_ext os1 _ sb1 sb1); auto. now apply files_ext_same. }
    split; [exact Hext|]. split; [cbn; now rewrite Hc1|cbn; lia].
  - destruct Hcase as (n & werr & sb2 & evs & HWr & Hres).
    do 2 eexists. exists []. split; [exact Hres|].
    assert (Hext : files_ext os (add_trace os1 evs))
      by exact (@keeps_fileLogWriter_write _ _ _ _ _ _ _ _ Hres).
    destruct (@bufferWriter_Write_fields _ _ _ _ _ _ _ _ HWr)
      as (_ & _ & b & b' & Hb & Hwr & ->).
    assert (Hwf2 : sb_wf (with_buffer sb1 b' (uint64_add (nbytes sb1) n))).
    { destruct Hsb1 as [Hlev Hm]. split; [exact Hlev|]. cbn.
      rewrite Hb in Hm. destruct (file sb1); [congruence|contradiction]. }
    assert (Hp2 : stream_path (add_trace os1 evs)
                    (with_buffer sb1 b' (uint64_add (nbytes sb1) n))).
    { apply (@stream_path_ext os1 _ sb1 _); auto. now apply files_ext_same. }
    split; [now apply w_wf_set|].
    split; [exact (@w_paths_set os _ _ _ _ Hp Hext Hp2)|].
    split; [exact Hext|]. split; [cbn; now rewrite app_nil_r|cbn; lia].
Qed.

Lemma flushAll_invariants (e : Env) (w : fileLogWriter) (os : OS) :
  w_wf w -> w_paths os w ->
  exists w' os',
    flushAll e w os = (Ret w', os') /\ w_wf w' /\ w_paths os' w' /\
    files_ext os os' /\ os_console os' = os_console os.
Proof.
  intros Hw Hp.
  destruct (flushAll_loop_spec e (writers w) os) as (ws' & Hl & HF2).
  pose proof (flushAll_loop_streams _ _ _ Hl) as HS.
  assert (HF : flushAll e w os =
               (Ret (set_writers w ws'),
                add_trace os (flat_map flushAll_events (writers w))))
    by (unfold flushAll, bind; now rewrite Hl).
  do 2 eexists. split; [exact HF|].
  assert (Hext : files_ext os (add_trace os (flat_map flushAll_events (writers w))))
    by now apply files_ext_same.
  split; [|split; [|split; [exact Hext|reflexivity]]].
  - destruct Hw as [Hlen Hw]. split.
    + cbn. now rewrite <- (Forall2_length HF2).
    + cbn [writers set_writers]. intros i sb Hi.
      destruct (Forall2_nth_error _ HF2 Hi) as (o & Ho & Hrel).
      destruct o as [sb0|]; [|contradiction].
      destruct (Hw _ _ Ho) as [Hwf Hidx].
      destruct Hrel as (_ & _ & _ & _ & Hlevel & Hkeep).
      split; [now apply Hkeep|now rewrite Hlevel].
  - intros i sb Hi. cbn [writers set_writers] in Hi.
    destruct (Forall2_nth_error _ HS Hi) as (o & Ho & Hrel).
    destruct o as [sb0|]; [|contradiction]. rewrite Hrel.
    apply (@stream_path_ext os _ sb0 _); auto. eapply Hp, Ho.
Qed.

(** X6: whatever the environment does, a history of calls on a writer as
    the code builds it, each a [write] with one of the six levels or a
    [flushAll], returns without a panic and leaves the writer well formed
    with every stream on the path of its own opening time and slot; handles
    keep their paths; and the console receives nothing but reports of failed
    rotations, at most one for each call. *)
Theorem calls_never_panic (cs : list Call) (w : fileLogWriter) (os : OS) :
  Forall call_ok cs -> w_wf w -> w_paths os w ->
  exists w' os' errs,
    calls cs w os = (Ret w', os') /\ w_wf w' /\ w_paths os' w' /\
    files_ext os os' /\
    os_console os' = (os_console os ++ map rotate_report errs)%list /\
    (List.length errs <= List.length cs)%nat.
Proof.
  revert w os. induction cs as [|c cs IH]; intros w os Hok Hw Hp.
  - exists w, os, []. cbn. rewrite app_nil_r.
    split; [reflexivity|]. split; [exact Hw|]. split; [exact Hp|].
    split; [apply files_ext_refl|]. split; [reflexivity|lia].
  - inversion Hok as [|? ? Hc Hcs]; subst.
    assert (Hstep : exists w1 os1 errs1,
              call c w os = (Ret w1, os1) /\ w_wf w1 /\ w_paths os1 w1 /\
              files_ext os os1 /\
              os_console os1 = (os_console os ++ map rotate_report errs1)%list /\
              (List.length errs1 <= 1)%nat).
    { destruct c as [e rt lv s|e]; cbn [call call_ok] in *.
      - now apply fileLogWriter_write_invariants.
      - destruct (flushAll_invariants e Hw Hp)
          as (w1 & os1 & HF & Hw1 & Hp1 & Hext & Hco).
        exists w1, os1, []. cbn. rewrite app_nil_r. auto 8. }
    destruct Hstep as (w1 & os1 & errs1 & H1 & Hw1 & Hp1 & Hext1 & Hco1 & Hn1).
    destruct (IH w1 os1 Hcs Hw1 Hp1)
      as (w' & os' & errs & HC & Hw' & Hp' & Hext & Hco & Hn).
    exists w', os', (errs1 ++ errs)%list.
    cbn [calls]. unfold bind. rewrite H1.
    split; [exact HC|]. split; [exact Hw'|]. split; [exact Hp'|].
    split; [eapply files_ext_trans; eassumption|]. split.
    + rewrite Hco, Hco1, map_app, app_assoc. reflexivity.
    + rewrite length_app. cbn. lia.
Qed.

Lemma calls_never_panic_witness :
  exists w' os' errs,
    calls [CallWrite env_nodir rt0 LevelInfo "a"; CallFlush env_nosync;
           CallWrite env_ok rt8 LevelError "b"]
      (newFileLog "app" "/data") os0 = (Ret w', os') /\
    os_console os' = map rotate_report errs.
Proof.
  destruct (@calls_never_panic
              [CallWrite env_nodir rt0 LevelInfo "a"; CallFlush env_nosync;
               CallWrite env_ok rt8 LevelError "b"]
              (newFileLog "app" "/data") os0)
    as (w' & os' & errs & HC & _ & _ & _ & Hco & _).
  - repeat constructor.
  - apply newFileLog_wf.
  - apply newFileLog_paths.
  - exists w', os', errs. split; [exact HC|exact Hco].
Defined.

(* ================================================================= *)
(** ** What a flush leaves, and what reaches the file *)

Lemma flushAll_loop_flushed (e : Env) (ws ws' : list (option bufferWriter))
    (os os' : OS) :
  flushAll_loop e ws os = (Ret ws', os') ->
  Forall2 (fun o o' =>
             match o, o' with
             | Some sb, Some sb' =>
                 match Writer sb with
                 | Some _ =>
                     exists b', sb' = set_Writer sb (Some b') /\
                                flush_events b' = []
                 | None => sb' = sb
                 end
             | None, None => True
             | _, _ => False
             end) ws ws'.
Proof.
  revert ws' os os'. induction ws as [|o ws IH]; intros ws' os os' H.
  - injection H as <- _. constructor.
  - cbn [flushAll_loop] in H. unfold bind at 1 in H.
    match type of H with
    | context [match ?m os with _ => _ end] =>
        destruct (m os) as [[o'|msg] os1] eqn:Eh; [|discriminate]
    end.
    unfold bind in H.
    destruct (flushAll_loop e ws os1) as [[ws1|msg] os2] eqn:Et; [|discriminate].
    injection H as <- <-. constructor; [|eapply IH, Et].
    destruct o as [sb|].
    + destruct (Writer sb) as [b|] eqn:Hb.
      * unfold bind at 1 in Eh.
        destruct (Flush_spec e b os) as (ferr & b1 & HF & _ & _ & Hfl & _).
        rewrite HF in Eh. unfold bind in Eh.
        destruct (bufferWriter_Sync e sb _) as [[r'|msg] os4]; [|discriminate].
        injection Eh as <- _. cbn [snd]. eauto.
      * injection Eh as <- _. reflexivity.
    + injection Eh as <- _. exact I.
Qed.

(** X7: a [flushAll] leaves nothing to flush: whatever failed in it, a
    [flushAll] that follows it hands no byte to any file; its system calls
    are the [Sync] of each stream that has a buffered writer and a file, and
    nothing else. *)
Theorem flushAll_leaves_nothing_to_flush (e e2 : Env) (w : fileLogWriter)
    (os : OS) :
  exists w' os' w2,
    flushAll e w os = (Ret w', os') /\
    flushAll e2 w' os' =
      (Ret w2,
       add_trace os'
         (flat_map (fun o =>
                      match o with
                      | Some sb =>
                          match Writer sb, file sb with
                          | Some _, Some f => [ESync f]
                          | _, _ => []
                          end
                      | None => []
                      end) (writers w))).
Proof.
  destruct (flushAll_loop_spec e (writers w) os) as (ws' & Hl & HF2).
  pose proof (flushAll_loop_flushed _ _ _ Hl) as HS.
  destruct (flushAll_loop_spec e2 ws'
              (add_trace os (flat_map flushAll_events (writers w))))
    as (ws2 & Hl2 & _).
  exists (set_writers w ws'). do 2 eexists.
  split; [unfold flushAll, bind; rewrite Hl; reflexivity|].
  unfold flushAll, bind. cbn [writers set_writers]. rewrite Hl2. munfold.
  do 2 f_equal.
  clear -HS. induction HS as [|o o' ws ws' Hrel HS IH]; [reflexivity|].
  cbn [flat_map]. rewrite IH. f_equal.
  destruct o as [sb|], o' as [sb'|]; try contradiction; [|reflexivity].
  cbn [flushAll_events].
  destruct (Writer sb) as [b|] eqn:Hb.
  - destruct Hrel as (b' & -> & Hfl). cbn [Writer set_Writer file].
    rewrite Hfl. reflexivity.
  - subst sb'. rewrite Hb. reflexivity.
Qed.

Lemma nth_repeat_None {A : Type} (n k : nat) :
  nth k (repeat (@None A) n) None = None.
Proof.
  revert k. induction n as [|n IH]; intros [|k]; cbn; auto.
Qed.

Lemma flushAll_loop_single (e : Env) (sb : bufferWriter) (n k : nat) (os : OS) :
  (k < n)%nat ->
  flushAll_loop e (array_set (repeat None n) k (Some sb)) os =
  match flushAll_loop e [Some sb] os with
  | (Ret l, os') => (Ret (array_set (repeat None n) k (hd None l)), os')
  | (Panic msg, os') => (Panic msg, os')
  end.
Proof.
  revert k os. induction n as [|n IH]; intros k os Hk; [lia|].
  destruct k as [|k].
  - cbn [repeat array_set flushAll_loop].
    assert (Hnone : forall os0, flushAll_loop e (repeat None n) os0
                                = (Ret (repeat None n), os0)).
    { clear. induction n as [|n IH]; intros os0; [reflexivity|].
      cbn [repeat flushAll_loop]. unfold bind at 1. unfold ret at 1.
      unfold bind. rewrite IH. reflexivity. }
    destruct (Writer sb) as [b|].
    + unfold bind, ret.
      destruct (Flush e b os) as [[r|msg] os1]; [|reflexivity].
      destruct (bufferWriter_Sync e sb os1) as [[r2|msg] os2]; [|reflexivity].
      rewrite Hnone. reflexivity.
    + unfold bind, ret. rewrite Hnone. reflexivity.
  - cbn [repeat array_set].
    change (flushAll_loop e (None :: array_set (repeat None n) k (Some sb)) os)
      with ((w' <- ret None ;;
             rest' <- flushAll_loop e (array_set (repeat None n) k (Some sb)) ;;
             ret (w' :: rest')) os).
    unfold bind at 1. unfold ret at 1. unfold bind at 1.
    rewrite IH by lia.
    destruct (flushAll_loop e [Some sb] os) as [[l|msg] os1]; reflexivity.
Qed.

Lemma Flush_healthy_events (e : Env) (b : bufioWriter) (os : OS) :
  healthy e os b ->
  Flush e b os =
  (Ret (None, mkBufio (bw_wr b) (bw_size b) "" None),
   add_trace os (flush_events b)).
Proof.
  intros Hh. pose proof Hh as (He & _ & _). unfold flush_events. rewrite He.
  destruct (String.eqb (bw_buf b) "") eqn:Hb.
  - apply String.eqb_eq in Hb. rewrite add_trace_nil.
    rewrite (Flush_empty e b os He Hb). destruct b; cbn in *. now subst.
  - apply Flush_healthy; [exact Hh | now apply eqb_empty].
Qed.

Lemma first_write_exit_trace (e : Env) (rt : Runtime) (lv : Level)
    (s name base lname : string) (os : OS) :
  let dir := logDir base name (rt_now rt) in
  let path := Join dir (logFile lname 0 (rt_now rt)) in
  let nf := List.length (os_files os) in
  index_level levelName lv = Some lname ->
  mkdir_err e dir = None -> open_err e path = None -> write_err e nf = None ->
  exists w1 os1 w2,
    fileLogWriter_write e rt lv s (newFileLog name base) os = (Ret w1, os1) /\
    exit e w1 os1 =
      (Ret w2,
       mkOS (os_files os ++ [mkOFile path true])
            (os_trace os ++
             [EMkdirAll dir; EOpenFile path; EWrite nf (line_of rt lv s);
              ESync nf])
            (os_console os)) /\
    Writer (stream_of w2 lv) = Some (mkBufio nf bufferSize "" None).
Proof.
  intros dir path nf Hname Hmk Hop Hwr.
  assert (Hk : (N.to_nat lv < 6)%nat).
  { apply (nth_error_Some levelName). unfold index_level in Hname.
    rewrite Hname. discriminate. }
  assert (Hlv : (lv < 6)%N) by lia.
  set (line := line_of rt lv s).
  set (os1 := mkOS (os_files os ++ [mkOFile path true])
                   (os_trace os ++ [EMkdirAll dir; EOpenFile path])
                   (os_console os)).
  assert (Hopen : is_open os1 nf = true).
  { unfold is_open, os1. cbn [os_files].
    rewrite nth_error_app2 by (unfold nf; lia). unfold nf.
    rewrite Nat.sub_diag. reflexivity. }
  set (sb0 := mkBufferWriter None base name None lv zeroTime 0 0%N).
  set (sb1 := mkBufferWriter (Some (NewWriterSize nf bufferSize)) base name
                (Some nf) lv (rt_now rt) 0 0%N).
  assert (Hrot : checkRotate e (rt_now rt) sb0 os = (Ret (None, sb1), os1)).
  { rewrite checkRotate_due. cbn [rotation_due file sb0].
    rewrite rotateFile_closed by reflexivity.
    cbn [sb_basePath sb_logName sb_level sb0].
    rewrite (@createFile_spec e base name lv 0 (rt_now rt) os lname Hname).
    fold dir. fold path. rewrite Hmk, Hop. reflexivity. }
  assert (Hne : line <> ""%string).
  { unfold line, line_of. intros Habs.
    apply (f_equal String.length) in Habs.
    rewrite !length_append in Habs. cbn [String.length] in Habs.
    destruct s as [|c s']; [cbn in Habs; lia|].
    cbn [String.length] in Habs. lia. }
  assert (Hexit : forall b2 n2 evs,
             healthy e (add_trace os1 evs) b2 -> bw_wr b2 = nf ->
             bw_size b2 = bufferSize ->
             (evs ++ flush_events b2 = [EWrite nf line])%list ->
             let w1 := set_writers (newFileLog name base)
                         (array_set (writers (newFileLog name base))
                            (N.to_nat lv) (Some (with_buffer sb1 b2 n2))) in
             exists w2,
               exit e w1 (add_trace os1 evs) =
               (Ret w2, add_trace os1 [EWrite nf line; ESync nf]) /\
               Writer (stream_of w2 lv) =
               Some (mkBufio nf bufferSize "" None)).
  { intros b2 n2 evs Hh Hwr2 Hsz Hev w1.
    unfold exit, flushAll, w1. cbn [writers set_writers newFileLog].
    unfold bind at 1. rewrite flushAll_loop_single by exact Hk.
    cbn [flushAll_loop]. unfold with_buffer at 1.
    cbn [Writer set_Writer set_nbytes].
    unfold bind. rewrite (Flush_healthy_events Hh).
    rewrite add_trace_app, Hev.
    unfold bufferWriter_Sync, with_buffer at 1.
    cbn [file set_nbytes set_Writer sb1].
    unfold File_Sync. munfold.
    match goal with
    | |- context [is_open ?o nf] =>
        change (is_open o nf) with (is_open os1 nf); rewrite Hopen
    end.
    cbn [hd]. eexists. split.
    - unfold add_trace. cbn [os_files os_trace os_console].
      rewrite <- app_assoc. reflexivity.
    - unfold stream_of. cbn [writers set_writers].
      erewrite nth_error_nth
        by (apply array_set_same; rewrite repeat_length; exact Hk).
      cbn [Writer set_Writer]. now rewrite Hwr2, Hsz. }
  assert (Hw : forall b2 evs,
             bufio_Write e (NewWriterSize nf bufferSize) line os1 =
             (Ret (len line, None, b2), add_trace os1 evs) ->
             fileLogWriter_write e rt lv s (newFileLog name base) os =
             (Ret (set_writers (newFileLog name base)
                     (array_set (writers (newFileLog name base))
                        (N.to_nat lv)
                        (Some (with_buffer sb1 b2 (uint64_add 0 (len line)))))),
              add_trace os1 evs)).
  { intros b2 evs Hb. unfold fileLogWriter_write.
    rewrite assemble_line_of. fold line.
    apply N.ltb_lt in Hlv. rewrite Hlv. cbn [negb].
    cbn [newFileLog writers w_basePath w_logName].
    rewrite nth_repeat_None. fold sb0.
    unfold bind at 1. rewrite Hrot. cbn [fst snd].
    unfold bufferWriter_Write. cbn [Writer sb1].
    unfold bind. rewrite Hb. reflexivity. }
  destruct (N.leb_spec (len line) bufferSize) as [Hfit|Hbig].
  - (* the line fits the buffer: written by the flush of [exit] *)
    set (b2 := mkBufio nf bufferSize line None).
    assert (Hb : bufio_Write e (NewWriterSize nf bufferSize) line os1 =
                 (Ret (len line, None, b2), add_trace os1 [])).
    { unfold bufio_Write, NewWriterSize, Available.
      cbn [bw_err bw_size bw_buf bw_wr]. change (len "") with 0%N.
      rewrite N.sub_0_r. apply N.leb_le in Hfit. rewrite Hfit.
      rewrite add_trace_nil. reflexivity. }
    destruct (Hexit b2 (uint64_add 0 (len line)) []) as (w2 & Hx & HW);
      [ repeat split; auto | reflexivity | reflexivity | | ].
    + unfold flush_events, b2. cbn [bw_err bw_buf bw_wr app].
      destruct (String.eqb line "") eqn:Hl; [|reflexivity].
      apply String.eqb_eq in Hl. contradiction.
    + do 3 eexists. split; [exact (Hw _ _ Hb)|]. split; [|exact HW].
      rewrite Hx. unfold add_trace, os1. cbn [os_files os_trace os_console].
      rewrite <- app_assoc. reflexivity.
  - (* the line is longer than the buffer: written through at once *)
    set (b2 := mkBufio nf bufferSize "" None).
    assert (Hb : bufio_Write e (NewWriterSize nf bufferSize) line os1 =
                 (Ret (len line, None, b2), add_trace os1 [EWrite nf line])).
    { unfold bufio_Write, NewWriterSize, Available.
      cbn [bw_err bw_size bw_buf bw_wr]. change (len "") with 0%N.
      rewrite N.sub_0_r. apply N.leb_gt in Hbig. rewrite Hbig.
      cbn [String.eqb]. unfold bind.
      rewrite (File_Write_ok e nf line os1 Hopen Hwr). reflexivity. }
    destruct (Hexit b2 (uint64_add 0 (len line)) [EWrite nf line])
      as (w2 & Hx & HW);
      [ repeat split; auto | reflexivity | reflexivity | reflexivity | ].
    do 3 eexists. split; [exact (Hw _ _ Hb)|]. split; [|exact HW].
    rewrite Hx. unfold add_trace, os1. cbn [os_files os_trace os_console].
    rewrite <- app_assoc. reflexivity.
Qed.

(** X8: the first record of a new writer, then [exit], where no system call
    fails: the directory of the hour is made, the file of the level is
    opened, the line is handed to that file whole and in one piece, whether
    it fits the buffer or not, and the file is synced; the buffer is left
    empty and nothing is printed. *)
Theorem first_write_then_exit (e : Env) (rt : Runtime) (lv : Level)
    (s name base lname : string) (os : OS) :
  let dir := logDir base name (rt_now rt) in
  let path := Join dir (logFile lname 0 (rt_now rt)) in
  let nf := List.length (os_files os) in
  index_level levelName lv = Some lname ->
  mkdir_err e dir = None -> open_err e path = None -> write_err e nf = None ->
  exists w1 os1 w2,
    fileLogWriter_write e rt lv s (newFileLog name base) os = (Ret w1, os1) /\
    exit e w1 os1 =
      (Ret w2,
       mkOS (os_files os ++ [mkOFile path true])
            (os_trace os ++
             [EMkdirAll dir; EOpenFile path; EWrite nf (line_of rt lv s);
              ESync nf])
            (os_console os)) /\
    Writer (stream_of w2 lv) = Some (mkBufio nf bufferSize "" None).
Proof. apply first_write_exit_trace. Qed.

Lemma first_write_then_exit_witness :
  exists w1 os1 w2,
    fileLogWriter_write env_ok rt0 LevelInfo "hello" (newFileLog "app" "/data") os0
    = (Ret w1, os1) /\
    os_trace (snd (exit env_ok w1 os1)) =
      [EMkdirAll "/data/logs/app/202401/05";
       EOpenFile "/data/logs/app/202401/05/info-07.log";
       EWrite 0%nat (line_of rt0 LevelInfo "hello"); ESync 0%nat] /\
    Writer (stream_of w2 LevelInfo) = Some (mkBufio 0%nat bufferSize "" None).
Proof.
  destruct (@first_write_then_exit env_ok rt0 LevelInfo "hello" "app" "/data"
              "info" os0)
    as (w1 & o1 & w2 & Hw & Hx & HW); try reflexivity.
  exists w1, o1, w2. split; [exact Hw|]. split; [|exact HW].
  rewrite Hx. reflexivity.
Defined.

(* ================================================================= *)
(** ** The facade: the level flag, the writer's names, [LogWriter] *)

Lemma Level_Set_parsed (l0 lv : Level) (s : string) :
  Level_Set l0 s = (lv, None) ->
  (LevelDebug <= lv <= LevelAction)%N /\ Level_String lv = Some s.
Proof.
  unfold Level_Set, Level_String, index_level, levelName.
  cbn [Level_Set_loop N.eqb levelDefault negb andb N.add Pos.add Pos.succ].
  repeat match goal with
         | |- context [String.eqb ?v s] =>
             destruct (String.eqb v s) eqn:?H
         end;
    cbn; intros E; try discriminate; injection E as <-;
    match goal with
    | H : String.eqb _ s = true |- _ => apply String.eqb_eq in H; subst s
    end; (split; [unfold LevelDebug, LevelAction; lia | reflexivity]).
Qed.

(** X9: once the [-loglevel] flag has been parsed by [Level.Set], the
    effective level is the flag's, one of [debug] to [action], and its name is
    the string that was given; what [SetLevel] or [Init] store later does not
    change it, so the records the entry points let through stay the same. *)
Theorem loglevel_flag_overrides (l0 lv lv' : Level) (s name : string)
    (stdOut : bool) (st st1 st2 : Logtool) (os os2 : OS) :
  Level_Set l0 s = (flagLoglevel st, None) ->
  SetLevel lv st = Ret st1 ->
  Init name lv' stdOut st os = (Ret st2, os2) ->
  level st = flagLoglevel st /\ level st1 = flagLoglevel st /\
  level st2 = flagLoglevel st /\
  (LevelDebug <= flagLoglevel st <= LevelAction)%N /\
  Level_String (flagLoglevel st) = Some s /\
  IsDebug st2 = String.eqb s "debug".
Proof.
  intros Hset Hlv Hinit.
  destruct (Level_Set_parsed _ _ Hset) as [Hr Hs].
  assert (Hpos : (levelDefault <? flagLoglevel st)%N = true).
  { apply N.ltb_lt. unfold levelDefault, LevelDebug in *. lia. }
  assert (H1 : flagLoglevel st1 = flagLoglevel st).
  { unfold SetLevel in Hlv.
    destruct ((lv <? LevelDebug)%N || (LevelError <? lv)%N); [discriminate|].
    injection Hlv as <-. reflexivity. }
  assert (H2 : flagLoglevel st2 = flagLoglevel st).
  { unfold Init in Hinit. revert Hinit. munfold.
    destruct (inited st); cbn [fst snd];
      unfold SetName, SetLevel; cbn;
      destruct (String.eqb name ""); try discriminate; cbn;
      destruct ((lv' <? LevelDebug)%N || (LevelError <? lv')%N);
      try discriminate; cbn; intros E; injection E as <- _; reflexivity. }
  assert (L0 : level st = flagLoglevel st) by (unfold level; now rewrite Hpos).
  assert (L1 : level st1 = flagLoglevel st)
    by (unfold level; now rewrite H1, Hpos).
  assert (L2 : level st2 = flagLoglevel st)
    by (unfold level; now rewrite H2, Hpos).
  repeat (split; [assumption|]).
  unfold IsDebug. rewrite L2.
  revert Hs Hr. unfold Level_String, index_level, levelName, LevelDebug, LevelAction.
  intros Hs Hr.
  destruct (N.eqb_spec (flagLoglevel st) 1) as [E|E].
  - rewrite E in Hs. cbn in Hs. injection Hs as <-. reflexivity.
  - symmetry. apply String.eqb_neq. intros ->.
    assert (Hc : (N.to_nat (flagLoglevel st) < 6)%nat) by lia.
    destruct (N.to_nat (flagLoglevel st)) as [|[|[|[|[|[|k]]]]]] eqn:Ek;
      cbn in Hs; try discriminate; lia.
Qed.

Lemma loglevel_flag_overrides_witness :
  exists st2 os2,
    Init "app" LevelDebug false
      (mkLogtool false LevelAction "" "" "/data" "logtool" LevelDebug
         false None 3) os0 = (Ret st2, os2) /\
    level st2 = LevelAction /\ IsDebug st2 = false.
Proof.
  do 2 eexists. split; [reflexivity|].
  destruct (@loglevel_flag_overrides levelDefault LevelInfo LevelDebug
              "action" "app" false
              (mkLogtool false LevelAction "" "" "/data" "logtool" LevelDebug
                 false None 3)
              (mkLogtool false LevelAction "" "" "/data" "logtool" LevelInfo
                 false None 3)
              (mkLogtool true LevelAction "" "" "/data" "app" LevelDebug
                 false None 3) os0 os0)
    as (_ & _ & H2 & _ & _ & Hd); try reflexivity.
  split; [exact H2 | exact Hd].
Defined.

Lemma fileLogWriter_write_names (e : Env) (rt : Runtime) (lv : Level)
    (s : string) (w w' : fileLogWriter) (os os' : OS) :
  fileLogWriter_write e rt lv s w os = (Ret w', os') ->
  w_logName w' = w_logName w /\ w_basePath w' = w_basePath w.
Proof.
  unfold fileLogWriter_write. rewrite assemble_line_of.
  destruct (negb (lv <? 6)%N); [discriminate|].
  unfold bind at 1.
  match goal with
  | |- context [checkRotate e ?now ?sb os] =>
      destruct (checkRotate e now sb os) as [[r|m] os1]; [|discriminate]
  end.
  destruct (fst r) as [err|].
  - munfold. intros E. injection E as <- _. split; reflexivity.
  - unfold bind.
    destruct (bufferWriter_Write e (snd r) (line_of rt lv s) os1)
      as [[r2|m] os2]; [|discriminate].
    munfold. intros E. injection E as <- _. split; reflexivity.
Qed.

Lemma write_inited (e : Env) (rt : Runtime) (lv : Level) (msg : string)
    (st st' : Logtool) (os os' : OS) :
  inited st = true ->
  write e rt lv msg st os = (Ret st', os') ->
  exists w w' os1,
    logWriter (initWriter st) = Some w /\
    fileLogWriter_write e rt lv msg w os = (Ret w', os1) /\
    logWriter st' = Some w'.
Proof.
  intros Hin. unfold write. rewrite Hin. cbn [negb].
  replace (match logWriter st with None => initWriter st | Some _ => st end)
    with (initWriter st)
    by (unfold initWriter; destruct (logWriter st); reflexivity).
  destruct (logWriter (initWriter st)) as [w|]; [|discriminate].
  unfold bind at 1.
  destruct (fileLogWriter_write e rt lv msg w os) as [[w1|m] os1] eqn:Ef;
    [|discriminate].
  intros H. exists w, w1, os1. split; [reflexivity|]. split; [exact Ef|].
  revert H. destruct (alsoStdout _); [destruct (index_level levelName lv)|];
    munfold; intros E; try discriminate; injection E as <- _; reflexivity.
Qed.

(** X10: the name and the base path of the file writer are fixed by the
    first [write] after [Init].  Until then [SetName] and [SetLogPath] count,
    unless the [-logname] or [-logpath] flag is set, which wins; once the
    writer exists, the names given to [SetName] and [SetLogPath] are stored
    but the records keep going where the writer was set up to put them. *)
Theorem writer_names_fixed_at_first_write (e : Env) (rt : Runtime)
    (lv : Level) (msg name path : string) (st st1 st' : Logtool)
    (os os' : OS) :
  inited st = true ->
  SetName name st = Ret st1 ->
  write e rt lv msg (SetLogPath path st1) os = (Ret st', os') ->
  exists w',
    logWriter st' = Some w' /\
    match logWriter st with
    | Some w => w_logName w' = w_logName w /\ w_basePath w' = w_basePath w
    | None =>
        w_logName w' =
          (if String.eqb (flagLogname st) "" then name else flagLogname st) /\
        w_basePath w' =
          (if String.eqb (flagLogpath st) "" then
             if String.eqb path "" then logPath st else path
           else flagLogpath st)
    end.
Proof.
  intros Hin Hname Hw.
  unfold SetName in Hname. destruct (String.eqb name "") eqn:En; [discriminate|].
  injection Hname as <-.
  match type of Hw with
  | write _ _ _ _ ?s2 _ = _ =>
      assert (Hin2 : inited s2 = true)
        by (unfold SetLogPath; destruct (String.eqb path ""); exact Hin);
      destruct (write_inited _ _ _ _ _ _ Hin2 Hw)
        as (w & w' & os1 & Hi & Hf & Hl)
  end.
  destruct (fileLogWriter_write_names _ _ _ _ _ _ Hf) as [Hn Hp].
  exists w'. split; [exact Hl|]. rewrite Hn, Hp. clear -Hi En.
  revert Hi. unfold initWriter, SetLogPath.
  destruct (logWriter st) as [w0|] eqn:Ew.
  - destruct (String.eqb path ""); cbn; rewrite ?Ew; intros E;
      injection E as <-; split; reflexivity.
  - destruct (String.eqb path ""); cbn; rewrite ?Ew;
      destruct (String.eqb (flagLogname st) "");
      destruct (String.eqb (flagLogpath st) ""); cbn; intros E;
      injection E as <-; split; reflexivity.
Qed.

Lemma writer_names_fixed_at_first_write_witness :
  exists st' os' w',
    write env_ok rt0 LevelInfo "hello"
      (SetLogPath "/tmp"
         (mkLogtool true levelDefault "flagged" "" "/data" "app" LevelDebug
            false None 3)) os0 = (Ret st', os') /\
    logWriter st' = Some w' /\
    w_logName w' = "flagged" /\ w_basePath w' = "/tmp".
Proof.
  destruct (write env_ok rt0 LevelInfo "hello"
              (SetLogPath "/tmp"
                 (mkLogtool true levelDefault "flagged" "" "/data" "app"
                    LevelDebug false None 3)) os0) as [[st'|m] os'] eqn:E;
    [|vm_compute in E; discriminate].
  destruct (@writer_names_fixed_at_first_write env_ok rt0 LevelInfo "hello"
              "app" "/tmp"
              (mkLogtool true levelDefault "flagged" "" "/data" "logtool"
                 LevelDebug false None 3)
              (mkLogtool true levelDefault "flagged" "" "/data" "app"
                 LevelDebug false None 3) st' os0 os')
    as (w' & Hl & Hn & Hp); [reflexivity | reflexivity | exact E |].
  exists st', os', w'. split; [reflexivity|]. split; [exact Hl|].
  split; [exact Hn | exact Hp].
Defined.

Lemma substring_all (s : string) : substring 0 (String.length s) s = s.
Proof. induction s; cbn; congruence. Qed.

Lemma LogWriter_route_marked (this : LogWriter) (m rest : string) (lv : Level) :
  lw_level this = levelDefault -> In (m, lv) markers -> rest <> "" ->
  LogWriter_route this (m ++ rest) = (lv, rest).
Proof.
  intros Hd Hin Hr. unfold LogWriter_route. rewrite Hd.
  assert (Hlen : (3 <? len (m ++ rest))%N = true).
  { apply N.ltb_lt. rewrite len_app. unfold len.
    destruct rest; [contradiction|]. cbn [String.length].
    cbn in Hin. repeat destruct Hin as [Hin|Hin]; try contradiction;
      injection Hin as <- _; cbn [String.length]; lia. }
  rewrite Hlen.
  cbn in Hin. repeat destruct Hin as [Hin|Hin]; try contradiction;
    injection Hin as <- <-; cbn;
    rewrite Nat.sub_0_r, substring_all;
    replace (substring 0 0 rest) with ""%string by (destruct rest; reflexivity);
    reflexivity.
Qed.

Lemma LogWriter_route_cases (this : LogWriter) (data d : string) (l : Level) :
  LogWriter_route this data = (l, d) ->
  (l = lw_level this /\ d = data) \/
  (lw_level this = levelDefault /\
   exists m, In (m, l) markers /\ data = m ++ d /\ d <> "").
Proof.
  unfold LogWriter_route.
  destruct (lw_level this =? levelDefault)%N eqn:Hd; cbn [andb];
    [|intros E; injection E as <- <-; auto].
  destruct (3 <? len data)%N eqn:Hl; cbn [andb];
    [|intros E; injection E as <- <-; auto].
  destruct (match String.get 0 data with Some c => Ascii.eqb c "[" | None => false end);
    [|intros E; injection E as <- <-; auto].
  apply N.eqb_eq in Hd. apply N.ltb_lt in Hl. unfold len in Hl.
  assert (Hs : substring 0 3 data
               ++ substring 3 (String.length data - 3) data = data)
    by (apply substring_split; lia).
  assert (Hne : substring 3 (String.length data - 3) data <> "").
  { intros Habs. apply (f_equal String.length) in Habs.
    rewrite substring_length in Habs by lia. cbn in Habs. lia. }
  repeat match goal with
         | |- context [String.eqb ?a ?b] =>
             destruct (String.eqb_spec a b) as [?He|?He]
         end;
    intros E; injection E as <- <-; auto; right; (split; [exact Hd|]);
    match goal with
    | H : substring 0 3 data = ?m |- _ =>
        exists m; rewrite H in Hs;
        (split; [cbn; auto 6 | split; [symmetry; exact Hs | exact Hne]])
    end.
Qed.

(** X11: [Write] of a [LogWriter] never panics and reports the bytes it
    passed on.  A writer of [levelDefault] strips a leading [[D]], [[I]],
    [[W]] or [[E]] that is followed by at least one byte, logs the rest at
    the level of the marker, and returns the length of the rest, three less
    than the length it was given, with a nil error; every other record goes
    out whole at the writer's own level.  The record is written when its
    level is [levelDefault] or the effective level admits it, and dropped
    without any effect otherwise. *)
Theorem LogWriter_Write_strips_marker (e : Env) (rt : Runtime)
    (this : LogWriter) (data : string) (st : Logtool) (os : OS) :
  Logtool_wf st -> (lw_level this < 6)%N ->
  exists l d st' os',
    LogWriter_Write e rt this data st os = (Ret (len d, st'), os') /\
    Logtool_wf st' /\
    ((l = lw_level this /\ d = data) \/
     (lw_level this = levelDefault /\
      exists m, In (m, l) markers /\ data = m ++ d /\ d <> "")) /\
    (forall m lv rest,
       lw_level this = levelDefault -> In (m, lv) markers -> rest <> "" ->
       data = m ++ rest -> l = lv /\ d = rest) /\
    (if (l =? levelDefault)%N || (level st <=? l)%N
     then write e rt l d st os = (Ret st', os')
     else st' = st /\ os' = os).
Proof.
  intros Hst Hlv. unfold LogWriter_Write.
  destruct (LogWriter_route this data) as [l d] eqn:Er.
  pose proof (LogWriter_route_cases _ _ Er) as Hc.
  assert (Hl : (l < 6)%N).
  { destruct Hc as [[-> _]|(_ & m & Hin & _)]; [exact Hlv|].
    cbn in Hin. repeat destruct Hin as [Hin|Hin]; try contradiction;
      injection Hin as _ <-; reflexivity. }
  assert (Hm : forall m lv rest,
             lw_level this = levelDefault -> In (m, lv) markers ->
             rest <> "" -> data = m ++ rest -> l = lv /\ d = rest).
  { intros m lv rest Hd Hin Hr ->.
    rewrite (LogWriter_route_marked this Hd Hin Hr) in Er.
    injection Er as <- <-. auto. }
  destruct ((l =? levelDefault)%N || (level st <=? l)%N) eqn:Hadm.
  - destruct (@write_returns e rt l d st os Hst Hl) as (st' & os' & Hw & Hst').
    exists l, d, st', os'. unfold bind. rewrite Hw, Hadm.
    split; [reflexivity|]. split; [exact Hst'|]. split; [exact Hc|].
    split; [exact Hm | exact eq_refl].
  - exists l, d, st, os. rewrite Hadm.
    split; [reflexivity|]. split; [exact Hst|]. split; [exact Hc|].
    split; [exact Hm | exact (conj eq_refl eq_refl)].
Qed.

Lemma LogWriter_Write_strips_marker_witness :
  exists st' os',
    LogWriter_Write env_ok rt0 (NewLogWriter levelDefault) "[W]disk low"
      initial os0 = (Ret (8%N, st'), os').
Proof.
  destruct (@LogWriter_Write_strips_marker env_ok rt0
              (NewLogWriter levelDefault) "[W]disk low" initial os0)
    as (l & d & st' & os' & HW & _ & _ & Hm & _); [exact I | reflexivity |].
  destruct (Hm "[W]" LevelWarn "disk low") as [_ ->];
    [reflexivity | cbn; auto | discriminate | reflexivity |].
  exists st', os'. exact HW.
Defined.

(** X12: a program run from start to end, with no flag given and no system
    call failing: [Init] with a valid name and level prints nothing and makes
    no system call; an [Info] record the level admits creates the directory
    [/data/logs/name/yyyymm/dd] and opens [info-HH.log] in it, and by the end
    of [Exit] the line has been handed to that file in one [Write] and the
    file synced, with nothing printed;
    with the level at [warn] or [error] the record is dropped and no directory
    or file is ever made. *)
Theorem init_info_exit (e : Env) (rt : Runtime) (name msg : string)
    (lv : Level) (os : OS) :
  let dir := logDir "/data" name (rt_now rt) in
  let path := Join dir (logFile "info" 0 (rt_now rt)) in
  let nf := List.length (os_files os) in
  name <> "" -> (LevelDebug <= lv <= LevelError)%N ->
  mkdir_err e dir = None -> open_err e path = None -> write_err e nf = None ->
  exists st1 st2 st3 os2,
    Init name lv false initial os = (Ret st1, os) /\
    Info e rt msg st1 os = (Ret st2, os2) /\
    Exit e st2 os2 =
      (Ret st3,
       if (lv <=? LevelInfo)%N then
         mkOS (os_files os ++ [mkOFile path true])
              (os_trace os ++
               [EMkdirAll dir; EOpenFile path;
                EWrite nf (line_of rt LevelInfo msg); ESync nf])
              (os_console os)
       else os).
Proof.
  intros dir path nf Hname Hlv Hmk Hop Hwr.
  set (st1 := mkLogtool true levelDefault "" "" "/data" name lv false None 3).
  assert (Hinit : Init name lv false initial os = (Ret st1, os)).
  { unfold Init, initial. munfold. cbn [inited]. unfold SetName, SetLevel.
    apply String.eqb_neq in Hname. cbn. rewrite Hname. cbn.
    replace ((lv <? LevelDebug)%N || (LevelError <? lv)%N) with false.
    - reflexivity.
    - symmetry. apply Bool.orb_false_iff.
      split; [apply N.ltb_ge | apply N.ltb_ge]; lia. }
  exists st1. unfold Info. change (level st1) with lv.
  destruct (lv <=? LevelInfo)%N eqn:Hadm.
  - destruct (@first_write_exit_trace e rt LevelInfo msg name "/data" "info" os
                eq_refl Hmk Hop Hwr) as (w1 & os1 & w2 & Hw & Hx & _).
    exists (set_logWriter (Some w1) (initWriter st1)),
           (set_logWriter (Some w2) (set_logWriter (Some w1) (initWriter st1))),
           os1.
    split; [exact Hinit|]. split.
    + unfold write, st1. cbn [inited negb logWriter initWriter].
      cbn [String.eqb flagLogname flagLogpath negb logName logPath].
      unfold bind. rewrite Hw. reflexivity.
    + unfold Exit. cbn [logWriter set_logWriter]. unfold bind. rewrite Hx.
      reflexivity.
  - exists st1, st1, os. auto.
Qed.

Lemma init_info_exit_witness :
  exists st1 st2 st3 os2,
    Init "app" LevelDebug false initial os0 = (Ret st1, os0) /\
    Info env_ok rt0 "hello" st1 os0 = (Ret st2, os2) /\
    os_trace (snd (Exit env_ok st2 os2)) =
      [EMkdirAll "/data/logs/app/202401/05";
       EOpenFile "/data/logs/app/202401/05/info-07.log";
       EWrite 0%nat (line_of rt0 LevelInfo "hello"); ESync 0%nat] /\
    fst (Exit env_ok st2 os2) = Ret st3.
Proof.
  destruct (@init_info_exit env_ok rt0 "app" "hello" LevelDebug os0)
    as (st1 & st2 & st3 & os2 & Hi & Hw & Hx);
    [discriminate | unfold LevelDebug, LevelError; lia | reflexivity
    | reflexivity | reflexivity |].
  exists st1, st2, st3, os2. split; [exact Hi|]. split; [exact Hw|].
  rewrite Hx. split; reflexivity.
Defined.


(* ================================================================= *)
(** ** File names tell level, hour and slot apart *)







(* ================================================================= *)
(** ** The facade before [Init] *)

(** X14: until [Init] has run, the entry points never reach a file: a
    record the effective level admits is printed as one line on the console,
    with the time to the second, the caller prefix and the level name in
    brackets, and nothing else happens; no writer is set up, no system call
    is made, and the configuration stays as it was.  [Action] is printed
    whatever the level. *)
Theorem before_Init_console_only (e : Env) (rt : Runtime) (str : string)
    (st : Logtool) (os : OS) :
  inited st = false ->
  let line name :=
    Format_datetime (rt_now rt) ++ " " ++ GetPrefix rt (skip st) ++
    " [" ++ name ++ "] " ++ str in
  let printed (admitted : bool) name :=
    (Ret st,
     mkOS (os_files os) (os_trace os)
          (os_console os ++ (if admitted then [line name] else []))) in
  Debug e rt str st os = printed (level st <=? LevelDebug)%N "debug" /\
  Info e rt str st os = printed (level st <=? LevelInfo)%N "info" /\
  Warn e rt str st os = printed (level st <=? LevelWarn)%N "warn" /\
  Error e rt str st os = printed (level st <=? LevelError)%N "error" /\
  Action e rt (inl str) st os =
    (Ret (None, st),
     mkOS (os_files os) (os_trace os) (os_console os ++ [line "action"])).
Proof.
  intros Hin line printed.
  assert (Hos : mkOS (os_files os) (os_trace os) (os_console os ++ []) = os)
    by (destruct os; cbn; now rewrite app_nil_r).
  unfold Debug, Info, Warn, Error, Action, printed, line, write.
  rewrite Hin. cbn [negb index_level levelName nth_error N.to_nat
                    LevelDebug LevelInfo LevelWarn LevelError LevelAction
                    Pos.to_nat Pos.iter_op Nat.add].
  repeat split;
    try (match goal with
         | |- context [(level st <=? ?l)%N] => destruct (level st <=? l)%N
         end; [reflexivity | symmetry; apply (f_equal (pair (Ret st))); exact Hos]).
Qed.

Lemma before_Init_console_only_witness :
  Info env_nodir rt0 "hello" initial os0 =
  (Ret initial,
   mkOS [] []
     ["2024-01-05 07:03:09 reqid-18 main.go 42 :  [info] hello"]).
Proof.
  destruct (@before_Init_console_only env_nodir rt0 "hello" initial os0 eq_refl)
    as (_ & H & _).
  rewrite H. reflexivity.
Defined.
